(** * system_health_monitor.py: a shallow embedding and its properties

    The program is a single class, [SystemHealthMonitor], whose only
    attribute is [health_score].  Every method reads the live host through
    psutil, GPUtil, wmi, platform and subprocess, prints lines on the
    console and sometimes lowers the score.

    Modelling choices, all read off the source:
    - the host is a record [host] holding what each platform query answers
      during the run (a snapshot: the same query answers the same thing
      twice); a query either answers or raises, see [result];
    - a method is a function from the score before the call to a [run]:
      how the call ended (returned or raised), the score after it and the
      chronological list of what it did (queries made, lines printed);
    - a printed line is kept as a structured [line]; colour codes, emoji and
      number formatting are dropped, the values printed are kept;
    - the calls to [logging] write to the log file only and are left out;
    - psutil's percentages, frequencies and temperatures are Python floats
      compared with integer constants; they are taken as rationals.  The
      float product [gpu.load * 100] is taken as the reading itself
      ([load100]).  A byte count divided by [1024**3] is compared with a
      small integer bound, which the rational quotient decides exactly;
    - a string is a Python [str] whose characters are code points below
      256, one [ascii] each;
    - only exceptions deriving from [Exception] are modelled. *)

From Stdlib Require Import ZArith NArith QArith Bool List String Ascii Lia.
Import ListNotations.
Open Scope string_scope.
Open Scope list_scope.
Open Scope Z_scope.

(** * Part I: the embedding and the notions the properties use *)

(** ** Python helpers *)

Module Py.

(** [None], [False], [0], [''] are falsy; only what the program tests. *)
Definition truthy_str (s : string) : bool :=
  match s with EmptyString => false | _ => true end.

Definition truthy_list {A : Type} (l : list A) : bool :=
  match l with [] => false | _ => true end.

(** The truth of a value that is [None], [True] or [False]. *)
Definition truthy_opt (b : option bool) : bool :=
  match b with Some true => true | _ => false end.

(** [s.split(c)] for a one-character separator: never empty. *)
Fixpoint split (c : ascii) (s : string) : list string :=
  match s with
  | EmptyString => [EmptyString]
  | String a s' =>
      if Ascii.eqb a c then EmptyString :: split c s'
      else match split c s' with
           | w :: ws => String a w :: ws
           | [] => [String a EmptyString]
           end
  end.

(** White space as [str.strip] sees it: the characters for which
    [str.isspace] holds, which below 256 are the controls 9 to 13, the
    separators 28 to 31, the space, NEL (133) and the no-break space
    (160). *)
Definition is_space (a : ascii) : bool :=
  let n := N_of_ascii a in
  (((9 <=? n) && (n <=? 13)) || ((28 <=? n) && (n <=? 32))
   || (n =? 133) || (n =? 160))%N.

Fixpoint lstrip (l : list ascii) : list ascii :=
  match l with
  | a :: l' => if is_space a then lstrip l' else l
  | [] => []
  end.

Definition strip_chars (l : list ascii) : list ascii :=
  rev (lstrip (rev (lstrip l))).

Definition strip (s : string) : string :=
  string_of_list_ascii (strip_chars (list_ascii_of_string s)).

Definition is_digit (a : ascii) : bool :=
  let n := N_of_ascii a in ((48 <=? n) && (n <=? 57))%N.

Definition digit_val (a : ascii) : Z := Z.of_N (N_of_ascii a) - 48.

(** Decimal digits, a single underscore allowed between two digits. *)
Fixpoint digits (acc : Z) (after_digit : bool) (l : list ascii) : option Z :=
  match l with
  | [] => if after_digit then Some acc else None
  | a :: l' =>
      if is_digit a then digits (10 * acc + digit_val a) true l'
      else if Ascii.eqb a "_" && after_digit then
             match l' with
             | [] => None
             | _ => digits acc false l'
             end
      else None
  end.

(** White space as [int] sees it, which is less than [str.strip] does:
    [int] turns the white space above 127 into blanks and then skips the
    C white space only, so the separators 28 to 31 are not skipped and
    make the literal invalid. *)
Definition is_int_space (a : ascii) : bool :=
  let n := N_of_ascii a in
  (((9 <=? n) && (n <=? 13)) || (n =? 32) || (n =? 133) || (n =? 160))%N.

Fixpoint int_lstrip (l : list ascii) : list ascii :=
  match l with
  | a :: l' => if is_int_space a then int_lstrip l' else l
  | [] => []
  end.

Definition int_strip (l : list ascii) : list ascii :=
  rev (int_lstrip (rev (int_lstrip l))).

(** [sys.get_int_max_str_digits()], as the interpreter sets it: a
    literal with more digits is refused. *)
Definition int_max_str_digits : Z := 4300.

(** The literal once its sign is taken off. *)
Definition unsigned (l : list ascii) : list ascii :=
  match l with
  | "-"%char :: l' => l'
  | "+"%char :: l' => l'
  | _ => l
  end.

(** [int(s)] in base ten; [None] stands for [ValueError]. *)
Definition int (s : string) : option Z :=
  let l := int_strip (list_ascii_of_string s) in
  if int_max_str_digits <? Z.of_nat (List.length (filter is_digit (unsigned l)))
  then None
  else
    match l with
    | "-"%char :: l' => option_map Z.opp (digits 0 false l')
    | "+"%char :: l' => digits 0 false l'
    | _ => digits 0 false l
    end.

(** [needle in hay] on strings. *)
Fixpoint contains (needle hay : string) : bool :=
  String.prefix needle hay
  || match hay with
     | EmptyString => false
     | String _ hay' => contains needle hay'
     end.

(** [key in d] and [d[key]] on a dict kept as an association list. *)
Fixpoint lookup {A : Type} (key : string) (d : list (string * A)) : option A :=
  match d with
  | [] => None
  | (k, v) :: d' => if String.eqb k key then Some v else lookup key d'
  end.

(** [x > y] and [x < y] on floats. *)
Definition gt (x y : Q) : bool := negb (Qle_bool x y).
Definition lt (x y : Q) : bool := negb (Qle_bool y x).

End Py.

(** ** Exceptions and query results *)

(** The subclasses of [Exception] the program can meet. *)
Inductive exn : Type :=
| PermissionError
| CalledProcessError (output : string)
| ValueError
| IndexError
| TypeError
| AttributeError
| OtherError (msg : string).

(** What a call answers: a value, or an exception. *)
Inductive result (A : Type) : Type :=
| Ok (a : A)
| Raise (e : exn).
Arguments Ok {A} a.
Arguments Raise {A} e.

(** ** The host, as the program's queries see it *)

(** psutil's named tuples, with the fields the program reads. *)
Record scpufreq := { freq_current : Q; freq_max : Q }.
Record svmem := { vm_total : Z; vm_used : Z; vm_percent : Q }.
Record sdiskpart := { device : string; mountpoint : string }.
Record sdiskusage := { du_total : Z; du_used : Z; du_free : Z; du_percent : Q }.
Record sbattery := { percent : Q; power_plugged : option bool }.
Record snicaddr := { family : Z; address : string }.

(** A GPUtil GPU; [load100] is the value of [gpu.load * 100]. *)
Record GPU := { gpu_name : string; memoryTotal : Q; memoryUsed : Q;
                temperature : Q; load100 : Q }.

(** The WMI classes the program reads. *)
Record VideoController := { vc_Name : string; DriverVersion : string }.
Record DesktopMonitor := { dm_Name : string; ScreenWidth : Z; ScreenHeight : Z }.
Record BaseBoard := { bb_Manufacturer : string; Product : string }.
Record BIOS := { bios_Manufacturer : string; SMBIOSBIOSVersion : string }.
(** [SecureBoot] is an attribute access; its value is kept by its truth. *)
Record OperatingSystem := { SecureBoot : result bool }.
Record Tpm := { SpecVersion : option string }.

Record WMI := {
  Win32_VideoController : result (list VideoController);
  Win32_DesktopMonitor : result (list DesktopMonitor);
  Win32_BaseBoard : result (list BaseBoard);
  Win32_BIOS : result (list BIOS);
  Win32_OperatingSystem : result (list OperatingSystem);
  Win32_Tpm : result (list Tpm)
}.

Record host := {
  platform_system : string;
  platform_release : string;
  platform_version : string;
  platform_machine : string;
  platform_processor : string;
  platform_node : string;
  datetime_now : string;
  (** [subprocess.check_output] of the Get-HotFix pipeline *)
  get_hotfix : result string;
  cpu_percent : result Q;
  (** [psutil.cpu_freq()] and [psutil.cpu_count()] may answer [None] *)
  cpu_freq : result (option scpufreq);
  cpu_count : result (option Z);
  (** [hasattr(psutil, 'sensors_temperatures')] *)
  has_sensors_temperatures : bool;
  (** sensor name to the [current] field of its entries *)
  sensors_temperatures : result (list (string * list Q));
  virtual_memory : result svmem;
  disk_partitions : result (list sdiskpart);
  disk_usage : string -> result sdiskusage;
  sensors_battery : result (option sbattery);
  getGPUs : result (list GPU);
  (** a dict, kept in its iteration order *)
  net_if_addrs : result (list (string * list snicaddr));
  (** [psutil.AF_LINK], the family psutil gives to MAC addresses:
      -1 on Windows, [AF_PACKET] = 17 on Linux, 18 on macOS and the BSDs *)
  psutil_AF_LINK : Z;
  wmi_WMI : result WMI
}.

(** [socket.AF_INET] *)
Definition AF_INET : Z := 2.

(** ** What a run does: queries and printed lines *)

(** The calls a run records: those of psutil, GPUtil and wmi and the
    PowerShell pipeline run through subprocess.  The functions of
    [platform] and [datetime.now()] are read from the [host] record and
    leave no event. *)
Inductive query : Type :=
| Q_get_hotfix
| Q_cpu_percent
| Q_cpu_freq
| Q_cpu_count
| Q_sensors_temperatures
| Q_virtual_memory
| Q_disk_partitions
| Q_disk_usage (path : string)
| Q_sensors_battery
| Q_getGPUs
| Q_net_if_addrs
| Q_wmi_WMI
| Q_Win32_VideoController
| Q_Win32_DesktopMonitor
| Q_Win32_BaseBoard
| Q_Win32_BIOS
| Q_Win32_OperatingSystem
| Q_SecureBoot
| Q_Win32_Tpm.

Inductive value : Type :=
| VStr (s : string)
| VInt (z : Z)
| VNum (q : Q)
| VSize (w h : Z)
| VNone.

(** The red WARNING lines, one per threshold. *)
Inductive breach : Type :=
| HighCpuTemperature (t : Q)
| HighCpuUsage (u : Q)
| HighRamUsage (p : Q)
| DriveNearlyFull (p : Q)
| LowBattery
| HighGpu.

(** Fixed informational messages. *)
Inductive notice : Type :=
| StartingHealthCheck
| OnlyForWindows
| NoUpdateInformation
| CpuTemperatureNotAvailable
| NoSensorsTemperatures
| BatteryNotAvailable
| NoNvidiaGpu
| IdentifiedGraphicsCards
| ConnectedDisplays
| NothingIdentifiedViaWmi
| WmiOnlyOnWindows
| CheckOnlyForWindows
| AlreadyWindows11
| Rule.

(** The "Failed to ..." messages, by the handler that prints them. *)
Inductive failure : Type :=
| UpdateInfoFailed (output : string)
| UpdateInfoUnexpected
| CpuInfoFailed
| RamInfoFailed
| DiskAccessDenied (dev : string)
| DiskInfoFailed (dev : string)
| GputilFailed
| WmiDetectionFailed
| NetworkInfoFailed
| AdvancedHardwareFailed.

Inductive requirement : Type :=
| Processor
| Ram
| Storage
| SecureBootEnabled
| Tpm20.

(** PASSED, FAILED, and "FAILED: Could not check ...". *)
Inductive verdict : Type :=
| Passed
| Failed
| CouldNotCheck.

Inductive tone : Type :=
| GoodCondition
| NeedsAttention
| PoorCondition.

Inductive colour : Type :=
| GREEN
| YELLOW
| RED.

Inductive line : Type :=
| Banner (title : string)
| Item (label : string) (v : value)
| Measured (label : string) (v : value) (required : value)
| Text (s : string)
| Note (n : notice)
| Failure (f : failure) (e : exn)
| Warning (b : breach)
| Check (r : requirement) (v : verdict)
| TpmSecureBootError (e : exn)
| NoUpgradePath (version : string)
| CanUpgrade (target : string) (compatible : bool)
| ScoreLine (c : colour) (score : Z)
| MessageLine (t : tone).

Inductive event : Type :=
| Call (q : query)
| Print (l : line).

(** ** The monitor monad: score passing, exceptions, trace *)

Record run (A : Type) := mkRun {
  outcome : result A;
  health_score : Z;
  trace : list event
}.
Arguments mkRun {A} outcome health_score trace.
Arguments outcome {A} r.
Arguments health_score {A} r.
Arguments trace {A} r.

Definition M (A : Type) : Type := Z -> run A.

Definition ret {A : Type} (a : A) : M A :=
  fun s => mkRun (Ok a) s [].

Definition raise {A : Type} (e : exn) : M A :=
  fun s => mkRun (Raise e) s [].

Definition bind {A B : Type} (m : M A) (f : A -> M B) : M B :=
  fun s =>
    let r := m s in
    match outcome r with
    | Ok a =>
        let r' := f a (health_score r) in
        mkRun (outcome r') (health_score r') (trace r ++ trace r')
    | Raise e => mkRun (Raise e) (health_score r) (trace r)
    end.

(** [try: m  except Exception as e: h e]; what [m] did before raising
    stays done. *)
Definition try_except {A : Type} (m : M A) (h : exn -> M A) : M A :=
  fun s =>
    let r := m s in
    match outcome r with
    | Ok a => r
    | Raise e =>
        let r' := h e (health_score r) in
        mkRun (outcome r') (health_score r') (trace r ++ trace r')
    end.

Definition print (l : line) : M unit :=
  fun s => mkRun (Ok tt) s [Print l].

(** reading [self.health_score] *)
Definition get_score : M Z :=
  fun s => mkRun (Ok s) s [].

(** [self.health_score -= n] *)
Definition penalize (n : Z) : M unit :=
  fun s => mkRun (Ok tt) (s - n) [].

(** A platform query: recorded, then its answer or its exception. *)
Definition call {A : Type} (q : query) (r : result A) : M A :=
  fun s => mkRun r s [Call q].

(** [x[0]] on a list *)
Definition first {A : Type} (l : list A) : M A :=
  match l with
  | x :: _ => ret x
  | [] => raise IndexError
  end.

(** [x[n]] on a list *)
Definition item {A : Type} (l : list A) (n : nat) : M A :=
  match nth_error l n with
  | Some x => ret x
  | None => raise IndexError
  end.

(** [int(s)] *)
Definition py_int (s : string) : M Z :=
  match Py.int s with
  | Some z => ret z
  | None => raise ValueError
  end.

(** [x.attr] where [x] may be [None] *)
Definition not_none {A : Type} (o : option A) : M A :=
  match o with
  | Some x => ret x
  | None => raise AttributeError
  end.

Declare Scope monitor_scope.
Delimit Scope monitor_scope with monitor.
Notation "x <- m ;; k" := (bind m (fun x => k))
  (at level 61, m at next level, right associativity) : monitor_scope.
Notation "m ;; k" := (bind m (fun _ => k))
  (at level 61, right associativity) : monitor_scope.
Open Scope monitor_scope.

(** [if c: body] *)
Definition when (c : bool) (body : M unit) : M unit :=
  if c then body else ret tt.

(** [for x in xs: body x] *)
Fixpoint for_each {A : Type} (xs : list A) (body : A -> M unit) : M unit :=
  match xs with
  | [] => ret tt
  | x :: xs' => body x ;; for_each xs' body
  end.

(** ** The program *)

Definition opt_int (o : option Z) : value :=
  match o with Some z => VInt z | None => VNone end.

Definition opt_str (o : option string) : value :=
  match o with Some s => VStr s | None => VNone end.

(** [n / (1024**3)] *)
Definition gib (n : Z) : Q := inject_Z n / inject_Z (1024 ^ 3).

Arguments gib : simpl never.
Arguments Py.gt : simpl never.
Arguments Py.lt : simpl never.
Arguments Py.strip : simpl never.
Arguments Py.contains : simpl never.
Arguments Py.int : simpl never.
Arguments Py.split : simpl never.

(** [print_section(title)] *)
Definition print_section (title : string) : M unit :=
  print (Banner title).

(** The [upgrade_requirements] dict; the two Windows 11 keys are absent
    from the other targets. *)
Record requirements := {
  CPU_CORES : Z;
  CPU_FREQ : Z;
  RAM_GB : Z;
  DISK_GB : Z;
  TPM_2 : option bool;
  SECURE_BOOT : option bool
}.

(** [AUTHOR_INFO] *)
Definition AUTHOR_INFO : string := "Created by Mohammad Darudi".

Module SystemHealthMonitor.

(** [__init__]: the monitor just built, with the score it starts with and
    the two lines the constructor prints. *)
Definition init : run unit :=
  mkRun (Ok tt) 100
    [Print (Note StartingHealthCheck); Print (Text AUTHOR_INFO)].

Definition get_system_info (h : host) : M unit :=
  print_section "System Information";;
  let info :=
    [ ("Operating System",
       (platform_system h ++ " " ++ platform_release h)%string);
      ("Architecture", platform_machine h);
      ("Processor", platform_processor h);
      ("Hostname", platform_node h);
      ("Current Time", datetime_now h) ] in
  for_each info (fun kv => print (Item (fst kv) (VStr (snd kv)))).

Definition get_last_windows_update (h : host) : M unit :=
  if negb (platform_system h =? "Windows")%string then
    print (Note OnlyForWindows)
  else
    print_section "Last Windows Update";;
    try_except
      (result <- call Q_get_hotfix (get_hotfix h);;
       let update_info := Py.strip result in
       if Py.truthy_str update_info then print (Text update_info)
       else print (Note NoUpdateInformation))
      (fun e =>
         match e with
         | CalledProcessError output =>
             print (Failure (UpdateInfoFailed (Py.strip output)) e)
         | _ => print (Failure UpdateInfoUnexpected e)
         end).

Definition get_cpu_info (h : host) : M unit :=
  print_section "Processor (CPU) Information";;
  try_except
    (usage <- call Q_cpu_percent (cpu_percent h);;
     freq <- call Q_cpu_freq (cpu_freq h);;
     cores <- call Q_cpu_count (cpu_count h);;
     print (Item "Core Count" (opt_int cores));;
     f <- not_none freq;;
     print (Item "Max Frequency" (VNum (freq_max f)));;
     print (Item "Current Frequency" (VNum (freq_current f)));;
     print (Item "CPU Usage" (VNum usage));;
     (if has_sensors_temperatures h then
        temps <- call Q_sensors_temperatures (sensors_temperatures h);;
        match Py.lookup "coretemp" temps with
        | Some entries =>
            cpu_temp <- first entries;;
            print (Item "CPU Temperature" (VNum cpu_temp));;
            when (Py.gt cpu_temp 85)
              (penalize 15;;
               print (Warning (HighCpuTemperature cpu_temp)))
        | None => print (Note CpuTemperatureNotAvailable)
        end
      else print (Note NoSensorsTemperatures));;
     when (Py.gt usage 85)
       (penalize 10;;
        print (Warning (HighCpuUsage usage))))
    (fun e => print (Failure CpuInfoFailed e)).

Definition get_ram_info (h : host) : M unit :=
  print_section "Memory (RAM) Information";;
  try_except
    (mem <- call Q_virtual_memory (virtual_memory h);;
     print (Item "Total Memory" (VNum (gib (vm_total mem))));;
     print (Item "Used Memory" (VNum (gib (vm_used mem))));;
     print (Item "Memory Usage" (VNum (vm_percent mem)));;
     when (Py.gt (vm_percent mem) 85)
       (penalize 10;;
        print (Warning (HighRamUsage (vm_percent mem)))))
    (fun e => print (Failure RamInfoFailed e)).

(** The body of the loop of [get_disk_info], for one partition. *)
Definition disk_loop_body (h : host) (partition : sdiskpart) : M unit :=
  try_except
    (usage <- call (Q_disk_usage (mountpoint partition))
                   (disk_usage h (mountpoint partition));;
     print (Item "Drive" (VStr (device partition)));;
     print (Item "Total Space" (VNum (gib (du_total usage))));;
     print (Item "Used Space" (VNum (gib (du_used usage))));;
     print (Item "Free Space" (VNum (gib (du_free usage))));;
     print (Item "Usage Percentage" (VNum (du_percent usage)));;
     when (Py.gt (du_percent usage) 90)
       (penalize 10;;
        print (Warning (DriveNearlyFull (du_percent usage)))))
    (fun e =>
       match e with
       | PermissionError =>
           print (Failure (DiskAccessDenied (device partition)) e)
       | _ => print (Failure (DiskInfoFailed (device partition)) e)
       end).

Definition get_disk_info (h : host) : M unit :=
  print_section "Disk Information";;
  partitions <- call Q_disk_partitions (disk_partitions h);;
  for_each partitions (fun partition => disk_loop_body h partition).

Definition get_battery_info (h : host) : M unit :=
  print_section "Battery Information";;
  battery <- call Q_sensors_battery (sensors_battery h);;
  match battery with
  | Some b =>
      print (Item "Charge Level" (VNum (percent b)));;
      print (Item "Status"
               (VStr (if Py.truthy_opt (power_plugged b) then "Plugged In"
                      else "On Battery")));;
      when (Py.lt (percent b) 30 && negb (Py.truthy_opt (power_plugged b)))
        (penalize 10;;
         print (Warning LowBattery))
  | None => print (Note BatteryNotAvailable)
  end.

Definition _fallback_gpu_detection (h : host) : M unit :=
  try_except
    (if (platform_system h =? "Windows")%string then
       c <- call Q_wmi_WMI (wmi_WMI h);;
       gpu_list <- call Q_Win32_VideoController (Win32_VideoController c);;
       display_list <- call Q_Win32_DesktopMonitor (Win32_DesktopMonitor c);;
       when (Py.truthy_list gpu_list)
         (print (Note IdentifiedGraphicsCards);;
          for_each gpu_list (fun gpu =>
            print (Text (vc_Name gpu));;
            print (Item "Driver Version" (VStr (DriverVersion gpu)))));;
       when (Py.truthy_list display_list)
         (print (Note ConnectedDisplays);;
          for_each display_list (fun monitor =>
            print (Text (dm_Name monitor));;
            print (Item "Resolution"
                     (VSize (ScreenWidth monitor) (ScreenHeight monitor)))));;
       when (negb (Py.truthy_list gpu_list)
             && negb (Py.truthy_list display_list))
         (print (Note NothingIdentifiedViaWmi))
     else print (Note WmiOnlyOnWindows))
    (fun e => print (Failure WmiDetectionFailed e)).

Definition get_gpu_info (h : host) : M unit :=
  print_section "Graphics Card (GPU) Information";;
  try_except
    (gpus <- call Q_getGPUs (getGPUs h);;
     if Py.truthy_list gpus then
       for_each gpus (fun gpu =>
         print (Item "NVIDIA GPU" (VStr (gpu_name gpu)));;
         print (Item "Total Memory" (VNum (memoryTotal gpu)));;
         print (Item "Used Memory" (VNum (memoryUsed gpu)));;
         print (Item "Temperature" (VNum (temperature gpu)));;
         print (Item "Load" (VNum (load100 gpu)));;
         when (Py.gt (load100 gpu) 90 || Py.gt (temperature gpu) 85)
           (penalize 10;;
            print (Warning HighGpu)))
     else
       print (Note NoNvidiaGpu);;
       _fallback_gpu_detection h)
    (fun e =>
       print (Failure GputilFailed e);;
       _fallback_gpu_detection h).

Definition get_network_info (h : host) : M unit :=
  print_section "Network Information";;
  try_except
    (net <- call Q_net_if_addrs (net_if_addrs h);;
     for_each net (fun entry =>
       let interface := fst entry in
       let addresses := snd entry in
       print (Item "Interface" (VStr interface));;
       for_each addresses (fun addr =>
         if family addr =? -1 then
           print (Item "MAC Address" (VStr (address addr)))
         else if family addr =? AF_INET then
           print (Item "IP Address" (VStr (address addr)))
         else ret tt)))
    (fun e => print (Failure NetworkInfoFailed e)).

Definition get_advanced_hardware_info (h : host) : M unit :=
  if negb (platform_system h =? "Windows")%string then
    print_section "Advanced Hardware Information";;
    print (Note OnlyForWindows)
  else
    print_section "Advanced Hardware Information";;
    try_except
      (c <- call Q_wmi_WMI (wmi_WMI h);;
       boards <- call Q_Win32_BaseBoard (Win32_BaseBoard c);;
       motherboard_info <- first boards;;
       print (Item "Motherboard Manufacturer"
                (VStr (bb_Manufacturer motherboard_info)));;
       print (Item "Motherboard Model" (VStr (Product motherboard_info)));;
       bioses <- call Q_Win32_BIOS (Win32_BIOS c);;
       bios_info <- first bioses;;
       print (Item "BIOS Manufacturer" (VStr (bios_Manufacturer bios_info)));;
       print (Item "BIOS Version" (VStr (SMBIOSBIOSVersion bios_info))))
      (fun e => print (Failure AdvancedHardwareFailed e)).

Definition requirements_8_1 : requirements :=
  {| CPU_CORES := 1; CPU_FREQ := 1000; RAM_GB := 2; DISK_GB := 40;
     TPM_2 := None; SECURE_BOOT := None |}.

Definition requirements_10 : requirements :=
  {| CPU_CORES := 1; CPU_FREQ := 1000; RAM_GB := 2; DISK_GB := 40;
     TPM_2 := None; SECURE_BOOT := None |}.

Definition requirements_11 : requirements :=
  {| CPU_CORES := 2; CPU_FREQ := 1000; RAM_GB := 4; DISK_GB := 64;
     TPM_2 := Some true; SECURE_BOOT := Some true |}.

(** The "Check CPU" block; [compatible] is the flag as it stands when
    the block starts, the result is the flag when it ends. *)
Definition check_cpu (h : host) (upgrade_requirements : requirements)
    (compatible : bool) : M bool :=
  try_except
    (cpu_cores <- call Q_cpu_count (cpu_count h);;
     freq <- call Q_cpu_freq (cpu_freq h);;
     f <- not_none freq;;
     let cpu_freq := freq_current f in
     print (Measured "CPU Cores" (opt_int cpu_cores)
              (VInt (CPU_CORES upgrade_requirements)));;
     print (Measured "CPU Frequency" (VNum cpu_freq)
              (VInt (CPU_FREQ upgrade_requirements)));;
     match cpu_cores with
     | None => raise TypeError
     | Some n =>
         if (n <? CPU_CORES upgrade_requirements)
            || Py.lt cpu_freq (inject_Z (CPU_FREQ upgrade_requirements))
         then print (Check Processor Failed);; ret false
         else print (Check Processor Passed);; ret compatible
     end)
    (fun _ => print (Check Processor CouldNotCheck);; ret false).

(** The "Check RAM" block. *)
Definition check_ram (h : host) (upgrade_requirements : requirements)
    (compatible : bool) : M bool :=
  try_except
    (mem <- call Q_virtual_memory (virtual_memory h);;
     let ram_gb := gib (vm_total mem) in
     print (Measured "Total RAM" (VNum ram_gb)
              (VInt (RAM_GB upgrade_requirements)));;
     if Py.lt ram_gb (inject_Z (RAM_GB upgrade_requirements))
     then print (Check Ram Failed);; ret false
     else print (Check Ram Passed);; ret compatible)
    (fun _ => print (Check Ram CouldNotCheck);; ret false).

(** The "Check Storage" block. *)
Definition check_storage (h : host) (upgrade_requirements : requirements)
    (compatible : bool) : M bool :=
  try_except
    (disk_usage <- call (Q_disk_usage "C:\") (disk_usage h "C:\");;
     let disk_gb := gib (du_total disk_usage) in
     print (Measured "System Drive Storage" (VNum disk_gb)
              (VInt (DISK_GB upgrade_requirements)));;
     if Py.lt disk_gb (inject_Z (DISK_GB upgrade_requirements))
     then print (Check Storage Failed);; ret false
     else print (Check Storage Passed);; ret compatible)
    (fun _ => print (Check Storage CouldNotCheck);; ret false).

(** The "Check TPM and Secure Boot" block: one [try] around both. *)
Definition check_tpm_secure_boot (h : host) (upgrade_target : string)
    (compatible : bool) : M bool :=
  if (upgrade_target =? "Windows 11")%string then
    try_except
      (c <- call Q_wmi_WMI (wmi_WMI h);;
       systems <- call Q_Win32_OperatingSystem (Win32_OperatingSystem c);;
       os <- first systems;;
       secure_boot <- call Q_SecureBoot (SecureBoot os);;
       print (Measured "Secure Boot"
                (VStr (if secure_boot then "Enabled" else "Disabled"))
                (VStr "Enabled"));;
       compatible <-
         (if negb secure_boot
          then print (Check SecureBootEnabled Failed);; ret false
          else print (Check SecureBootEnabled Passed);; ret compatible);;
       tpms <- call Q_Win32_Tpm (Win32_Tpm c);;
       tpm_status <- first tpms;;
       let tpm_version := SpecVersion tpm_status in
       let is_tpm_2_0 :=
         match tpm_version with
         | Some v => if Py.truthy_str v then Py.contains "2.0" v else false
         | None => false
         end in
       print (Measured "TPM Version" (opt_str tpm_version) (VStr "2.0"));;
       if negb is_tpm_2_0
       then print (Check Tpm20 Failed);; ret false
       else print (Check Tpm20 Passed);; ret compatible)
      (fun e => print (TpmSecureBootError e);; ret false)
  else ret compatible.

(** Lines 371-451: what [check_upgrade_compatibility] does once a target
    and its requirements are chosen. *)
Definition check_requirements (h : host) (upgrade_target : string)
    (upgrade_requirements : requirements) : M unit :=
  print_section ("Upgrade Compatibility Check for " ++ upgrade_target)%string;;
  let compatible := true in
  compatible <- check_cpu h upgrade_requirements compatible;;
  compatible <- check_ram h upgrade_requirements compatible;;
  compatible <- check_storage h upgrade_requirements compatible;;
  compatible <- check_tpm_secure_boot h upgrade_target compatible;;
  print (Note Rule);;
  print (CanUpgrade upgrade_target compatible);;
  print (Note Rule).

Definition check_upgrade_compatibility (h : host) : M unit :=
  if negb (platform_system h =? "Windows")%string then
    print_section "Windows Upgrade Compatibility";;
    print (Note CheckOnlyForWindows)
  else
    let current_version := platform_release h in
    part <- item (Py.split "." current_version) 0;;
    current_version_major <- py_int part;;
    if current_version_major =? 7 then
      check_requirements h "Windows 8.1" requirements_8_1
    else if current_version_major =? 8 then
      check_requirements h "Windows 10" requirements_10
    else if current_version_major =? 10 then
      part <- item (Py.split "." (platform_version h)) 2;;
      build_number <- py_int part;;
      if build_number >=? 22000 then
        print_section "Windows Upgrade Compatibility";;
        print (Note AlreadyWindows11)
      else
        check_requirements h "Windows 11" requirements_11
    else
      print_section "Windows Upgrade Compatibility";;
      print (NoUpgradePath current_version).

Definition show_health_report : M unit :=
  print_section "System Health Report";;
  health_score <- get_score;;
  let color :=
    if health_score >=? 80 then GREEN
    else if health_score >=? 50 then YELLOW
    else RED in
  let message :=
    if health_score >=? 80 then GoodCondition
    else if health_score >=? 50 then NeedsAttention
    else PoorCondition in
  print (ScoreLine color health_score);;
  print (MessageLine message).

Definition run_all_checks (h : host) : M unit :=
  get_system_info h;;
  get_last_windows_update h;;
  get_cpu_info h;;
  get_ram_info h;;
  get_disk_info h;;
  get_battery_info h;;
  get_gpu_info h;;
  get_network_info h;;
  get_advanced_hardware_info h;;
  check_upgrade_compatibility h;;
  show_health_report.

(** [monitor = SystemHealthMonitor(); monitor.run_all_checks()] *)
Definition main (h : host) : run unit :=
  let monitor := init in
  let r := run_all_checks h (health_score monitor) in
  mkRun (outcome r) (health_score r) (trace monitor ++ trace r).

End SystemHealthMonitor.

Import SystemHealthMonitor.

(** ** Reasoning about runs *)

(** The penalty the specification attaches to each kind of breach. *)
Definition penalty (b : breach) : Z :=
  match b with
  | HighCpuTemperature _ => 15
  | HighCpuUsage _ => 10
  | HighRamUsage _ => 10
  | DriveNearlyFull _ => 10
  | LowBattery => 10
  | HighGpu => 10
  end.

(** The breaches a run reported, in order. *)
Fixpoint breaches (t : list event) : list breach :=
  match t with
  | [] => []
  | Print (Warning b) :: t' => b :: breaches t'
  | _ :: t' => breaches t'
  end.

Fixpoint total_penalty (bs : list breach) : Z :=
  match bs with
  | [] => 0
  | b :: bs' => penalty b + total_penalty bs'
  end.

(** The lines a run printed and the queries it made, in order. *)
Fixpoint printed (t : list event) : list line :=
  match t with
  | [] => []
  | Print l :: t' => l :: printed t'
  | Call _ :: t' => printed t'
  end.

Fixpoint queried (t : list event) : list query :=
  match t with
  | [] => []
  | Call q :: t' => q :: queried t'
  | Print _ :: t' => queried t'
  end.

(** A relation between the score before a call, the score after it and
    the trace of the call, that holds of doing nothing and of a query and
    composes along sequencing. *)
Class Compositional (R : Z -> Z -> list event -> Prop) : Prop := {
  comp_nil : forall s, R s s [];
  comp_call : forall s q, R s s [Call q];
  comp_app : forall s s' s'' t t',
      R s s' t -> R s' s'' t' -> R s s'' (t ++ t')
}.

(** [m] keeps [R], however it ends and whatever the score before. *)
Definition keeps {A : Type} (R : Z -> Z -> list event -> Prop) (m : M A) : Prop :=
  forall s, R s (health_score (m s)) (trace (m s)).

(** *** The score accounts for the breaches reported *)

Definition accounted (s s' : Z) (t : list event) : Prop :=
  s' = s - total_penalty (breaches t).

(** *** The score never goes up *)

Definition not_raised (s s' : Z) (t : list event) : Prop := s' <= s.

(** *** The score is left alone *)

Definition untouched (s s' : Z) (t : list event) : Prop := s' = s.

(** *** No score line is printed *)

Definition is_score_line (l : line) : bool :=
  match l with ScoreLine _ _ => true | _ => false end.

Definition no_score_line (s s' : Z) (t : list event) : Prop :=
  forall l, In l (printed t) -> is_score_line l = false.

(** *** A breach is reported only beyond its threshold *)

(** The reading a warning carries is beyond the threshold of its kind;
    the battery and GPU warnings carry no reading. *)
Definition beyond_threshold (b : breach) : Prop :=
  match b with
  | HighCpuTemperature t => (85 < t)%Q
  | HighCpuUsage u => (85 < u)%Q
  | HighRamUsage p => (85 < p)%Q
  | DriveNearlyFull p => (90 < p)%Q
  | LowBattery => True
  | HighGpu => True
  end.

Definition justified (s s' : Z) (t : list event) : Prop :=
  forall b, In b (breaches t) -> beyond_threshold b.

(** ** The methods of the class, one by one *)

Inductive method : Type :=
| GetSystemInfo
| GetLastWindowsUpdate
| GetCpuInfo
| GetRamInfo
| GetDiskInfo
| GetBatteryInfo
| GetGpuInfo
| FallbackGpuDetection
| GetNetworkInfo
| GetAdvancedHardwareInfo
| CheckUpgradeCompatibility
| ShowHealthReport
| RunAllChecks.

Definition exec (h : host) (m : method) : M unit :=
  match m with
  | GetSystemInfo => get_system_info h
  | GetLastWindowsUpdate => get_last_windows_update h
  | GetCpuInfo => get_cpu_info h
  | GetRamInfo => get_ram_info h
  | GetDiskInfo => get_disk_info h
  | GetBatteryInfo => get_battery_info h
  | GetGpuInfo => get_gpu_info h
  | FallbackGpuDetection => _fallback_gpu_detection h
  | GetNetworkInfo => get_network_info h
  | GetAdvancedHardwareInfo => get_advanced_hardware_info h
  | CheckUpgradeCompatibility => check_upgrade_compatibility h
  | ShowHealthReport => show_health_report
  | RunAllChecks => run_all_checks h
  end.

(** The methods that contain a [self.health_score -= ...]. *)
Definition scoring (m : method) : bool :=
  match m with
  | GetCpuInfo | GetRamInfo | GetDiskInfo | GetBatteryInfo | GetGpuInfo => true
  | _ => false
  end.

(** *** Methods that cannot raise *)

Definition returns {A : Type} (m : M A) : Prop :=
  forall s, exists a, outcome (m s) = Ok a.

(** The methods whose every query sits inside a [try]. *)
Definition guarded (m : method) : bool :=
  match m with
  | GetDiskInfo | GetBatteryInfo | CheckUpgradeCompatibility | RunAllChecks => false
  | _ => true
  end.

(** ** Sample hosts *)

Definition GiB : Z := 1024 ^ 3.

Definition usage_of (total used : Z) (pct : Q) : sdiskusage :=
  {| du_total := total; du_used := used; du_free := total - used;
     du_percent := pct |}.

(** [psutil.disk_usage] from a table of mount points. *)
Definition usage_table (table : list (string * result sdiskusage))
    (path : string) : result sdiskusage :=
  match Py.lookup path table with
  | Some r => r
  | None => Raise (OtherError "FileNotFoundError")
  end.

Definition wmi_of (secure_boot : result bool) (tpm : result (list Tpm)) : WMI :=
  {| Win32_VideoController :=
       Ok [ {| vc_Name := "Basic Display Adapter"; DriverVersion := "10.0" |} ];
     Win32_DesktopMonitor := Ok [];
     Win32_BaseBoard := Ok [ {| bb_Manufacturer := "ACME"; Product := "B450" |} ];
     Win32_BIOS :=
       Ok [ {| bios_Manufacturer := "ACME"; SMBIOSBIOSVersion := "F2" |} ];
     Win32_OperatingSystem := Ok [ {| SecureBoot := secure_boot |} ];
     Win32_Tpm := tpm |}.

(** A host, from the parts the examples vary. *)
Definition a_host (system release version : string) (cores : option Z)
    (mhz : Q) (ram : Z) (partitions : result (list sdiskpart))
    (usage : string -> result sdiskusage)
    (battery : result (option sbattery))
    (nics : list (string * list snicaddr)) (af_link : Z)
    (wmi : result WMI) : host :=
  {| platform_system := system;
     platform_release := release;
     platform_version := version;
     platform_machine := "AMD64";
     platform_processor := "x86";
     platform_node := "box";
     datetime_now := "2024-01-01 00:00:00";
     get_hotfix := Ok "KB5031356";
     cpu_percent := Ok (125 # 10);
     cpu_freq := Ok (Some {| freq_current := mhz; freq_max := mhz |});
     cpu_count := Ok cores;
     has_sensors_temperatures := false;
     sensors_temperatures := Ok [];
     virtual_memory :=
       Ok {| vm_total := ram; vm_used := ram / 2; vm_percent := 50 |};
     disk_partitions := partitions;
     disk_usage := usage;
     sensors_battery := battery;
     getGPUs := Ok [];
     net_if_addrs := Ok nics;
     psutil_AF_LINK := af_link;
     wmi_WMI := wmi |}.

Definition drive_c : sdiskpart := {| device := "C:\"; mountpoint := "C:\" |}.

(** Windows 10 build 19045: one core at 2000 MHz, 8 GB of RAM, a 100 GB
    system drive, TPM 2.0, Secure Boot enabled. *)
Definition windows10_one_core : host :=
  a_host "Windows" "10" "10.0.19045" (Some 1) 2000 (8 * GiB)
    (Ok [drive_c])
    (usage_table [("C:\", Ok (usage_of (100 * GiB) (40 * GiB) 40))])
    (Ok None)
    [("Ethernet", [ {| family := -1; address := "00-11-22-33-44-55" |};
                    {| family := 2; address := "192.168.1.10" |} ])]
    (-1)
    (Ok (wmi_of (Ok true) (Ok [ {| SpecVersion := Some "2.0, 0, 1.38" |} ]))).

(** The same machine with two cores, where [Win32_OperatingSystem] has
    no [SecureBoot] attribute. *)
Definition windows10_no_secure_boot_attribute : host :=
  a_host "Windows" "10" "10.0.19045" (Some 2) 2000 (8 * GiB)
    (Ok [drive_c])
    (usage_table [("C:\", Ok (usage_of (100 * GiB) (40 * GiB) 40))])
    (Ok None)
    []
    (-1)
    (Ok (wmi_of (Raise AttributeError)
           (Ok [ {| SpecVersion := Some "2.0, 0, 1.38" |} ]))).

(** Windows 11, which reports release 10 and build 22000. *)
Definition windows11 : host :=
  a_host "Windows" "10" "10.0.22000" (Some 8) 3000 (16 * GiB)
    (Ok [drive_c])
    (usage_table [("C:\", Ok (usage_of (500 * GiB) (100 * GiB) 20))])
    (Ok None)
    []
    (-1)
    (Ok (wmi_of (Ok true) (Ok [ {| SpecVersion := Some "2.0" |} ]))).

Definition nearly_full_mount : sdiskpart :=
  {| device := "/dev/sda1"; mountpoint := "/mnt" |}.

(** A Linux machine with [drives] mounts that are 95% full and a wired
    interface; psutil gives the MAC address the family [AF_PACKET]. *)
Definition linux_box (drives : nat) (battery : result (option sbattery)) : host :=
  a_host "Linux" "6.8.0" "#1 SMP" (Some 4) 2400 (8 * GiB)
    (Ok (repeat nearly_full_mount drives))
    (usage_table [("/mnt", Ok (usage_of (100 * GiB) (95 * GiB) 95))])
    battery
    [("eth0", [ {| family := 17; address := "aa:bb:cc:dd:ee:ff" |};
                {| family := 2; address := "10.0.0.5" |} ])]
    17
    (Raise (OtherError "wmi")).

(** A desktop where [psutil.sensors_battery()] raises. *)
Definition linux_battery_fault : host :=
  linux_box 1 (Raise (OtherError "sensors_battery")).

(** A laptop on battery at 20%, with eleven nearly full mounts. *)
Definition linux_on_battery : host :=
  linux_box 11 (Ok (Some {| percent := 20; power_plugged := Some false |})).

(** ** The health score over a run *)

(** Where the score is rendered: every score line of the run carries the
    score the run ends with, and a run that returns has printed one. *)
Definition renders (k : M unit) : Prop :=
  forall s,
    (forall c x, In (ScoreLine c x) (printed (trace (k s))) ->
                 x = health_score (k s)) /\
    (outcome (k s) = Ok tt ->
     exists c, In (ScoreLine c (health_score (k s))) (printed (trace (k s)))).

(** The order in which [run_all_checks] calls the other methods. *)
Definition run_order : list method :=
  [ GetSystemInfo; GetLastWindowsUpdate; GetCpuInfo; GetRamInfo; GetDiskInfo;
    GetBatteryInfo; GetGpuInfo; GetNetworkInfo; GetAdvancedHardwareInfo;
    CheckUpgradeCompatibility; ShowHealthReport ].

(** The score after the first [n] methods of a run. *)
Definition score_after (h : host) (n : nat) : Z :=
  health_score (for_each (firstn n run_order) (exec h) (health_score init)).

(** ** The report *)

(** The message lines of a run. *)
Fixpoint messages (t : list event) : list tone :=
  match t with
  | [] => []
  | Print (MessageLine m) :: t' => m :: messages t'
  | _ :: t' => messages t'
  end.

(** ** The disk check *)

(** The partition is readable and more than 90% used. *)
Definition nearly_full (h : host) (p : sdiskpart) : bool :=
  match disk_usage h (mountpoint p) with
  | Ok u => Py.gt (du_percent u) 90
  | Raise _ => false
  end.

(** ** The upgrade check *)

(** [int(platform.release().split('.')[0])], when it is a number. *)
Definition current_version_major (h : host) : option Z :=
  match nth_error (Py.split "." (platform_release h)) 0 with
  | Some part => Py.int part
  | None => None
  end.

(** [int(platform.version().split('.')[2])], when there is one. *)
Definition build_number (h : host) : option Z :=
  match nth_error (Py.split "." (platform_version h)) 2 with
  | Some part => Py.int part
  | None => None
  end.

(** The target [check_upgrade_compatibility] settles on and its
    requirements, when it settles on one. *)
Definition candidate (h : host) : option (string * requirements) :=
  match current_version_major h with
  | Some major =>
      if major =? 7 then Some ("Windows 8.1", requirements_8_1)
      else if major =? 8 then Some ("Windows 10", requirements_10)
      else if major =? 10 then
        match build_number h with
        | Some build =>
            if build >=? 22000 then None
            else Some ("Windows 11", requirements_11)
        | None => None
        end
      else None
  | None => None
  end.

(** The lines that give the result of a requirement check. *)
Definition is_result (l : line) : bool :=
  match l with
  | Check _ _ => true
  | TpmSecureBootError _ => true
  | _ => false
  end.

Definition results (t : list event) : list line :=
  filter is_result (printed t).

Definition passed (l : line) : bool :=
  match l with
  | Check _ Passed => true
  | _ => false
  end.

(** No result line of the list is a failure. *)
Definition all_passed (ls : list line) : bool := forallb passed ls.

(** The final lines, "can be upgraded" or "does not meet". *)
Fixpoint can_upgrade_lines (t : list event) : list (string * bool) :=
  match t with
  | [] => []
  | Print (CanUpgrade target c) :: t' => (target, c) :: can_upgrade_lines t'
  | _ :: t' => can_upgrade_lines t'
  end.

(** The requirements the specification lists for a target. *)
Definition required (upgrade_target : string) : list requirement :=
  [Processor; Ram; Storage]
  ++ (if (upgrade_target =? "Windows 11")%string
      then [SecureBootEnabled; Tpm20] else []).

(** The query that evaluates a requirement. *)
Definition query_of (r : requirement) : query :=
  match r with
  | Processor => Q_cpu_count
  | Ram => Q_virtual_memory
  | Storage => Q_disk_usage "C:\"
  | SecureBootEnabled => Q_SecureBoot
  | Tpm20 => Q_Win32_Tpm
  end.

(** The requirement was evaluated, and its own result was printed. *)
Definition evaluated_and_reported (r : requirement) (t : list event) : Prop :=
  In (query_of r) (queried t) /\ exists v, In (Check r v) (printed t).

(** What the result lines of the TPM and Secure Boot block can be. *)
Definition tpm_secure_boot_shape (ls : list line) : Prop :=
  (exists v4 v5, ls = [Check SecureBootEnabled v4; Check Tpm20 v5]) \/
  (exists v4 e, ls = [Check SecureBootEnabled v4; TpmSecureBootError e]) \/
  (exists e, ls = [TpmSecureBootError e]).

(** A block of the check: it returns the flag it was given, lowered when
    one of its result lines is a failure, leaves the score alone and
    prints no final line. *)
Definition block (B : bool -> M bool) : Prop :=
  forall c s,
    outcome (B c s) = Ok (c && all_passed (results (trace (B c s)))) /\
    health_score (B c s) = s /\
    can_upgrade_lines (trace (B c s)) = [].

(** The claim as the specification states it: every requirement of the
    target is evaluated and gets its own result. *)
Definition every_requirement_checked (h : host) (s : Z) : Prop :=
  forall target reqs,
    candidate h = Some (target, reqs) ->
    forall q, In q (required target) ->
              evaluated_and_reported q (trace (check_upgrade_compatibility h s)).

(** ** The network listing *)

(** The lines the loop over the addresses prints for one address. *)
Definition address_lines (addr : snicaddr) : list line :=
  if family addr =? -1 then [Item "MAC Address" (VStr (address addr))]
  else if family addr =? AF_INET then [Item "IP Address" (VStr (address addr))]
  else [].

(** The lines the specification asks for: MAC for psutil's link-layer
    family on this host, IP for [AF_INET]. *)
Definition expected_address_lines (h : host) (addr : snicaddr) : list line :=
  if family addr =? psutil_AF_LINK h
  then [Item "MAC Address" (VStr (address addr))]
  else if family addr =? AF_INET
       then [Item "IP Address" (VStr (address addr))]
       else [].

Definition interface_lines (per_address : snicaddr -> list line)
    (entry : string * list snicaddr) : list line :=
  Item "Interface" (VStr (fst entry)) :: flat_map per_address (snd entry).

Definition network_lines (per_address : snicaddr -> list line)
    (net : list (string * list snicaddr)) : list line :=
  Banner "Network Information" :: flat_map (interface_lines per_address) net.

(** The loop over the addresses of one interface, as in the source. *)
Definition address_loop (addresses : list snicaddr) : M unit :=
  for_each addresses (fun addr =>
    if family addr =? -1 then
      print (Item "MAC Address" (VStr (address addr)))
    else if family addr =? AF_INET then
      print (Item "IP Address" (VStr (address addr)))
    else ret tt).

(** ** Further notions: the collectors in detail *)

(** What [get_cpu_info] learns of the CPU temperature on its way: the
    first [coretemp] reading, no reading, or the exception it meets. *)
Definition coretemp_reading (h : host) : result (option Q) :=
  if has_sensors_temperatures h then
    match sensors_temperatures h with
    | Ok temps =>
        match Py.lookup "coretemp" temps with
        | Some (t :: _) => Ok (Some t)
        | Some [] => Raise IndexError
        | None => Ok None
        end
    | Raise e => Raise e
    end
  else Ok None.

(** The temperature reading is above 85. *)
Definition too_hot (reading : option Q) : bool :=
  match reading with
  | Some t => Py.gt t 85
  | None => false
  end.

(** A host with other answers to the CPU queries. *)
Definition with_cpu (h : host) (usage : result Q)
    (freq : result (option scpufreq)) (has_sensors : bool)
    (temps : result (list (string * list Q))) : host :=
  {| platform_system := platform_system h;
     platform_release := platform_release h;
     platform_version := platform_version h;
     platform_machine := platform_machine h;
     platform_processor := platform_processor h;
     platform_node := platform_node h;
     datetime_now := datetime_now h;
     get_hotfix := get_hotfix h;
     cpu_percent := usage;
     cpu_freq := freq;
     cpu_count := cpu_count h;
     has_sensors_temperatures := has_sensors;
     sensors_temperatures := temps;
     virtual_memory := virtual_memory h;
     disk_partitions := disk_partitions h;
     disk_usage := disk_usage h;
     sensors_battery := sensors_battery h;
     getGPUs := getGPUs h;
     net_if_addrs := net_if_addrs h;
     psutil_AF_LINK := psutil_AF_LINK h;
     wmi_WMI := wmi_WMI h |}.

(** A busy Linux machine at 97% whose sensors query raises. *)
Definition linux_sensor_fault : host :=
  with_cpu linux_on_battery (Ok (97 # 1))
    (Ok (Some {| freq_current := 2400; freq_max := 2400 |}))
    true (Raise (OtherError "sensors")).

(** The same machine with a hot core, at 91 degrees. *)
Definition linux_hot : host :=
  with_cpu linux_on_battery (Ok (97 # 1))
    (Ok (Some {| freq_current := 2400; freq_max := 2400 |}))
    true (Ok [("acpitz", [40 # 1]); ("coretemp", [91 # 1; 60 # 1])]).

(** The GPU is loaded above 90% or hotter than 85 degrees. *)
Definition gpu_breach (gpu : GPU) : bool :=
  Py.gt (load100 gpu) 90 || Py.gt (temperature gpu) 85.

(** The body of the loop of [get_gpu_info], for one GPU. *)
Definition gpu_loop_body (gpu : GPU) : M unit :=
  print (Item "NVIDIA GPU" (VStr (gpu_name gpu)));;
  print (Item "Total Memory" (VNum (memoryTotal gpu)));;
  print (Item "Used Memory" (VNum (memoryUsed gpu)));;
  print (Item "Temperature" (VNum (temperature gpu)));;
  print (Item "Load" (VNum (load100 gpu)));;
  when (Py.gt (load100 gpu) 90 || Py.gt (temperature gpu) 85)
    (penalize 10;;
     print (Warning HighGpu)).

(** What the loop does for one GPU. *)
Definition gpu_events (gpu : GPU) : list event :=
  [ Print (Item "NVIDIA GPU" (VStr (gpu_name gpu)));
    Print (Item "Total Memory" (VNum (memoryTotal gpu)));
    Print (Item "Used Memory" (VNum (memoryUsed gpu)));
    Print (Item "Temperature" (VNum (temperature gpu)));
    Print (Item "Load" (VNum (load100 gpu))) ]
  ++ (if gpu_breach gpu then [Print (Warning HighGpu)] else []).

(** Sum of a cost over a list. *)
Definition total_cost {A : Type} (cost : A -> Z) (xs : list A) : Z :=
  fold_right (fun x acc => cost x + acc) 0 xs.

(** [linux_on_battery] with two NVIDIA GPUs, the second one at 95%. *)
Definition with_gpus (h : host) (gpus : result (list GPU)) : host :=
  {| platform_system := platform_system h;
     platform_release := platform_release h;
     platform_version := platform_version h;
     platform_machine := platform_machine h;
     platform_processor := platform_processor h;
     platform_node := platform_node h;
     datetime_now := datetime_now h;
     get_hotfix := get_hotfix h;
     cpu_percent := cpu_percent h;
     cpu_freq := cpu_freq h;
     cpu_count := cpu_count h;
     has_sensors_temperatures := has_sensors_temperatures h;
     sensors_temperatures := sensors_temperatures h;
     virtual_memory := virtual_memory h;
     disk_partitions := disk_partitions h;
     disk_usage := disk_usage h;
     sensors_battery := sensors_battery h;
     getGPUs := gpus;
     net_if_addrs := net_if_addrs h;
     psutil_AF_LINK := psutil_AF_LINK h;
     wmi_WMI := wmi_WMI h |}.

Definition idle_gpu : GPU :=
  {| gpu_name := "RTX 3060"; memoryTotal := 12288 # 1; memoryUsed := 512 # 1;
     temperature := 45 # 1; load100 := 3 # 1 |}.

Definition busy_gpu : GPU :=
  {| gpu_name := "RTX 3090"; memoryTotal := 24576 # 1; memoryUsed := 20000 # 1;
     temperature := 80 # 1; load100 := 95 # 1 |}.

Definition linux_two_gpus : host :=
  with_gpus linux_on_battery (Ok [idle_gpu; busy_gpu]).

(** The lines [_fallback_gpu_detection] prints for the adapters and the
    displays WMI lists. *)
Definition adapter_lines (gpu : VideoController) : list line :=
  [Text (vc_Name gpu); Item "Driver Version" (VStr (DriverVersion gpu))].

Definition display_lines (monitor : DesktopMonitor) : list line :=
  [ Text (dm_Name monitor);
    Item "Resolution" (VSize (ScreenWidth monitor) (ScreenHeight monitor)) ].

Definition fallback_lines (gpu_list : list VideoController)
    (display_list : list DesktopMonitor) : list line :=
  (match gpu_list with
   | [] => []
   | _ => Note IdentifiedGraphicsCards :: flat_map adapter_lines gpu_list
   end)
  ++ (match display_list with
      | [] => []
      | _ => Note ConnectedDisplays :: flat_map display_lines display_list
      end)
  ++ (match gpu_list, display_list with
      | [], [] => [Note NothingIdentifiedViaWmi]
      | _, _ => []
      end).

(** [m] only prints the lines [ls]: it returns, makes no query and
    leaves the score alone. *)
Definition prints (m : M unit) (ls : list line) : Prop :=
  forall s, m s = mkRun (Ok tt) s (map Print ls).

(** A relation on runs that holds of doing nothing and composes along
    sequencing; what a query does is up to the relation. *)
Class Sequential (R : Z -> Z -> list event -> Prop) : Prop := {
  seq_nil : forall s, R s s [];
  seq_app : forall s s' s'' t t',
      R s s' t -> R s' s'' t' -> R s s'' (t ++ t')
}.

(** Every query of the trace is among the [allowed] ones. *)
Definition queries_within (allowed : query -> bool) (s s' : Z)
    (t : list event) : Prop :=
  forallb allowed (queried t) = true.

(** The queries that exist on Windows only: the hotfix pipeline and WMI. *)
Definition windows_query (q : query) : bool :=
  match q with
  | Q_get_hotfix | Q_wmi_WMI | Q_Win32_VideoController
  | Q_Win32_DesktopMonitor | Q_Win32_BaseBoard | Q_Win32_BIOS
  | Q_Win32_OperatingSystem | Q_SecureBoot | Q_Win32_Tpm => true
  | _ => false
  end.

(** The recorded queries each method may make. *)
Definition own_queries (m : method) (q : query) : bool :=
  match m, q with
  | GetLastWindowsUpdate, Q_get_hotfix => true
  | GetCpuInfo, (Q_cpu_percent | Q_cpu_freq | Q_cpu_count
                 | Q_sensors_temperatures) => true
  | GetRamInfo, Q_virtual_memory => true
  | GetDiskInfo, (Q_disk_partitions | Q_disk_usage _) => true
  | GetBatteryInfo, Q_sensors_battery => true
  | GetGpuInfo, (Q_getGPUs | Q_wmi_WMI | Q_Win32_VideoController
                 | Q_Win32_DesktopMonitor) => true
  | FallbackGpuDetection, (Q_wmi_WMI | Q_Win32_VideoController
                           | Q_Win32_DesktopMonitor) => true
  | GetNetworkInfo, Q_net_if_addrs => true
  | GetAdvancedHardwareInfo, (Q_wmi_WMI | Q_Win32_BaseBoard | Q_Win32_BIOS) => true
  | CheckUpgradeCompatibility,
    (Q_cpu_count | Q_cpu_freq | Q_virtual_memory | Q_disk_usage _ | Q_wmi_WMI
     | Q_Win32_OperatingSystem | Q_SecureBoot | Q_Win32_Tpm) => true
  | RunAllChecks, _ => true
  | _, _ => false
  end.

(** The version strings can be read as [check_upgrade_compatibility]
    reads them: the release starts with a number and, when that number
    is 10, the third component of the version is a number. *)
Definition version_readable (h : host) : Prop :=
  exists major,
    current_version_major h = Some major /\
    (major = 10 -> exists build, build_number h = Some build).

(** A Windows Server host: [platform.release()] is not a number. *)
Definition windows_server : host :=
  a_host "Windows" "2019Server" "10.0.17763" (Some 8) (3000 # 1) (16 * GiB)
    (Ok [drive_c])
    (usage_table [("C:\", Ok (usage_of (500 * GiB) (100 * GiB) (20 # 1)))])
    (Ok None) [] (-1)
    (Ok (wmi_of (Ok true) (Ok [ {| SpecVersion := Some "2.0" |} ]))).

(** Windows 11 under a Python whose [platform.release()] answers 11. *)
Definition windows_release_11 : host :=
  a_host "Windows" "11" "10.0.22631" (Some 8) (3000 # 1) (16 * GiB)
    (Ok [drive_c])
    (usage_table [("C:\", Ok (usage_of (500 * GiB) (100 * GiB) (20 # 1)))])
    (Ok None) [] (-1)
    (Ok (wmi_of (Ok true) (Ok [ {| SpecVersion := Some "2.0" |} ]))).

(** What a run needs of the host to reach the health report: the
    partitions can be listed, the battery can be asked for, and on
    Windows the version strings can be read. *)
Definition run_can_complete (h : host) : Prop :=
  (exists partitions, disk_partitions h = Ok partitions) /\
  (exists battery, sensors_battery h = Ok battery) /\
  (platform_system h = "Windows" -> version_readable h).

(** The verdicts of the requirement blocks, from what the queries
    answered. *)
Definition cpu_verdict (reqs : requirements) (cores : option Z)
    (f : scpufreq) : verdict :=
  match cores with
  | None => CouldNotCheck
  | Some n =>
      if (n <? CPU_CORES reqs)
         || Py.lt (freq_current f) (inject_Z (CPU_FREQ reqs))
      then Failed else Passed
  end.

Definition size_verdict (required_gb bytes : Z) : verdict :=
  if Py.lt (gib bytes) (inject_Z required_gb) then Failed else Passed.

Definition secure_boot_verdict (secure_boot : bool) : verdict :=
  if secure_boot then Passed else Failed.

Definition tpm_verdict (tpm : Tpm) : verdict :=
  match SpecVersion tpm with
  | Some v => if Py.truthy_str v && Py.contains "2.0" v then Passed else Failed
  | None => Failed
  end.

(** Windows 8.1 with four cores, 4 GB of RAM and a 120 GB drive. *)
Definition windows8 : host :=
  a_host "Windows" "8.1" "6.3.9600" (Some 4) (2000 # 1) (4 * GiB)
    (Ok [drive_c])
    (usage_table [("C:\", Ok (usage_of (120 * GiB) (60 * GiB) (50 # 1)))])
    (Ok None) [] (-1)
    (Raise (OtherError "wmi")).

(** Windows 10 build 19045 that meets every Windows 11 requirement. *)
Definition windows10_ready : host :=
  a_host "Windows" "10" "10.0.19045" (Some 8) (3000 # 1) (16 * GiB)
    (Ok [drive_c])
    (usage_table [("C:\", Ok (usage_of (500 * GiB) (100 * GiB) (20 # 1)))])
    (Ok None) [] (-1)
    (Ok (wmi_of (Ok true) (Ok [ {| SpecVersion := Some "2.0, 0, 1.38" |} ]))).

(** What the loop of [get_disk_info] does for one partition. *)
Definition disk_events (h : host) (partition : sdiskpart) : list event :=
  Call (Q_disk_usage (mountpoint partition))
  :: match disk_usage h (mountpoint partition) with
     | Ok usage =>
         [ Print (Item "Drive" (VStr (device partition)));
           Print (Item "Total Space" (VNum (gib (du_total usage))));
           Print (Item "Used Space" (VNum (gib (du_used usage))));
           Print (Item "Free Space" (VNum (gib (du_free usage))));
           Print (Item "Usage Percentage" (VNum (du_percent usage))) ]
         ++ (if Py.gt (du_percent usage) 90
             then [Print (Warning (DriveNearlyFull (du_percent usage)))]
             else [])
     | Raise PermissionError =>
         [Print (Failure (DiskAccessDenied (device partition)) PermissionError)]
     | Raise e => [Print (Failure (DiskInfoFailed (device partition)) e)]
     end.

(** A Windows machine whose second drive denies access. *)
Definition windows_locked_drive : host :=
  a_host "Windows" "10" "10.0.19045" (Some 8) (3000 # 1) (16 * GiB)
    (Ok [ drive_c; {| device := "D:\"; mountpoint := "D:\" |};
          {| device := "E:\"; mountpoint := "E:\" |} ])
    (usage_table
       [ ("C:\", Ok (usage_of (500 * GiB) (100 * GiB) (20 # 1)));
         ("D:\", Raise PermissionError);
         ("E:\", Ok (usage_of (100 * GiB) (96 * GiB) (96 # 1))) ])
    (Ok None) [] (-1)
    (Ok (wmi_of (Ok true) (Ok [ {| SpecVersion := Some "2.0" |} ]))).

(** A capable Windows 10 machine whose core count psutil cannot tell. *)
Definition windows10_unknown_cores : host :=
  a_host "Windows" "10" "10.0.19045" None (3000 # 1) (16 * GiB)
    (Ok [drive_c])
    (usage_table [("C:\", Ok (usage_of (500 * GiB) (100 * GiB) (20 # 1)))])
    (Ok None) [] (-1)
    (Ok (wmi_of (Ok true) (Ok [ {| SpecVersion := Some "2.0" |} ]))).

(** A Windows machine where WMI lists the board but the BIOS query
    raises. *)
Definition windows_bios_fault : host :=
  a_host "Windows" "10" "10.0.19045" (Some 8) (3000 # 1) (16 * GiB)
    (Ok [drive_c])
    (usage_table [("C:\", Ok (usage_of (500 * GiB) (100 * GiB) (20 # 1)))])
    (Ok None) [] (-1)
    (Ok {| Win32_VideoController := Ok [];
           Win32_DesktopMonitor := Ok [];
           Win32_BaseBoard :=
             Ok [ {| bb_Manufacturer := "ACME"; Product := "B450" |} ];
           Win32_BIOS := Raise (OtherError "x_wmi");
           Win32_OperatingSystem := Ok [];
           Win32_Tpm := Ok [] |}).

(** The interfaces whose names [get_network_info] prints, and the
    addresses it prints, in order. *)
Fixpoint interface_names (ls : list line) : list string :=
  match ls with
  | [] => []
  | Item "Interface" (VStr name) :: ls' => name :: interface_names ls'
  | _ :: ls' => interface_names ls'
  end.

(** The address is one the loop prints: family -1 or [AF_INET]. *)
Definition listed_family (addr : snicaddr) : bool :=
  (family addr =? -1) || (family addr =? AF_INET).

(** A host with a dual-stack interface and a loopback without address. *)
Definition windows_dual_stack : host :=
  a_host "Windows" "10" "10.0.19045" (Some 8) (3000 # 1) (16 * GiB)
    (Ok [drive_c])
    (usage_table [("C:\", Ok (usage_of (500 * GiB) (100 * GiB) (20 # 1)))])
    (Ok None)
    [ ("Ethernet", [ {| family := -1; address := "00-11-22-33-44-55" |};
                     {| family := 2; address := "192.168.1.10" |};
                     {| family := 23; address := "fe80::1" |} ]);
      ("Loopback", []) ]
    (-1)
    (Ok (wmi_of (Ok true) (Ok [ {| SpecVersion := Some "2.0" |} ]))).

(** How many partitions and GPUs the host lists; none when the listing
    raises. *)
Definition partition_count (h : host) : Z :=
  match disk_partitions h with
  | Ok partitions => Z.of_nat (List.length partitions)
  | Raise _ => 0
  end.

Definition gpu_count (h : host) : Z :=
  match getGPUs h with
  | Ok gpus => Z.of_nat (List.length gpus)
  | Raise _ => 0
  end.

(** The most a method can take off the score on a host. *)
Definition worst_drop (h : host) (m : method) : Z :=
  match m with
  | GetCpuInfo => 25
  | GetRamInfo => 10
  | GetDiskInfo => 10 * partition_count h
  | GetBatteryInfo => 10
  | GetGpuInfo => 10 * gpu_count h
  | RunAllChecks => 45 + 10 * partition_count h + 10 * gpu_count h
  | _ => 0
  end.

(** [m] lowers the score by [a] at most. *)
Definition drops_at_most {A : Type} (a : Z) (m : M A) : Prop :=
  forall s, s - a <= health_score (m s).

(** A host with another answer to the memory query. *)
Definition with_memory (h : host) (mem : result svmem) : host :=
  {| platform_system := platform_system h;
     platform_release := platform_release h;
     platform_version := platform_version h;
     platform_machine := platform_machine h;
     platform_processor := platform_processor h;
     platform_node := platform_node h;
     datetime_now := datetime_now h;
     get_hotfix := get_hotfix h;
     cpu_percent := cpu_percent h;
     cpu_freq := cpu_freq h;
     cpu_count := cpu_count h;
     has_sensors_temperatures := has_sensors_temperatures h;
     sensors_temperatures := sensors_temperatures h;
     virtual_memory := mem;
     disk_partitions := disk_partitions h;
     disk_usage := disk_usage h;
     sensors_battery := sensors_battery h;
     getGPUs := getGPUs h;
     net_if_addrs := net_if_addrs h;
     psutil_AF_LINK := psutil_AF_LINK h;
     wmi_WMI := wmi_WMI h |}.

(** Everything wrong at once: a hot, busy CPU, memory at 93%, eleven
    nearly full mounts, a low battery and a busy GPU. *)
Definition linux_worst_case : host :=
  with_memory (with_gpus linux_hot (Ok [busy_gpu]))
    (Ok {| vm_total := 8 * GiB; vm_used := 7 * GiB; vm_percent := 93 # 1 |}).

(** The section titles a run printed, in order. *)
Fixpoint banners (t : list event) : list string :=
  match t with
  | [] => []
  | Print (Banner title) :: t' => title :: banners t'
  | _ :: t' => banners t'
  end.

Definition no_banner (s s' : Z) (t : list event) : Prop := banners t = [].

(** The title of the upgrade section: it names the target when there is
    one. *)
Definition upgrade_banner (h : host) : string :=
  if (platform_system h =? "Windows")%string then
    match candidate h with
    | Some (target, _) => ("Upgrade Compatibility Check for " ++ target)%string
    | None => "Windows Upgrade Compatibility"
    end
  else "Windows Upgrade Compatibility".

(** The sections of a complete run. *)
Definition sections (h : host) : list string :=
  ["System Information"]
  ++ (if (platform_system h =? "Windows")%string
      then ["Last Windows Update"] else [])
  ++ [ "Processor (CPU) Information"; "Memory (RAM) Information";
       "Disk Information"; "Battery Information";
       "Graphics Card (GPU) Information"; "Network Information";
       "Advanced Hardware Information"; upgrade_banner h;
       "System Health Report" ].

(** ** Loading the module: imports and [install_and_import] *)

(** What the interpreter's environment answers while the module loads:
    which modules can be imported (a module once imported stays so, from
    [sys.modules]), what [pip install] does for a library, and whether a
    library can be imported once pip has installed it. *)
Inductive pip_result : Type :=
| PipInstalled
| PipCalledProcessError
| PipOtherError.

Record pyenv := {
  importable : string -> bool;
  pip_install : string -> pip_result;
  importable_once_installed : string -> bool
}.

Inductive setup_event : Type :=
| Import (lib : string)
| ImportModule (lib : string)
| PrintInstalling (lib : string)
| RunPip (lib : string)
| PrintErrorInstalling (lib : string)
| PrintErrorImporting
| PrintUnexpectedError.

(** How loading ends: the checks can start, an exception leaves the
    module, or [sys.exit] is called. *)
Inductive ending : Type :=
| Proceeds
| Uncaught (e : exn)
| SysExit (code : Z).

(** Lines 1-13: the imports at the top of the file. *)
Definition top_imports : list string :=
  [ "subprocess"; "sys"; "importlib"; "platform"; "shutil"; "socket";
    "logging"; "datetime"; "os"; "wmi"; "psutil"; "GPUtil"; "colorama" ].

Definition REQUIRED_LIBRARIES : list string :=
  ["psutil"; "GPUtil"; "colorama"; "wmi"; "platform"].

(** Lines 39-42: the imports after the loop. *)
Definition late_imports : list string :=
  ["psutil"; "GPUtil"; "colorama"; "wmi"].

(** A sequence of [import] statements; [ok] tells which succeed. *)
Fixpoint import_all (ok : string -> bool) (libs : list string)
  : list setup_event * option string :=
  match libs with
  | [] => ([], None)
  | lib :: libs' =>
      if ok lib then
        let (evs, failed) := import_all ok libs' in (Import lib :: evs, failed)
      else ([Import lib], Some lib)
  end.

(** What [install_and_import] leaves behind: it returned, or it called
    [sys.exit(1)], or an exception other than [CalledProcessError] left
    it; the flag tells whether pip installed the library. *)
Inductive install_outcome : Type :=
| Returned (installed : bool)
| Exited
| Escaped.

Definition install_and_import (env : pyenv) (lib_name : string)
  : list setup_event * install_outcome :=
  if importable env lib_name then ([ImportModule lib_name], Returned false)
  else
    match pip_install env lib_name with
    | PipInstalled =>
        ([ImportModule lib_name; PrintInstalling lib_name; RunPip lib_name],
         Returned true)
    | PipCalledProcessError =>
        ([ ImportModule lib_name; PrintInstalling lib_name; RunPip lib_name;
           PrintErrorInstalling lib_name ], Exited)
    | PipOtherError =>
        ([ImportModule lib_name; PrintInstalling lib_name; RunPip lib_name],
         Escaped)
    end.

(** Lines 37-38: the loop over [REQUIRED_LIBRARIES]; the result lists
    the libraries pip installed on the way. *)
Fixpoint install_loop (env : pyenv) (libs : list string)
  : list setup_event * install_outcome * list string :=
  match libs with
  | [] => ([], Returned false, [])
  | lib :: libs' =>
      match install_and_import env lib with
      | (evs, Returned installed) =>
          match install_loop env libs' with
          | (evs', out, done) =>
              (evs ++ evs', out, if installed then lib :: done else done)
          end
      | (evs, out) => (evs, out, [])
      end
  end.

(** Lines 1-51: loading the module up to the logging set-up. *)
Definition load_module (env : pyenv) : list setup_event * ending :=
  match import_all (importable env) top_imports with
  | (evs, Some _) => (evs, Uncaught (OtherError "ImportError"))
  | (evs, None) =>
      match install_loop env REQUIRED_LIBRARIES with
      | (evs', Exited, _) => (evs ++ evs', SysExit 1)
      | (evs', Escaped, _) => (evs ++ evs' ++ [PrintUnexpectedError], SysExit 1)
      | (evs', Returned _, installed) =>
          let ok lib :=
            importable env lib
            || (existsb (String.eqb lib) installed
                && importable_once_installed env lib) in
          match import_all ok late_imports with
          | (evs'', Some _) =>
              (evs ++ evs' ++ evs'' ++ [PrintErrorImporting], SysExit 1)
          | (evs'', None) => (evs ++ evs' ++ evs'', Proceeds)
          end
      end
  end.

(** pip was run during loading. *)
Definition ran_pip (evs : list setup_event) : bool :=
  existsb (fun ev => match ev with RunPip _ => true | _ => false end) evs.

(** An environment with every library in place. *)
Definition complete_env : pyenv :=
  {| importable := fun _ => true;
     pip_install := fun _ => PipCalledProcessError;
     importable_once_installed := fun _ => false |}.

(** The colour and the message of the lines of a report. *)
Fixpoint report_colours (t : list event) : list colour :=
  match t with
  | [] => []
  | Print (ScoreLine c _) :: t' => c :: report_colours t'
  | _ :: t' => report_colours t'
  end.

(** The colour that goes with a message. *)
Definition colour_of (t : tone) : colour :=
  match t with
  | GoodCondition => GREEN
  | NeedsAttention => YELLOW
  | PoorCondition => RED
  end.

(** A Windows machine whose hotfix query answers [out]. *)
Definition windows_hotfix (out : result string) : host :=
  {| platform_system := "Windows";
     platform_release := "10";
     platform_version := "10.0.19045";
     platform_machine := "AMD64";
     platform_processor := "x86";
     platform_node := "box";
     datetime_now := "2024-01-01 00:00:00";
     get_hotfix := out;
     cpu_percent := Ok (125 # 10);
     cpu_freq := Ok None;
     cpu_count := Ok None;
     has_sensors_temperatures := false;
     sensors_temperatures := Ok [];
     virtual_memory := Raise (OtherError "vm");
     disk_partitions := Ok [];
     disk_usage := usage_table [];
     sensors_battery := Ok None;
     getGPUs := Ok [];
     net_if_addrs := Ok [];
     psutil_AF_LINK := -1;
     wmi_WMI := Raise (OtherError "wmi") |}.

(** ** What the readings of a host cost *)

(** The penalty each check takes for the readings of a host, with the
    thresholds of the specification: 15 for a core temperature above 85
    and 10 for a CPU usage above 85; 10 for a memory usage above 85; 10
    for every readable partition used above 90%; 10 for a battery below
    30% that is not plugged in; 10 for every GPU loaded above 90% or
    hotter than 85.  A check whose query fails compares nothing and
    takes nothing. *)
Definition cpu_cost (h : host) : Z :=
  match cpu_percent h, cpu_freq h, cpu_count h, coretemp_reading h with
  | Ok usage, Ok (Some _), Ok _, Ok reading =>
      (if too_hot reading then 15 else 0) + (if Py.gt usage 85 then 10 else 0)
  | _, _, _, _ => 0
  end.

Definition ram_cost (h : host) : Z :=
  match virtual_memory h with
  | Ok mem => if Py.gt (vm_percent mem) 85 then 10 else 0
  | Raise _ => 0
  end.

Definition disk_cost (h : host) : Z :=
  match disk_partitions h with
  | Ok partitions =>
      10 * Z.of_nat (List.length (filter (nearly_full h) partitions))
  | Raise _ => 0
  end.

Definition battery_cost (h : host) : Z :=
  match sensors_battery h with
  | Ok (Some b) =>
      if Py.lt (percent b) 30 && negb (Py.truthy_opt (power_plugged b))
      then 10 else 0
  | _ => 0
  end.

Definition gpu_cost (h : host) : Z :=
  match getGPUs h with
  | Ok gpus => 10 * Z.of_nat (List.length (filter gpu_breach gpus))
  | Raise _ => 0
  end.

(** The penalties of the checks a run gets to: the run ends in the disk
    check when the partitions cannot be listed and in the battery check
    when the battery cannot be asked for. *)
Definition run_cost (h : host) : Z :=
  cpu_cost h + ram_cost h
  + match disk_partitions h with
    | Raise _ => 0
    | Ok _ =>
        disk_cost h
        + match sensors_battery h with
          | Raise _ => 0
          | Ok _ => battery_cost h + gpu_cost h
          end
    end.

(** A laptop with a cool, idle CPU, a charged battery and one drive that
    is half full: no reading is beyond its threshold. *)
Definition linux_healthy : host :=
  a_host "Linux" "6.8.0" "#1 SMP" (Some 4) 2400 (8 * GiB)
    (Ok [nearly_full_mount])
    (usage_table [("/mnt", Ok (usage_of (100 * GiB) (50 * GiB) 50))])
    (Ok (Some {| percent := 80; power_plugged := Some false |}))
    []
    17
    (Raise (OtherError "wmi")).

(** ** The results of the requirement checks, from the readings *)

(** The result line of each block of the check, from what the queries
    of the block answer: its verdict when they answer, "could not check"
    when one of them raises or answers [None]. *)
Definition processor_result (h : host) (reqs : requirements) : line :=
  match cpu_count h, cpu_freq h with
  | Ok cores, Ok (Some f) => Check Processor (cpu_verdict reqs cores f)
  | _, _ => Check Processor CouldNotCheck
  end.

Definition ram_result (h : host) (reqs : requirements) : line :=
  match virtual_memory h with
  | Ok mem => Check Ram (size_verdict (RAM_GB reqs) (vm_total mem))
  | Raise _ => Check Ram CouldNotCheck
  end.

Definition storage_result (h : host) (reqs : requirements) : line :=
  match disk_usage h "C:\" with
  | Ok du => Check Storage (size_verdict (DISK_GB reqs) (du_total du))
  | Raise _ => Check Storage CouldNotCheck
  end.

(** The result lines of the one guarded block around Secure Boot and
    TPM: what was reported before a query raised stays, the rest of the
    block is replaced by one error line. *)
Definition tpm_result (c : WMI) : line :=
  match Win32_Tpm c with
  | Ok (tpm :: _) => Check Tpm20 (tpm_verdict tpm)
  | Ok [] => TpmSecureBootError IndexError
  | Raise e => TpmSecureBootError e
  end.

Definition tpm_secure_boot_results (h : host) : list line :=
  match wmi_WMI h with
  | Raise e => [TpmSecureBootError e]
  | Ok c =>
      match Win32_OperatingSystem c with
      | Raise e => [TpmSecureBootError e]
      | Ok [] => [TpmSecureBootError IndexError]
      | Ok (os :: _) =>
          match SecureBoot os with
          | Raise e => [TpmSecureBootError e]
          | Ok secure_boot =>
              [ Check SecureBootEnabled (secure_boot_verdict secure_boot);
                tpm_result c ]
          end
      end
  end.

(** The queries of that block: each one is made only when the one
    before it answered. *)
Definition tpm_secure_boot_queries (h : host) : list query :=
  Q_wmi_WMI
  :: match wmi_WMI h with
     | Raise _ => []
     | Ok c =>
         Q_Win32_OperatingSystem
         :: match Win32_OperatingSystem c with
            | Ok (os :: _) =>
                Q_SecureBoot
                :: match SecureBoot os with
                   | Ok _ => [Q_Win32_Tpm]
                   | Raise _ => []
                   end
            | _ => []
            end
     end.

(** All the result lines and all the queries of a requirement check. *)
Definition requirement_results (h : host) (target : string)
    (reqs : requirements) : list line :=
  [processor_result h reqs; ram_result h reqs; storage_result h reqs]
  ++ (if (target =? "Windows 11")%string then tpm_secure_boot_results h
      else []).

Definition requirement_queries (h : host) (target : string) : list query :=
  (Q_cpu_count
   :: match cpu_count h with
      | Ok _ => [Q_cpu_freq]
      | Raise _ => []
      end)
  ++ [Q_virtual_memory; Q_disk_usage "C:\"]
  ++ (if (target =? "Windows 11")%string then tpm_secure_boot_queries h
      else []).

(** Windows 10 machines that meet every hardware requirement, where a
    query of the guarded block raises: [wmi.WMI()], the TPM class. *)
Definition windows10_no_wmi : host :=
  a_host "Windows" "10" "10.0.19045" (Some 8) (3000 # 1) (16 * GiB)
    (Ok [drive_c])
    (usage_table [("C:\", Ok (usage_of (500 * GiB) (100 * GiB) (20 # 1)))])
    (Ok None) [] (-1)
    (Raise (OtherError "x_wmi")).

Definition windows10_no_tpm_class : host :=
  a_host "Windows" "10" "10.0.19045" (Some 8) (3000 # 1) (16 * GiB)
    (Ok [drive_c])
    (usage_table [("C:\", Ok (usage_of (500 * GiB) (100 * GiB) (20 # 1)))])
    (Ok None) [] (-1)
    (Ok (wmi_of (Ok true) (Raise (OtherError "x_wmi")))).

(** A Windows machine whose release string starts with the separator
    0x1C, which [str.strip] would take off and [int] does not skip. *)
Definition windows_separator_release : host :=
  a_host "Windows" (String (ascii_of_nat 28) "7") "6.1.7601" (Some 4)
    (2000 # 1) (4 * GiB)
    (Ok [drive_c])
    (usage_table [("C:\", Ok (usage_of (120 * GiB) (60 * GiB) (50 # 1)))])
    (Ok None) [] (-1)
    (Raise (OtherError "wmi")).

(** * Part II: properties *)

(** ** Python helpers *)

Example split_version : Py.split "." "10.0.19045" = ["10"; "0"; "19045"].
Proof. reflexivity. Qed.

Example int_build : Py.int "19045" = Some 19045.
Proof. reflexivity. Qed.

Example int_not_a_number : Py.int "Vista" = None.
Proof. reflexivity. Qed.

Example int_underscore : Py.int " 22_000 " = Some 22000 /\ Py.int "22__0" = None /\ Py.int "1_" = None.
Proof. repeat split; reflexivity. Qed.

(** [str.strip] takes the separators 28 to 31 off, [int] does not skip
    them. *)
Example int_separator :
  Py.int (String (ascii_of_nat 28) "7") = None /\
  Py.int (String (ascii_of_nat 31) "10") = None /\
  Py.strip (String (ascii_of_nat 28) "7") = "7" /\
  Py.int (String (ascii_of_nat 160) "7") = Some 7 /\
  Py.int "+7" = Some 7 /\ Py.int "-7" = Some (-7) /\ Py.int "- 7" = None.
Proof. vm_compute. repeat split; reflexivity. Qed.

(** A literal of more than 4300 digits is refused, one of 4300 is not. *)
Example int_digit_limit :
  Py.int (string_of_list_ascii (repeat "1"%char 4301)) = None /\
  Py.int (string_of_list_ascii (repeat "0"%char 4301)) = None /\
  Py.int (string_of_list_ascii (repeat "0"%char 4300)) = Some 0.
Proof. vm_compute. repeat split; reflexivity. Qed.

Example contains_tpm : Py.contains "2.0" "2.0, 0, 1.38" = true /\ Py.contains "2.0" "1.2" = false.
Proof. split; reflexivity. Qed.

(** ** Reasoning about runs *)

Lemma breaches_app (t t' : list event) :
  breaches (t ++ t') = breaches t ++ breaches t'.
Proof.
  induction t as [| [q | l] t IH]; simpl; auto.
  destruct l; simpl; rewrite ?IH; auto.
Qed.

Lemma total_penalty_app (bs bs' : list breach) :
  total_penalty (bs ++ bs') = total_penalty bs + total_penalty bs'.
Proof. induction bs; simpl; lia. Qed.

Lemma total_penalty_nonneg (bs : list breach) : 0 <= total_penalty bs.
Proof.
  induction bs as [| b bs IH]; simpl; [lia |].
  assert (0 <= penalty b) by (destruct b; simpl; lia). lia.
Qed.

Lemma printed_app (t t' : list event) :
  printed (t ++ t') = printed t ++ printed t'.
Proof. induction t as [| [q | l] t IH]; simpl; rewrite ?IH; auto. Qed.

Lemma queried_app (t t' : list event) :
  queried (t ++ t') = queried t ++ queried t'.
Proof. induction t as [| [q | l] t IH]; simpl; rewrite ?IH; auto. Qed.

Section Keeps.

Context (R : Z -> Z -> list event -> Prop) `{!Compositional R}.

Lemma keeps_ret {A : Type} (a : A) : keeps R (ret a).
Proof. intro s; apply comp_nil. Qed.

Lemma keeps_raise {A : Type} (e : exn) : keeps R (@raise A e).
Proof. intro s; apply comp_nil. Qed.

Lemma keeps_get_score : keeps R get_score.
Proof. intro s; apply comp_nil. Qed.

Lemma keeps_call {A : Type} (q : query) (r : result A) : keeps R (call q r).
Proof. intro s; apply comp_call. Qed.

Lemma keeps_first {A : Type} (l : list A) : keeps R (first l).
Proof. destruct l; [apply keeps_raise | apply keeps_ret]. Qed.

Lemma keeps_item {A : Type} (l : list A) (n : nat) : keeps R (item l n).
Proof. unfold item; destruct (nth_error l n); [apply keeps_ret | apply keeps_raise]. Qed.

Lemma keeps_not_none {A : Type} (o : option A) : keeps R (not_none o).
Proof. destruct o; [apply keeps_ret | apply keeps_raise]. Qed.

Lemma keeps_py_int (s : string) : keeps R (py_int s).
Proof. unfold py_int; destruct (Py.int s); [apply keeps_ret | apply keeps_raise]. Qed.

Lemma keeps_bind {A B : Type} (m : M A) (f : A -> M B) :
  keeps R m -> (forall a, keeps R (f a)) -> keeps R (bind m f).
Proof.
  intros Hm Hf s. unfold bind. specialize (Hm s).
  destruct (outcome (m s)) as [a | e]; simpl; auto.
  eapply comp_app; [exact Hm | apply Hf].
Qed.

(** Sequencing after a query, remembering what the query answered. *)
Lemma keeps_bind_call {A B : Type} (q : query) (r : result A) (f : A -> M B) :
  (forall a, r = Ok a -> keeps R (f a)) -> keeps R (bind (call q r) f).
Proof.
  intros Hf s. unfold bind, call. destruct r as [a | e]; simpl.
  - apply (comp_app s s (health_score (f a s)) [Call q] (trace (f a s)));
      [apply comp_call | apply Hf; reflexivity].
  - apply comp_call.
Qed.

Lemma keeps_try_except {A : Type} (m : M A) (handler : exn -> M A) :
  keeps R m -> (forall e, keeps R (handler e)) -> keeps R (try_except m handler).
Proof.
  intros Hm Hh s. unfold try_except. specialize (Hm s).
  destruct (outcome (m s)) as [a | e]; simpl; auto.
  eapply comp_app; [exact Hm | apply Hh].
Qed.

Lemma keeps_when (c : bool) (body : M unit) :
  keeps R body -> keeps R (when c body).
Proof. destruct c; simpl; auto using keeps_ret. Qed.

Lemma keeps_for_each {A : Type} (xs : list A) (body : A -> M unit) :
  (forall x, keeps R (body x)) -> keeps R (for_each xs body).
Proof.
  intro Hb. induction xs as [| x xs IH]; simpl.
  - apply keeps_ret.
  - apply keeps_bind; auto.
Qed.

End Keeps.

(** Walks the body of a method; [leaf] settles prints and penalties. *)
Ltac walk leaf :=
  repeat match goal with
    | |- Compositional _ => typeclasses eauto
    | |- keeps _ (bind (penalize _) (fun _ => print _)) => leaf
    | |- keeps _ (print _) => leaf
    | |- keeps _ (penalize _) => leaf
    | |- keeps _ (when _ (bind (penalize _) (fun _ => print _))) => leaf
    | |- keeps _ (print_section _) => unfold print_section
    | |- keeps _ (bind _ _) => apply keeps_bind; intros
    | |- keeps _ (try_except _ _) => apply keeps_try_except; intros
    | |- keeps _ (for_each _ _) => apply keeps_for_each; intros
    | |- keeps _ (when _ _) => apply keeps_when
    | |- keeps _ (ret _) => apply keeps_ret
    | |- keeps _ (raise _) => apply keeps_raise
    | |- keeps _ get_score => apply keeps_get_score
    | |- keeps _ (call _ _) => apply keeps_call
    | |- keeps _ (first _) => apply keeps_first
    | |- keeps _ (item _ _) => apply keeps_item
    | |- keeps _ (not_none _) => apply keeps_not_none
    | |- keeps _ (py_int _) => apply keeps_py_int
    | |- keeps _ (let _ := _ in _) => cbv zeta
    | |- keeps _ (match ?x with _ => _ end) => destruct x
    end.

(** *** The score accounts for the breaches reported *)

#[local] Instance accounted_compositional : Compositional accounted.
Proof.
  split; unfold accounted; intros; simpl; try lia.
  rewrite breaches_app, total_penalty_app. lia.
Qed.

Lemma accounted_breach (n : Z) (b : breach) :
  penalty b = n -> keeps accounted (penalize n;; print (Warning b)).
Proof. intros <- s. unfold accounted; simpl. lia. Qed.

Lemma accounted_print (l : line) :
  match l with Warning _ => False | _ => True end ->
  keeps accounted (print l).
Proof. intros Hl s. unfold accounted. destruct l; simpl; try lia; contradiction. Qed.

Ltac accounted_leaf :=
  first [ apply accounted_breach; reflexivity
        | apply accounted_print; exact I ].

(** *** The score never goes up *)

#[local] Instance not_raised_compositional : Compositional not_raised.
Proof. split; unfold not_raised; intros; lia. Qed.

Lemma not_raised_print (l : line) : keeps not_raised (print l).
Proof. intro s. unfold not_raised; simpl. lia. Qed.

Lemma not_raised_penalize (n : Z) : 0 <= n -> keeps not_raised (penalize n).
Proof. intros Hn s. unfold not_raised; simpl. lia. Qed.

Ltac not_raised_leaf :=
  first [ apply not_raised_print
        | apply not_raised_penalize; lia ].

(** *** The score is left alone *)

#[local] Instance untouched_compositional : Compositional untouched.
Proof. split; unfold untouched; intros; congruence. Qed.

Lemma untouched_print (l : line) : keeps untouched (print l).
Proof. intro s. reflexivity. Qed.

Ltac untouched_leaf := apply untouched_print.

(** *** No score line is printed *)

#[local] Instance no_score_line_compositional : Compositional no_score_line.
Proof.
  split; unfold no_score_line; simpl; intros; try contradiction.
  rewrite printed_app in H1. apply in_app_or in H1. destruct H1; eauto.
Qed.

Lemma no_score_line_print (l : line) :
  is_score_line l = false -> keeps no_score_line (print l).
Proof. intros Hl s l' [<- | []]. exact Hl. Qed.

Lemma no_score_line_penalize (n : Z) : keeps no_score_line (penalize n).
Proof. intros s l' []. Qed.

Ltac no_score_line_leaf :=
  first [ apply no_score_line_print; reflexivity
        | apply no_score_line_penalize ].

(** *** A breach is reported only beyond its threshold *)

Lemma gt_spec (x y : Q) : Py.gt x y = true <-> (y < x)%Q.
Proof.
  unfold Py.gt. rewrite negb_true_iff. split.
  - intro H. apply Qnot_le_lt. intro Hle.
    apply Qle_bool_iff in Hle. congruence.
  - intro H. destruct (Qle_bool x y) eqn:E; [| reflexivity].
    apply Qle_bool_iff in E. exfalso. exact (Qlt_not_le _ _ H E).
Qed.

Lemma lt_spec (x y : Q) : Py.lt x y = true <-> (x < y)%Q.
Proof. apply gt_spec. Qed.

#[local] Instance justified_compositional : Compositional justified.
Proof.
  split; unfold justified; simpl; intros; try contradiction.
  rewrite breaches_app in H1. apply in_app_or in H1. destruct H1; eauto.
Qed.

Lemma justified_print (l : line) :
  match l with Warning _ => False | _ => True end ->
  keeps justified (print l).
Proof. intros Hl s b. destruct l; simpl; try contradiction. Qed.

Lemma justified_when_breach (c : bool) (n : Z) (b : breach) :
  (c = true -> beyond_threshold b) ->
  keeps justified (when c (penalize n;; print (Warning b))).
Proof.
  intros Hc s b'. destruct c; simpl; [| contradiction].
  intros [<- | []]. auto.
Qed.

Ltac justified_leaf :=
  first [ apply justified_print; exact I
        | apply justified_when_breach; intro;
          first [ exact I | apply gt_spec; assumption ] ].

(** ** The methods of the class, one by one *)

Ltac open_methods :=
  unfold exec, run_all_checks, show_health_report,
    check_upgrade_compatibility, check_requirements, check_tpm_secure_boot,
    check_storage, check_ram, check_cpu, get_advanced_hardware_info,
    get_network_info, get_gpu_info, _fallback_gpu_detection,
    get_battery_info, get_disk_info, disk_loop_body, get_ram_info,
    get_cpu_info,
    get_last_windows_update, get_system_info.

Lemma exec_accounted (h : host) (m : method) : keeps accounted (exec h m).
Proof. destruct m; open_methods; walk accounted_leaf. Qed.

Lemma exec_justified (h : host) (m : method) : keeps justified (exec h m).
Proof. destruct m; open_methods; walk justified_leaf. Qed.

Lemma exec_not_raised (h : host) (m : method) : keeps not_raised (exec h m).
Proof. destruct m; open_methods; walk not_raised_leaf. Qed.

Lemma exec_untouched (h : host) (m : method) :
  scoring m = false -> m <> RunAllChecks -> keeps untouched (exec h m).
Proof.
  destruct m; simpl; intros Hs Hm; try discriminate; try congruence;
    open_methods; walk untouched_leaf.
Qed.

Lemma exec_no_score_line (h : host) (m : method) :
  m <> ShowHealthReport -> m <> RunAllChecks -> keeps no_score_line (exec h m).
Proof.
  destruct m; intros H1 H2; try congruence;
    open_methods; walk no_score_line_leaf.
Qed.

(** *** Methods that cannot raise *)

Lemma returns_ret {A : Type} (a : A) : returns (ret a).
Proof. intro s; exists a; reflexivity. Qed.

Lemma returns_print (l : line) : returns (print l).
Proof. intro s; exists tt; reflexivity. Qed.

Lemma returns_penalize (n : Z) : returns (penalize n).
Proof. intro s; exists tt; reflexivity. Qed.

Lemma returns_get_score : returns get_score.
Proof. intro s; exists s; reflexivity. Qed.

Lemma returns_bind {A B : Type} (m : M A) (f : A -> M B) :
  returns m -> (forall a, returns (f a)) -> returns (bind m f).
Proof.
  intros Hm Hf s. destruct (Hm s) as [a Ha]. unfold bind. rewrite Ha.
  destruct (Hf a (health_score (m s))) as [b Hb]. exists b. exact Hb.
Qed.

Lemma returns_try_except {A : Type} (m : M A) (handler : exn -> M A) :
  (forall e, returns (handler e)) -> returns (try_except m handler).
Proof.
  intros Hh s. unfold try_except.
  destruct (outcome (m s)) as [a | e] eqn:E.
  - exists a. exact E.
  - destruct (Hh e (health_score (m s))) as [b Hb]. exists b. exact Hb.
Qed.

Lemma returns_when (c : bool) (body : M unit) :
  returns body -> returns (when c body).
Proof. destruct c; simpl; auto using returns_ret. Qed.

Lemma returns_for_each {A : Type} (xs : list A) (body : A -> M unit) :
  (forall x, returns (body x)) -> returns (for_each xs body).
Proof.
  intro Hb. induction xs as [| x xs IH]; simpl.
  - apply returns_ret.
  - apply returns_bind; auto.
Qed.

Ltac walk_returns :=
  repeat match goal with
    | |- returns (print _) => apply returns_print
    | |- returns (penalize _) => apply returns_penalize
    | |- returns (print_section _) => apply returns_print
    | |- returns get_score => apply returns_get_score
    | |- returns (ret _) => apply returns_ret
    | |- returns (bind _ _) => apply returns_bind; intros
    | |- returns (try_except _ _) => apply returns_try_except; intros
    | |- returns (for_each _ _) => apply returns_for_each; intros
    | |- returns (when _ _) => apply returns_when
    | |- returns (let _ := _ in _) => cbv zeta
    | |- returns (match ?x with _ => _ end) => destruct x
    end.

Lemma guarded_returns (h : host) (m : method) :
  guarded m = true -> returns (exec h m).
Proof.
  destruct m; simpl; intro Hg; try discriminate; open_methods; walk_returns.
Qed.

Lemma returns_unit (m : M unit) (s : Z) : returns m -> outcome (m s) = Ok tt.
Proof. intro Hm. destruct (Hm s) as [[] Ha]. exact Ha. Qed.

(** *** Unfolding a sequence *)

Lemma bind_Ok {A B : Type} (m : M A) (f : A -> M B) (s : Z) (a : A) :
  outcome (m s) = Ok a ->
  bind m f s =
  mkRun (outcome (f a (health_score (m s))))
        (health_score (f a (health_score (m s))))
        (trace (m s) ++ trace (f a (health_score (m s)))).
Proof. intro Ha. unfold bind. rewrite Ha. reflexivity. Qed.

Lemma bind_Raise {A B : Type} (m : M A) (f : A -> M B) (s : Z) (e : exn) :
  outcome (m s) = Raise e ->
  bind m f s = mkRun (Raise e) (health_score (m s)) (trace (m s)).
Proof. intro He. unfold bind. rewrite He. reflexivity. Qed.

(** Runs the monad's operations on a term whose queries are settled. *)
Ltac run_steps :=
  cbv beta iota zeta delta
    [try_except bind call print penalize ret raise get_score when first
     not_none print_section outcome health_score trace app negb].

(** The same, keeping the projections of an unsettled tail folded. *)
Ltac run_head :=
  cbn beta iota zeta delta
    [try_except bind call print penalize ret raise get_score when first
     not_none print_section outcome health_score trace app negb].

(** ** The health score over a run *)

Lemma renders_show_health_report : renders show_health_report.
Proof.
  intro s. unfold show_health_report, print_section, get_score, print, bind.
  simpl. split.
  - intros c x [H | [H | [H | []]]]; try discriminate. now inversion H.
  - intros _. eexists. right. left. reflexivity.
Qed.

Lemma renders_after (m k : M unit) :
  keeps no_score_line m -> renders k -> renders (m;; k).
Proof.
  intros Hm Hk s. specialize (Hm s). unfold no_score_line in Hm.
  unfold bind. destruct (outcome (m s)) as [[] | e]; simpl.
  - destruct (Hk (health_score (m s))) as [H1 H2]. split.
    + intros c x Hin. rewrite printed_app in Hin.
      apply in_app_or in Hin. destruct Hin as [Hin | Hin].
      * apply Hm in Hin. discriminate.
      * eauto.
    + intro Hok. destruct (H2 Hok) as [c Hc]. exists c.
      rewrite printed_app. apply in_or_app. now right.
  - split.
    + intros c x Hin. apply Hm in Hin. discriminate.
    + discriminate.
Qed.

Lemma renders_run_all_checks (h : host) : renders (run_all_checks h).
Proof.
  unfold run_all_checks.
  repeat (apply renders_after;
          [ first [ apply (exec_no_score_line h GetSystemInfo)
                  | apply (exec_no_score_line h GetLastWindowsUpdate)
                  | apply (exec_no_score_line h GetCpuInfo)
                  | apply (exec_no_score_line h GetRamInfo)
                  | apply (exec_no_score_line h GetDiskInfo)
                  | apply (exec_no_score_line h GetBatteryInfo)
                  | apply (exec_no_score_line h GetGpuInfo)
                  | apply (exec_no_score_line h GetNetworkInfo)
                  | apply (exec_no_score_line h GetAdvancedHardwareInfo)
                  | apply (exec_no_score_line h CheckUpgradeCompatibility) ];
            discriminate
          | ]).
  apply renders_show_health_report.
Qed.

Lemma bind_ret_tt (m : M unit) (s : Z) : (m;; ret tt) s = m s.
Proof.
  unfold bind, ret. destruct (m s) as [[[] | e] s' t]; simpl.
  - now rewrite app_nil_r.
  - reflexivity.
Qed.

Lemma bind_ext {A B : Type} (m : M A) (f g : A -> M B) (s : Z) :
  (forall a s', f a s' = g a s') -> bind m f s = bind m g s.
Proof.
  intro H. unfold bind. destruct (outcome (m s)); [rewrite H |]; reflexivity.
Qed.

Lemma run_all_checks_in_order (h : host) (s : Z) :
  run_all_checks h s = for_each run_order (exec h) s.
Proof.
  unfold run_all_checks, run_order. simpl.
  repeat (apply bind_ext; intros).
  symmetry. apply bind_ret_tt.
Qed.

(** C2.  The score starts at 100; no method ever raises it, whatever the
    host answers and however the method ends, so after any number of the
    methods of a run it is at most 100; nothing stops it at 0, and a run
    can end below 0. *)
Theorem health_score_never_increases :
  health_score init = 100 /\
  (forall (h : host) (m : method) (s : Z), health_score (exec h m s) <= s) /\
  (forall (h : host) (n : nat), score_after h n <= 100) /\
  (forall (h : host), health_score (main h) = score_after h (List.length run_order)) /\
  (exists h : host, outcome (main h) = Ok tt /\ health_score (main h) < 0).
Proof.
  split; [reflexivity |].
  split; [intros h m s; apply (exec_not_raised h m s) |].
  split.
  - intros h n. unfold score_after.
    assert (Hk : keeps not_raised (for_each (firstn n run_order) (exec h))).
    { apply keeps_for_each; [typeclasses eauto |].
      intro m. apply exec_not_raised. }
    apply (Hk (health_score init)).
  - split.
    + intro h. unfold main, score_after. cbv zeta.
      cbn [health_score]. rewrite run_all_checks_in_order. reflexivity.
    + exists linux_on_battery. split; vm_compute; reflexivity.
Qed.

(** ** The report *)

(** C8.  [show_health_report] prints the good-condition message for a
    score of at least 80, the needs-attention message for a score from 50
    through 79 and the poor-condition message below 50: 80 is good, 79
    and 50 need attention, 49 is poor. *)
Theorem report_tone_boundaries :
  (forall s, 80 <= s ->
     messages (trace (show_health_report s)) = [GoodCondition]) /\
  (forall s, 50 <= s <= 79 ->
     messages (trace (show_health_report s)) = [NeedsAttention]) /\
  (forall s, s < 50 ->
     messages (trace (show_health_report s)) = [PoorCondition]) /\
  messages (trace (show_health_report 80)) = [GoodCondition] /\
  messages (trace (show_health_report 79)) = [NeedsAttention] /\
  messages (trace (show_health_report 50)) = [NeedsAttention] /\
  messages (trace (show_health_report 49)) = [PoorCondition].
Proof.
  assert (H : forall s, messages (trace (show_health_report s)) =
                        [if s >=? 80 then GoodCondition
                         else if s >=? 50 then NeedsAttention
                         else PoorCondition]) by reflexivity.
  repeat split; try reflexivity; intros s Hs; rewrite H.
  - destruct (Z.geb_spec s 80); [reflexivity | lia].
  - destruct (Z.geb_spec s 80); [lia |].
    destruct (Z.geb_spec s 50); [reflexivity | lia].
  - destruct (Z.geb_spec s 80); [lia |].
    destruct (Z.geb_spec s 50); [lia | reflexivity].
Qed.

Lemma report_tone_boundaries_witness :
  messages (trace (show_health_report 64)) = [NeedsAttention].
Proof.
  destruct report_tone_boundaries as (_ & H & _). apply H. lia.
Defined.

(** ** Which methods touch the score *)

Lemma get_gpu_info_fallback_path (h : host) (s : Z) :
  ~ (exists g gs, getGPUs h = Ok (g :: gs)) ->
  health_score (get_gpu_info h s) = s.
Proof.
  intro Hno.
  assert (Hf : keeps untouched (_fallback_gpu_detection h))
    by (apply (exec_untouched h FallbackGpuDetection eq_refl); discriminate).
  assert (Hk : keeps untouched (get_gpu_info h)).
  { unfold get_gpu_info, print_section.
    apply keeps_bind; [typeclasses eauto | apply untouched_print | intros _].
    apply keeps_try_except; [typeclasses eauto | |].
    - apply keeps_bind_call; [typeclasses eauto |].
      intros [| g gs] Hg.
      + apply keeps_bind;
          [typeclasses eauto | apply untouched_print | intros _; exact Hf].
      + exfalso. apply Hno. eauto.
    - intro e. apply keeps_bind;
        [typeclasses eauto | apply untouched_print | intros _; exact Hf]. }
  apply Hk.
Qed.

(** C10.  [get_system_info], [get_last_windows_update], [get_network_info],
    [get_advanced_hardware_info], [_fallback_gpu_detection] and
    [check_upgrade_compatibility] leave the score as it was, whatever the
    host answers and however they end; a method that changes the score is
    one of the CPU, RAM, disk, battery and GPU checks (or the run, which
    calls them), and the GPU check changes it only when GPUtil answered
    with at least one GPU. *)
Theorem informational_methods_leave_score (h : host) (s : Z) :
  health_score (get_system_info h s) = s /\
  health_score (get_last_windows_update h s) = s /\
  health_score (get_network_info h s) = s /\
  health_score (get_advanced_hardware_info h s) = s /\
  health_score (_fallback_gpu_detection h s) = s /\
  health_score (check_upgrade_compatibility h s) = s /\
  (forall m, health_score (exec h m s) <> s ->
             scoring m = true \/ m = RunAllChecks) /\
  (health_score (get_gpu_info h s) <> s ->
   exists g gs, getGPUs h = Ok (g :: gs)).
Proof.
  pose proof (fun m H1 H2 => exec_untouched h m H1 H2 s) as Hu.
  unfold untouched in Hu.
  split; [| split; [| split; [| split; [| split; [| split; [| split]]]]]].
  - apply (Hu GetSystemInfo); [reflexivity | discriminate].
  - apply (Hu GetLastWindowsUpdate); [reflexivity | discriminate].
  - apply (Hu GetNetworkInfo); [reflexivity | discriminate].
  - apply (Hu GetAdvancedHardwareInfo); [reflexivity | discriminate].
  - apply (Hu FallbackGpuDetection); [reflexivity | discriminate].
  - apply (Hu CheckUpgradeCompatibility); [reflexivity | discriminate].
  - intros m Hm. destruct (scoring m) eqn:Es; [now left |].
    right. destruct m; try reflexivity; exfalso; apply Hm; apply Hu;
      first [ reflexivity | discriminate ].
  - intro Hne.
    destruct (getGPUs h) as [[| g gs] | e] eqn:E; eauto; exfalso; apply Hne;
      apply get_gpu_info_fallback_path; rewrite E;
      intros (g & gs & Heq); discriminate.
Qed.

Lemma informational_methods_leave_score_witness :
  health_score (check_upgrade_compatibility windows10_one_core 100) = 100 /\
  (scoring GetDiskInfo = true \/ GetDiskInfo = RunAllChecks).
Proof.
  destruct (informational_methods_leave_score windows10_one_core 100)
    as (_ & _ & _ & _ & _ & H6 & _).
  destruct (informational_methods_leave_score linux_on_battery 100)
    as (_ & _ & _ & _ & _ & _ & H7 & _).
  split; [exact H6 |].
  apply H7. vm_compute. discriminate.
Defined.

(** ** The disk check *)

Lemma disk_loop_body_run (h : host) (p : sdiskpart) (s : Z) :
  let r := disk_loop_body h p s in
  outcome r = Ok tt /\
  health_score r = (if nearly_full h p then s - 10 else s) /\
  List.length (breaches (trace r)) = (if nearly_full h p then 1%nat else 0%nat).
Proof.
  unfold disk_loop_body, nearly_full.
  destruct (disk_usage h (mountpoint p)) as [u | e]; run_steps.
  - destruct (Py.gt (du_percent u) 90); cbn; auto.
  - destruct e; cbn; auto.
Qed.

Lemma disk_loop_run (h : host) (partitions : list sdiskpart) (s : Z) :
  let r := for_each partitions (disk_loop_body h) s in
  outcome r = Ok tt /\
  health_score r =
    s - 10 * Z.of_nat (List.length (filter (nearly_full h) partitions)) /\
  List.length (breaches (trace r)) =
    List.length (filter (nearly_full h) partitions).
Proof.
  revert s. induction partitions as [| p ps IH]; intro s.
  - cbn. split; [reflexivity | split; [lia | reflexivity]].
  - destruct (disk_loop_body_run h p s) as (Ho & Hs & Hb).
    destruct (IH (health_score (disk_loop_body h p s))) as (Ho' & Hs' & Hb').
    cbn [for_each filter]. rewrite (bind_Ok _ _ s tt Ho).
    cbn [outcome health_score trace].
    rewrite Ho', breaches_app, length_app, Hb, Hb', Hs', Hs.
    destruct (nearly_full h p); cbn [List.length];
      (split; [reflexivity | split; [lia | reflexivity]]).
Qed.

(** C6.  When the partitions can be listed, [get_disk_info] returns and
    has lowered the score by 10 for every readable partition used above
    90%, and by nothing for the others: N such partitions cost 10 x N. *)
Theorem disk_penalty_accumulates (h : host) (partitions : list sdiskpart) (s : Z) :
  disk_partitions h = Ok partitions ->
  let r := get_disk_info h s in
  outcome r = Ok tt /\
  health_score r =
    s - 10 * Z.of_nat (List.length (filter (nearly_full h) partitions)) /\
  List.length (breaches (trace r)) =
    List.length (filter (nearly_full h) partitions) /\
  (forall p, nearly_full h p = true <->
             exists u, disk_usage h (mountpoint p) = Ok u /\
                       (90 < du_percent u)%Q).
Proof.
  intro Hparts. unfold get_disk_info. rewrite Hparts.
  destruct (disk_loop_run h partitions s) as (Ho & Hs & Hb).
  change (fun partition => disk_loop_body h partition) with (disk_loop_body h).
  run_head. rewrite Ho. cbn [breaches].
  split; [reflexivity | split; [exact Hs | split; [exact Hb |]]].
  intro p. unfold nearly_full.
  destruct (disk_usage h (mountpoint p)) as [u | e]; split.
  - intro H. exists u. split; [reflexivity | now apply gt_spec].
  - intros (u' & Hu & Hlt). inversion Hu; subst u'. now apply gt_spec.
  - discriminate.
  - intros (u' & Hu & _). discriminate.
Qed.

Lemma disk_penalty_accumulates_witness :
  health_score (get_disk_info linux_on_battery 100) = 100 - 10 * 11.
Proof.
  destruct (disk_penalty_accumulates linux_on_battery
              (repeat nearly_full_mount 11) 100 eq_refl) as (_ & H & _).
  exact H.
Defined.

(** ** The battery check *)

Lemma get_battery_info_run (h : host) (b : sbattery) (s : Z) :
  sensors_battery h = Ok (Some b) ->
  outcome (get_battery_info h s) = Ok tt /\
  health_score (get_battery_info h s) =
    (if Py.lt (percent b) 30 && negb (Py.truthy_opt (power_plugged b))
     then s - 10 else s).
Proof.
  intro Hb. unfold get_battery_info. rewrite Hb.
  cbv beta iota zeta delta
    [try_except bind call print penalize ret when print_section
     outcome health_score trace app].
  destruct (Py.lt (percent b) 30 && negb (Py.truthy_opt (power_plugged b)));
    split; reflexivity.
Qed.

Lemma not_plugged_spec (p : option bool) :
  negb (Py.truthy_opt p) = true <-> p <> Some true.
Proof.
  destruct p as [[|] |]; simpl; split; congruence.
Qed.

(** C7.  With a battery present, [get_battery_info] lowers the score, by
    10, exactly when the charge is below 30 and the power is not plugged
    in; a plugged-in battery costs nothing whatever its charge, and a
    charge of exactly 30 costs nothing. *)
Theorem battery_penalty_iff (h : host) (b : sbattery) (s : Z) :
  sensors_battery h = Ok (Some b) ->
  let r := get_battery_info h s in
  outcome r = Ok tt /\
  (health_score r = s - 10 \/ health_score r = s) /\
  (health_score r = s - 10 <->
   (percent b < 30)%Q /\ power_plugged b <> Some true) /\
  (power_plugged b = Some true -> health_score r = s) /\
  ((percent b == 30)%Q -> health_score r = s).
Proof.
  intros Hb r. destruct (get_battery_info_run h b s Hb) as [Ho Hs].
  subst r. rewrite Hs. clear Hs.
  pose proof (lt_spec (percent b) 30) as Hlt.
  pose proof (not_plugged_spec (power_plugged b)) as Hnot.
  split; [exact Ho |].
  destruct (Py.lt (percent b) 30) eqn:El;
    destruct (negb (Py.truthy_opt (power_plugged b))) eqn:En; cbn [andb].
  - split; [now left |]. split; [| split].
    + split; [intros _; split; [now apply Hlt | now apply Hnot] | reflexivity].
    + intro Hp. apply Hnot in Hp; [contradiction | reflexivity].
    + intro Heq. assert (Hl : (percent b < 30)%Q) by now apply Hlt.
      rewrite Heq in Hl. now apply Qlt_irrefl in Hl.
  - split; [now right |]. split; [| split; reflexivity].
    split; [lia |]. intros [_ Hp]. apply Hnot in Hp. discriminate.
  - split; [now right |]. split; [| split; reflexivity].
    split; [lia |]. intros [Hl _]. apply Hlt in Hl. discriminate.
  - split; [now right |]. split; [| split; reflexivity].
    split; [lia |]. intros [Hl _]. apply Hlt in Hl. discriminate.
Qed.

Lemma battery_penalty_iff_witness :
  health_score (get_battery_info linux_on_battery 100) = 90.
Proof.
  destruct (battery_penalty_iff linux_on_battery
              {| percent := 20; power_plugged := Some false |} 100 eq_refl)
    as (_ & _ & H & _).
  apply H. split; [reflexivity | discriminate].
Defined.

(** ** The upgrade check *)

Lemma item_py_int (l : list string) (n : nat) (z s : Z) (k : Z -> M unit) :
  match nth_error l n with Some part => Py.int part | None => None end = Some z ->
  (part <- item l n;; x <- py_int part;; k x) s = k z s.
Proof.
  unfold item, py_int. destruct (nth_error l n) as [part |]; [| discriminate].
  intro Hz. run_head. rewrite Hz. run_head. destruct (k z s); reflexivity.
Qed.

(** A release that [int] refuses has no major version: the check raises
    [ValueError] before it prints anything. *)
Example separator_release_raises :
  current_version_major windows_separator_release = None /\
  candidate windows_separator_release = None /\
  check_upgrade_compatibility windows_separator_release 100 =
  mkRun (Raise ValueError) 100 [].
Proof. vm_compute. repeat split; reflexivity. Qed.

(** C5.  On Windows, with major version 10 and a build number of at least
    22000, [check_upgrade_compatibility] prints its banner and the
    already-on-Windows-11 message and returns: it makes no query, checks
    no requirement and leaves the score as it was. *)
Theorem already_windows_11 (h : host) (build s : Z) :
  platform_system h = "Windows" ->
  current_version_major h = Some 10 ->
  build_number h = Some build ->
  22000 <= build ->
  check_upgrade_compatibility h s =
  mkRun (Ok tt) s
    [ Print (Banner "Windows Upgrade Compatibility");
      Print (Note AlreadyWindows11) ].
Proof.
  intros Hsys Hmajor Hbuild Hge.
  unfold check_upgrade_compatibility. rewrite Hsys.
  change (negb ("Windows" =? "Windows")%string) with false. cbv iota zeta.
  rewrite (item_py_int _ _ 10 s _ Hmajor).
  change (10 =? 7) with false. change (10 =? 8) with false.
  change (10 =? 10) with true. cbv iota.
  rewrite (item_py_int _ _ build s _ Hbuild).
  destruct (Z.geb_spec build 22000); [reflexivity | lia].
Qed.

Lemma already_windows_11_witness :
  check_upgrade_compatibility windows11 100 =
  mkRun (Ok tt) 100
    [ Print (Banner "Windows Upgrade Compatibility");
      Print (Note AlreadyWindows11) ].
Proof.
  apply (already_windows_11 windows11 22000 100);
    [reflexivity | vm_compute; reflexivity | vm_compute; reflexivity | lia].
Defined.

Lemma candidate_selected (h : host) (target : string) (reqs : requirements) (s : Z) :
  platform_system h = "Windows" ->
  candidate h = Some (target, reqs) ->
  check_upgrade_compatibility h s = check_requirements h target reqs s.
Proof.
  intros Hsys Hc. unfold candidate in Hc.
  destruct (current_version_major h) as [major |] eqn:Hmajor; [| discriminate].
  unfold check_upgrade_compatibility. rewrite Hsys.
  change (negb ("Windows" =? "Windows")%string) with false. cbv iota zeta.
  rewrite (item_py_int _ _ major s _ Hmajor).
  destruct (major =? 7); [now inversion Hc |].
  destruct (major =? 8); [now inversion Hc |].
  destruct (major =? 10); [| discriminate].
  destruct (build_number h) as [build |] eqn:Hbuild; [| discriminate].
  rewrite (item_py_int _ _ build s _ Hbuild).
  destruct (build >=? 22000); [discriminate | now inversion Hc].
Qed.

Lemma results_app (t t' : list event) :
  results (t ++ t') = results t ++ results t'.
Proof. unfold results. now rewrite printed_app, filter_app. Qed.

Lemma all_passed_app (ls ls' : list line) :
  all_passed (ls ++ ls') = all_passed ls && all_passed ls'.
Proof. apply forallb_app. Qed.

Lemma can_upgrade_lines_app (t t' : list event) :
  can_upgrade_lines (t ++ t') = can_upgrade_lines t ++ can_upgrade_lines t'.
Proof.
  induction t as [| [q | l] t IH]; simpl; auto.
  destruct l; simpl; rewrite ?IH; auto.
Qed.

(** Settles the blocks of a requirement check once their queries are. *)
Ltac settle :=
  run_steps;
  repeat match goal with
    | |- context [if ?c then _ else _] =>
        lazymatch type of c with bool => destruct c end
    end;
  cbn [results printed queried filter is_result all_passed forallb passed
       can_upgrade_lines andb];
  rewrite ?andb_true_r, ?andb_false_r.

Lemma check_cpu_block (h : host) (reqs : requirements) :
  block (check_cpu h reqs).
Proof.
  intros c s. unfold check_cpu.
  destruct (cpu_count h) as [[n |] | e];
    destruct (cpu_freq h) as [[f |] | e']; settle;
    (split; [reflexivity | split; reflexivity]).
Qed.

Lemma check_cpu_results (h : host) (reqs : requirements) (c : bool) (s : Z) :
  let t := trace (check_cpu h reqs c s) in
  (exists v, results t = [Check Processor v]) /\
  In Q_cpu_count (queried t) /\
  (forall e, cpu_count h = Raise e -> results t = [Check Processor CouldNotCheck]) /\
  (forall e, cpu_freq h = Raise e -> results t = [Check Processor CouldNotCheck]).
Proof.
  unfold check_cpu.
  destruct (cpu_count h) as [[n |] | e];
    destruct (cpu_freq h) as [[f |] | e']; settle;
    (split; [eexists; reflexivity |]);
    (split; [left; reflexivity |]);
    (split; intros e0 He0; first [discriminate He0 | reflexivity]).
Qed.

Lemma check_ram_block (h : host) (reqs : requirements) :
  block (check_ram h reqs).
Proof.
  intros c s. unfold check_ram.
  destruct (virtual_memory h) as [mem | e]; settle;
    (split; [reflexivity | split; reflexivity]).
Qed.

Lemma check_ram_results (h : host) (reqs : requirements) (c : bool) (s : Z) :
  let t := trace (check_ram h reqs c s) in
  (exists v, results t = [Check Ram v]) /\
  In Q_virtual_memory (queried t) /\
  (forall e, virtual_memory h = Raise e -> results t = [Check Ram CouldNotCheck]).
Proof.
  unfold check_ram.
  destruct (virtual_memory h) as [mem | e]; settle;
    (split; [eexists; reflexivity |]);
    (split; [left; reflexivity |]);
    intros e0 He0; first [discriminate He0 | reflexivity].
Qed.

Lemma check_storage_block (h : host) (reqs : requirements) :
  block (check_storage h reqs).
Proof.
  intros c s. unfold check_storage.
  destruct (disk_usage h "C:\") as [u | e]; settle;
    (split; [reflexivity | split; reflexivity]).
Qed.

Lemma check_storage_results (h : host) (reqs : requirements) (c : bool) (s : Z) :
  let t := trace (check_storage h reqs c s) in
  (exists v, results t = [Check Storage v]) /\
  In (Q_disk_usage "C:\") (queried t) /\
  (forall e, disk_usage h "C:\" = Raise e ->
             results t = [Check Storage CouldNotCheck]).
Proof.
  unfold check_storage.
  destruct (disk_usage h "C:\") as [u | e]; settle;
    (split; [eexists; reflexivity |]);
    (split; [left; reflexivity |]);
    intros e0 He0; first [discriminate He0 | reflexivity].
Qed.

(** Settles what WMI answers before the block is run. *)
Ltac settle_wmi h :=
  destruct (wmi_WMI h) as
    [[vc dm bb bios [[| [[[|] | e1]] l] | e2] [[| [ver] l'] | e3]] | e4];
  cbv beta iota zeta delta
    [Win32_OperatingSystem Win32_Tpm SecureBoot SpecVersion];
  settle.

Lemma check_tpm_secure_boot_block (h : host) (target : string) :
  block (check_tpm_secure_boot h target).
Proof.
  intros c s. unfold check_tpm_secure_boot.
  destruct (target =? "Windows 11")%string.
  2: { settle. split; [reflexivity | split; reflexivity]. }
  settle_wmi h; (split; [reflexivity | split; reflexivity]).
Qed.

Lemma check_tpm_secure_boot_results (h : host) (target : string) (c : bool) (s : Z) :
  let t := trace (check_tpm_secure_boot h target c s) in
  (target <> "Windows 11" -> t = []) /\
  (target = "Windows 11" -> tpm_secure_boot_shape (results t)).
Proof.
  unfold check_tpm_secure_boot, tpm_secure_boot_shape.
  destruct (String.eqb_spec target "Windows 11") as [-> | Hne].
  2: { split; [reflexivity | congruence]. }
  split; [congruence | intros _].
  settle_wmi h; eauto 6.
Qed.

(** A disabled Secure Boot does not stop the TPM check: when no query
    of the block raises, both results are printed. *)
Lemma check_tpm_secure_boot_both (h : host) (c : bool) (s : Z)
    (w : WMI) (os : OperatingSystem) (l : list OperatingSystem) (b : bool)
    (tpm : Tpm) (l' : list Tpm) :
  wmi_WMI h = Ok w ->
  Win32_OperatingSystem w = Ok (os :: l) ->
  SecureBoot os = Ok b ->
  Win32_Tpm w = Ok (tpm :: l') ->
  exists v5,
    results (trace (check_tpm_secure_boot h "Windows 11" c s)) =
    [Check SecureBootEnabled (if b then Passed else Failed); Check Tpm20 v5].
Proof.
  intros H1 H2 H3 H4. unfold check_tpm_secure_boot.
  change ("Windows 11" =? "Windows 11")%string with true. cbv iota.
  rewrite H1. destruct w as [vc dm bb bios oss tpms].
  cbn in H2, H4. subst oss tpms. destruct os as [sb]. cbn in H3. subst sb.
  destruct tpm as [ver]. destruct b;
    cbv beta iota zeta delta
      [Win32_OperatingSystem Win32_Tpm SecureBoot SpecVersion];
    settle; eexists; reflexivity.
Qed.

Lemma check_requirements_trace (h : host) (target : string) (reqs : requirements) (s : Z) :
  exists c1 c2 c3 c4,
    let t1 := trace (check_cpu h reqs true s) in
    let t2 := trace (check_ram h reqs c1 s) in
    let t3 := trace (check_storage h reqs c2 s) in
    let t4 := trace (check_tpm_secure_boot h target c3 s) in
    c4 = all_passed (results (t1 ++ t2 ++ t3 ++ t4)) /\
    can_upgrade_lines (t1 ++ t2 ++ t3 ++ t4) = [] /\
    check_requirements h target reqs s =
    mkRun (Ok tt) s
      ([Print (Banner ("Upgrade Compatibility Check for " ++ target))]
       ++ (t1 ++ t2 ++ t3 ++ t4)
       ++ [Print (Note Rule); Print (CanUpgrade target c4); Print (Note Rule)]).
Proof.
  destruct (check_cpu_block h reqs true s) as (Ho1 & Hs1 & Hu1).
  set (t1 := trace (check_cpu h reqs true s)) in *.
  set (c1 := true && all_passed (results t1)) in *.
  destruct (check_ram_block h reqs c1 s) as (Ho2 & Hs2 & Hu2).
  set (t2 := trace (check_ram h reqs c1 s)) in *.
  set (c2 := c1 && all_passed (results t2)) in *.
  destruct (check_storage_block h reqs c2 s) as (Ho3 & Hs3 & Hu3).
  set (t3 := trace (check_storage h reqs c2 s)) in *.
  set (c3 := c2 && all_passed (results t3)) in *.
  destruct (check_tpm_secure_boot_block h target c3 s) as (Ho4 & Hs4 & Hu4).
  set (t4 := trace (check_tpm_secure_boot h target c3 s)) in *.
  set (c4 := c3 && all_passed (results t4)) in *.
  exists c1, c2, c3, c4. cbv zeta. fold t1 t2 t3 t4.
  split; [| split].
  - subst c4 c3 c2 c1. rewrite !results_app, !all_passed_app.
    cbn [andb]. now rewrite !andb_assoc.
  - rewrite !can_upgrade_lines_app, Hu1, Hu2, Hu3, Hu4. reflexivity.
  - unfold check_requirements, print_section.
    rewrite (bind_Ok (print _) _ s tt eq_refl).
    cbn [print outcome health_score trace].
    rewrite (bind_Ok _ _ s c1 Ho1). cbn [outcome health_score trace]. rewrite Hs1.
    rewrite (bind_Ok _ _ s c2 Ho2). cbn [outcome health_score trace]. rewrite Hs2.
    rewrite (bind_Ok _ _ s c3 Ho3). cbn [outcome health_score trace]. rewrite Hs3.
    rewrite (bind_Ok _ _ s c4 Ho4). cbn [outcome health_score trace]. rewrite Hs4.
    fold t1 t2 t3 t4. run_head.
    rewrite <- !app_assoc. reflexivity.
Qed.

Lemma results_in_printed (t : list event) (l : line) :
  In l (results t) -> In l (printed t).
Proof. unfold results. intro H. now apply filter_In in H. Qed.

Lemma check_requirements_run (h : host) (target : string) (reqs : requirements) (s : Z) :
  let r := check_requirements h target reqs s in
  let rs := results (trace r) in
  outcome r = Ok tt /\
  (forall q, In q [Processor; Ram; Storage] ->
             evaluated_and_reported q (trace r)) /\
  (exists v1 v2 v3 tail,
     rs = Check Processor v1 :: Check Ram v2 :: Check Storage v3 :: tail /\
     (target <> "Windows 11" -> tail = []) /\
     (target = "Windows 11" -> tpm_secure_boot_shape tail) /\
     (target = "Windows 11" ->
      forall w os l b tpm l',
        wmi_WMI h = Ok w ->
        Win32_OperatingSystem w = Ok (os :: l) ->
        SecureBoot os = Ok b ->
        Win32_Tpm w = Ok (tpm :: l') ->
        exists v5,
          tail = [ Check SecureBootEnabled (if b then Passed else Failed);
                   Check Tpm20 v5 ])) /\
  ((exists e, cpu_count h = Raise e) \/ (exists e, cpu_freq h = Raise e) ->
   In (Check Processor CouldNotCheck) rs) /\
  ((exists e, virtual_memory h = Raise e) -> In (Check Ram CouldNotCheck) rs) /\
  ((exists e, disk_usage h "C:\" = Raise e) ->
   In (Check Storage CouldNotCheck) rs) /\
  can_upgrade_lines (trace r) = [(target, all_passed rs)].
Proof.
  destruct (check_requirements_trace h target reqs s)
    as (c1 & c2 & c3 & c4 & Hc4 & Hu & Heq).
  cbv zeta in Hc4, Hu, Heq. cbv zeta. rewrite Heq. clear Heq.
  cbn [outcome trace].
  destruct (check_cpu_results h reqs true s) as ([v1 Hv1] & Hq1 & Hf1 & Hf1').
  destruct (check_ram_results h reqs c1 s) as ([v2 Hv2] & Hq2 & Hf2).
  destruct (check_storage_results h reqs c2 s) as ([v3 Hv3] & Hq3 & Hf3).
  destruct (check_tpm_secure_boot_results h target c3 s) as (Hn4 & Hy4).
  cbv zeta in Hv1, Hq1, Hf1, Hf1', Hv2, Hq2, Hf2, Hv3, Hq3, Hf3, Hn4, Hy4.
  set (t1 := trace (check_cpu h reqs true s)) in *.
  set (t2 := trace (check_ram h reqs c1 s)) in *.
  set (t3 := trace (check_storage h reqs c2 s)) in *.
  set (t4 := trace (check_tpm_secure_boot h target c3 s)) in *.
  set (banner := [Print (Banner ("Upgrade Compatibility Check for " ++ target))]).
  set (final := [Print (Note Rule); Print (CanUpgrade target c4); Print (Note Rule)]).
  assert (Hrs : results (banner ++ (t1 ++ t2 ++ t3 ++ t4) ++ final) =
                Check Processor v1 :: Check Ram v2 :: Check Storage v3
                :: results t4).
  { rewrite !results_app, Hv1, Hv2, Hv3. subst banner final. cbn.
    now rewrite app_nil_r. }
  assert (Hrs' : results (t1 ++ t2 ++ t3 ++ t4) =
                 results (banner ++ (t1 ++ t2 ++ t3 ++ t4) ++ final)).
  { rewrite (results_app banner), (results_app _ final).
    subst banner final. cbn. now rewrite app_nil_r. }
  rewrite Hrs' in Hc4. rewrite Hrs in *.
  split; [reflexivity |].
  split; [| split; [| split; [| split; [| split]]]].
  - intros q Hq. unfold evaluated_and_reported.
    rewrite !queried_app. split.
    + apply in_or_app. right. apply in_or_app. left.
      destruct Hq as [<- | [<- | [<- | []]]]; cbn [query_of].
      * apply in_or_app. now left.
      * apply in_or_app. right. apply in_or_app. now left.
      * apply in_or_app. right. apply in_or_app. right.
        apply in_or_app. now left.
    + assert (Hin : forall l, In l (Check Processor v1 :: Check Ram v2
                                    :: Check Storage v3 :: results t4) ->
                              In l (printed (banner ++ (t1 ++ t2 ++ t3 ++ t4)
                                             ++ final))).
      { intros l Hl. apply results_in_printed. now rewrite Hrs. }
      destruct Hq as [<- | [<- | [<- | []]]].
      * exists v1. apply Hin. now left.
      * exists v2. apply Hin. right. now left.
      * exists v3. apply Hin. right. right. now left.
  - exists v1, v2, v3, (results t4). split; [reflexivity |].
    split; [| split].
    + intro Hne. now rewrite (Hn4 Hne).
    + exact Hy4.
    + intros -> w os l b tpm l' H1 H2 H3 H4. subst t4.
      exact (check_tpm_secure_boot_both h c3 s w os l b tpm l' H1 H2 H3 H4).
  - intros [[e He] | [e He]].
    + rewrite (Hf1 e He) in Hv1. inversion Hv1. now left.
    + rewrite (Hf1' e He) in Hv1. inversion Hv1. now left.
  - intros [e He]. rewrite (Hf2 e He) in Hv2. inversion Hv2. right. now left.
  - intros [e He]. rewrite (Hf3 e He) in Hv3. inversion Hv3.
    right. right. now left.
  - rewrite (can_upgrade_lines_app banner), (can_upgrade_lines_app _ final), Hu.
    subst banner final. cbn. now rewrite Hc4.
Qed.

(** *** The results and the queries, from the readings *)

Lemma check_cpu_expected (h : host) (reqs : requirements) (c : bool) (s : Z) :
  let t := trace (check_cpu h reqs c s) in
  results t = [processor_result h reqs] /\
  queried t =
    Q_cpu_count
    :: match cpu_count h with
       | Ok _ => [Q_cpu_freq]
       | Raise _ => []
       end.
Proof.
  unfold check_cpu, processor_result, cpu_verdict.
  destruct (cpu_count h) as [[n |] | e];
    destruct (cpu_freq h) as [[f |] | e']; run_steps;
    try (split; reflexivity).
  destruct ((n <? CPU_CORES reqs)
            || Py.lt (freq_current f) (inject_Z (CPU_FREQ reqs)));
    split; reflexivity.
Qed.

Lemma check_ram_expected (h : host) (reqs : requirements) (c : bool) (s : Z) :
  let t := trace (check_ram h reqs c s) in
  results t = [ram_result h reqs] /\ queried t = [Q_virtual_memory].
Proof.
  unfold check_ram, ram_result, size_verdict.
  destruct (virtual_memory h) as [mem | e]; run_steps;
    [| split; reflexivity].
  destruct (Py.lt (gib (vm_total mem)) (inject_Z (RAM_GB reqs)));
    split; reflexivity.
Qed.

Lemma check_storage_expected (h : host) (reqs : requirements) (c : bool) (s : Z) :
  let t := trace (check_storage h reqs c s) in
  results t = [storage_result h reqs] /\ queried t = [Q_disk_usage "C:\"].
Proof.
  unfold check_storage, storage_result, size_verdict.
  destruct (disk_usage h "C:\") as [du | e]; run_steps;
    [| split; reflexivity].
  destruct (Py.lt (gib (du_total du)) (inject_Z (DISK_GB reqs)));
    split; reflexivity.
Qed.

Lemma check_tpm_secure_boot_expected (h : host) (target : string) (c : bool) (s : Z) :
  let t := trace (check_tpm_secure_boot h target c s) in
  results t =
    (if (target =? "Windows 11")%string then tpm_secure_boot_results h else []) /\
  queried t =
    (if (target =? "Windows 11")%string then tpm_secure_boot_queries h else []).
Proof.
  unfold check_tpm_secure_boot, tpm_secure_boot_results,
    tpm_secure_boot_queries, tpm_result, tpm_verdict, secure_boot_verdict.
  destruct (target =? "Windows 11")%string; [| split; reflexivity].
  destruct (wmi_WMI h) as [[vc dm bb bios oss tpms] | e4];
    [| run_steps; split; reflexivity].
  cbv beta iota zeta delta [Win32_OperatingSystem Win32_Tpm].
  destruct oss as [[| [[sb | e1]] l] | e2];
    cbv beta iota zeta delta [SecureBoot];
    try (run_steps; split; reflexivity).
  destruct tpms as [[| [[v |]] l'] | e3];
    cbv beta iota zeta delta [SpecVersion].
  - destruct sb; run_steps; split; reflexivity.
  - destruct (Py.truthy_str v) eqn:Et; destruct (Py.contains "2.0" v) eqn:Ec;
      destruct sb; run_steps; rewrite ?Et, ?Ec; cbn; split; reflexivity.
  - destruct sb; run_steps; split; reflexivity.
  - destruct sb; run_steps; split; reflexivity.
Qed.

Lemma check_requirements_expected (h : host) (target : string)
    (reqs : requirements) (s : Z) :
  let t := trace (check_requirements h target reqs s) in
  results t = requirement_results h target reqs /\
  queried t = requirement_queries h target.
Proof.
  destruct (check_requirements_trace h target reqs s)
    as (c1 & c2 & c3 & c4 & _ & _ & Heq).
  cbv zeta in Heq. cbv zeta. rewrite Heq. cbn [trace].
  destruct (check_cpu_expected h reqs true s) as [Hr1 Hq1].
  destruct (check_ram_expected h reqs c1 s) as [Hr2 Hq2].
  destruct (check_storage_expected h reqs c2 s) as [Hr3 Hq3].
  destruct (check_tpm_secure_boot_expected h target c3 s) as [Hr4 Hq4].
  cbv zeta in Hr1, Hq1, Hr2, Hq2, Hr3, Hq3, Hr4, Hq4.
  unfold requirement_results, requirement_queries.
  rewrite !results_app, !queried_app, Hr1, Hr2, Hr3, Hr4, Hq1, Hq2, Hq3, Hq4.
  split.
  - cbn [results printed filter is_result app]. now rewrite app_nil_r.
  - cbn [queried app]. now rewrite app_nil_r.
Qed.

(** C4, as stated, fails where reading [SecureBoot] raises: the TPM is
    then neither queried nor given a result of its own. *)
Lemma secure_boot_fault_skips_tpm :
  ~ every_requirement_checked windows10_no_secure_boot_attribute 100.
Proof.
  intro H.
  destruct (H "Windows 11" requirements_11 eq_refl Tpm20) as [Hq _].
  - cbn. right. right. right. right. now left.
  - vm_compute in Hq. decompose [or] Hq; try discriminate; assumption.
Qed.

Lemma tpm_queried_iff (h : host) (target : string) :
  In Q_Win32_Tpm (requirement_queries h target) <->
  target = "Windows 11" /\
  exists c os l sb,
    wmi_WMI h = Ok c /\ Win32_OperatingSystem c = Ok (os :: l) /\
    SecureBoot os = Ok sb.
Proof.
  unfold requirement_queries. rewrite !in_app_iff.
  assert (H1 : ~ In Q_Win32_Tpm
                 (Q_cpu_count
                  :: match cpu_count h with
                     | Ok _ => [Q_cpu_freq]
                     | Raise _ => []
                     end))
    by (destruct (cpu_count h); cbn; intuition discriminate).
  assert (H2 : ~ In Q_Win32_Tpm [Q_virtual_memory; Q_disk_usage "C:\"])
    by (cbn; intuition discriminate).
  destruct (String.eqb_spec target "Windows 11") as [-> | Hne].
  - split.
    + intros [H | [H | H]]; [contradiction | contradiction |].
      split; [reflexivity |]. unfold tpm_secure_boot_queries in H.
      destruct (wmi_WMI h) as [c | e]; [| cbn in H; intuition discriminate].
      destruct (Win32_OperatingSystem c) as [[| os l] | e] eqn:Hos;
        [cbn in H; intuition discriminate | | cbn in H; intuition discriminate].
      destruct (SecureBoot os) as [sb | e] eqn:Hsb;
        [eauto 8 | cbn in H; intuition discriminate].
    + intros (_ & c & os & l & sb & Hc & Hos & Hsb). right. right.
      unfold tpm_secure_boot_queries. rewrite Hc, Hos, Hsb. cbn. auto.
  - split.
    + intros [H | [H | H]]; contradiction.
    + intros [Ht _]. contradiction.
Qed.

Lemma not_all_passed (rs : list line) (l : line) :
  In l rs -> passed l = false -> all_passed rs = false.
Proof.
  intros Hin Hl. destruct (all_passed rs) eqn:Ha; [| reflexivity].
  unfold all_passed in Ha. rewrite forallb_forall in Ha.
  apply Ha in Hin. congruence.
Qed.

(** C4, amended.  On Windows, once a target is chosen, the check returns;
    the processor, RAM and storage requirements are each evaluated and
    each get a result whatever the earlier results; for Windows 11 the
    Secure Boot and TPM results follow, from one guarded block: both
    results, or the Secure Boot result and one TPM/Secure Boot error, or
    that error alone.  Every result line and every query is the one the
    readings call for ([requirement_results], [requirement_queries]): a
    query that raises outside the guarded block gives a could-not-check
    result; in the guarded block, when [wmi.WMI()], the operating system
    class or the [SecureBoot] attribute raises, the one error line is the
    only result of the block and the TPM is never queried (it is queried
    exactly when Secure Boot was read); when the TPM class raises, the
    Secure Boot result stays and the error line follows it.  The final
    line says "can be upgraded" exactly when no result is a failure, so
    never when a could-not-check or an error line was printed.  On
    Windows 10 build 19045 with one core at 2000 MHz, 8 GB of RAM, a
    100 GB drive, TPM 2.0 and Secure Boot, the processor result alone is
    a failure (1 core is below 2, 2000 MHz is not below 1000) and the
    final line is "does not meet"; on capable machines where [wmi.WMI()]
    or the TPM class raises, the error line alone makes it "does not
    meet". *)
Theorem upgrade_requirements_checked :
  (forall (h : host) (target : string) (reqs : requirements) (s : Z),
     platform_system h = "Windows" ->
     candidate h = Some (target, reqs) ->
     let r := check_upgrade_compatibility h s in
     let rs := results (trace r) in
     outcome r = Ok tt /\
     (forall q, In q [Processor; Ram; Storage] ->
                evaluated_and_reported q (trace r)) /\
     (exists v1 v2 v3 tail,
        rs = Check Processor v1 :: Check Ram v2 :: Check Storage v3 :: tail /\
        (target <> "Windows 11" -> tail = []) /\
        (target = "Windows 11" -> tpm_secure_boot_shape tail) /\
        (target = "Windows 11" ->
         forall w os l b tpm l',
           wmi_WMI h = Ok w ->
           Win32_OperatingSystem w = Ok (os :: l) ->
           SecureBoot os = Ok b ->
           Win32_Tpm w = Ok (tpm :: l') ->
           exists v5,
             tail = [ Check SecureBootEnabled (if b then Passed else Failed);
                      Check Tpm20 v5 ])) /\
     ((exists e, cpu_count h = Raise e) \/ (exists e, cpu_freq h = Raise e) ->
      In (Check Processor CouldNotCheck) rs) /\
     ((exists e, virtual_memory h = Raise e) ->
      In (Check Ram CouldNotCheck) rs) /\
     ((exists e, disk_usage h "C:\" = Raise e) ->
      In (Check Storage CouldNotCheck) rs) /\
     can_upgrade_lines (trace r) = [(target, all_passed rs)] /\
     (all_passed rs = true <-> forall l, In l rs -> passed l = true) /\
     rs = requirement_results h target reqs /\
     queried (trace r) = requirement_queries h target /\
     (In Q_Win32_Tpm (queried (trace r)) <->
      target = "Windows 11" /\
      exists c os l sb,
        wmi_WMI h = Ok c /\ Win32_OperatingSystem c = Ok (os :: l) /\
        SecureBoot os = Ok sb) /\
     (target = "Windows 11" ->
      (forall e, wmi_WMI h = Raise e ->
         skipn 3 rs = [TpmSecureBootError e]) /\
      (forall c e, wmi_WMI h = Ok c ->
         Win32_OperatingSystem c = Raise e \/
         (Win32_OperatingSystem c = Ok [] /\ e = IndexError) ->
         skipn 3 rs = [TpmSecureBootError e]) /\
      (forall c os l e, wmi_WMI h = Ok c ->
         Win32_OperatingSystem c = Ok (os :: l) ->
         SecureBoot os = Raise e ->
         skipn 3 rs = [TpmSecureBootError e]) /\
      (forall c os l sb e, wmi_WMI h = Ok c ->
         Win32_OperatingSystem c = Ok (os :: l) ->
         SecureBoot os = Ok sb ->
         Win32_Tpm c = Raise e \/ (Win32_Tpm c = Ok [] /\ e = IndexError) ->
         skipn 3 rs =
           [ Check SecureBootEnabled (secure_boot_verdict sb);
             TpmSecureBootError e ]) /\
      (forall c os l sb tpm l', wmi_WMI h = Ok c ->
         Win32_OperatingSystem c = Ok (os :: l) ->
         SecureBoot os = Ok sb ->
         Win32_Tpm c = Ok (tpm :: l') ->
         skipn 3 rs =
           [ Check SecureBootEnabled (secure_boot_verdict sb);
             Check Tpm20 (tpm_verdict tpm) ])) /\
     ((exists e, In (TpmSecureBootError e) rs) \/
      (exists q, In (Check q CouldNotCheck) rs) \/
      (exists q, In (Check q Failed) rs) ->
      can_upgrade_lines (trace r) = [(target, false)])) /\
  (let r := check_upgrade_compatibility windows10_one_core 100 in
   candidate windows10_one_core = Some ("Windows 11", requirements_11) /\
   results (trace r) =
     [ Check Processor Failed; Check Ram Passed; Check Storage Passed;
       Check SecureBootEnabled Passed; Check Tpm20 Passed ] /\
   can_upgrade_lines (trace r) = [("Windows 11", false)] /\
   (1 <? CPU_CORES requirements_11) = true /\
   Py.lt 2000 (inject_Z (CPU_FREQ requirements_11)) = false) /\
  (let r := check_upgrade_compatibility windows10_no_wmi 100 in
   results (trace r) =
     [ Check Processor Passed; Check Ram Passed; Check Storage Passed;
       TpmSecureBootError (OtherError "x_wmi") ] /\
   can_upgrade_lines (trace r) = [("Windows 11", false)]) /\
  (let r := check_upgrade_compatibility windows10_no_tpm_class 100 in
   results (trace r) =
     [ Check Processor Passed; Check Ram Passed; Check Storage Passed;
       Check SecureBootEnabled Passed;
       TpmSecureBootError (OtherError "x_wmi") ] /\
   can_upgrade_lines (trace r) = [("Windows 11", false)]).
Proof.
  split; [| split; [| split]].
  - intros h target reqs s Hsys Hc.
    rewrite (candidate_selected h target reqs s Hsys Hc).
    destruct (check_requirements_run h target reqs s)
      as (H1 & H2 & H3 & H4 & H5 & H6 & H7).
    destruct (check_requirements_expected h target reqs s) as [Hrs Hq].
    cbv zeta in *.
    split; [exact H1 |]. split; [exact H2 |]. split; [exact H3 |].
    split; [exact H4 |]. split; [exact H5 |]. split; [exact H6 |].
    split; [exact H7 |]. split; [apply forallb_forall |].
    split; [exact Hrs |]. split; [exact Hq |].
    split; [rewrite Hq; apply tpm_queried_iff |].
    split.
    + intros ->. rewrite Hrs.
      unfold requirement_results, tpm_secure_boot_results, tpm_result.
      change ("Windows 11" =? "Windows 11")%string with true. cbv iota.
      split; [| split; [| split; [| split]]].
      * intros e He. rewrite He. reflexivity.
      * intros c e Hw [Hos | [Hos ->]]; rewrite Hw, Hos; reflexivity.
      * intros c os l e Hw Hos Hsb. rewrite Hw, Hos, Hsb. reflexivity.
      * intros c os l sb e Hw Hos Hsb [Ht | [Ht ->]];
          rewrite Hw, Hos, Hsb, Ht; reflexivity.
      * intros c os l sb tpm l' Hw Hos Hsb Ht.
        rewrite Hw, Hos, Hsb, Ht. reflexivity.
    + intro Hbad. rewrite H7. f_equal. f_equal.
      destruct Hbad as [[e He] | [[q Hq'] | [q Hq']]];
        eapply not_all_passed; eauto.
  - vm_compute.
    split; [reflexivity |]. split; [reflexivity |]. split; [reflexivity |].
    split; reflexivity.
  - vm_compute. split; reflexivity.
  - vm_compute. split; reflexivity.
Qed.

Lemma upgrade_requirements_checked_witness :
  can_upgrade_lines (trace (check_upgrade_compatibility windows10_one_core 100))
  = [("Windows 11", false)].
Proof.
  destruct upgrade_requirements_checked as [H _].
  destruct (H windows10_one_core "Windows 11" requirements_11 100
              eq_refl eq_refl) as (_ & _ & _ & _ & _ & _ & H7 & _).
  rewrite H7. vm_compute. reflexivity.
Defined.

(** ** Collectors and exceptions *)

Lemma get_battery_info_raises (h : host) (e : exn) (s : Z) :
  sensors_battery h = Raise e ->
  get_battery_info h s =
  mkRun (Raise e) s [Print (Banner "Battery Information"); Call Q_sensors_battery].
Proof. intro He. unfold get_battery_info. rewrite He. reflexivity. Qed.

Lemma get_disk_info_raises (h : host) (e : exn) (s : Z) :
  disk_partitions h = Raise e ->
  get_disk_info h s =
  mkRun (Raise e) s [Print (Banner "Disk Information"); Call Q_disk_partitions].
Proof. intro He. unfold get_disk_info. rewrite He. reflexivity. Qed.

(** C3, where the code departs from it.  [get_battery_info] has no [try]
    and [get_disk_info] lists the partitions outside its [try]: when
    [psutil.sensors_battery()] or [psutil.disk_partitions()] raises, the
    exception leaves the collector.  On a host where the battery query
    raises, [run_all_checks] ends with that exception after the battery
    banner: the GPU, network, hardware and upgrade sections never run and
    no health report is printed. *)
Theorem collector_fault_escapes :
  (forall h e s, sensors_battery h = Raise e ->
                 outcome (get_battery_info h s) = Raise e) /\
  (forall h e s, disk_partitions h = Raise e ->
                 outcome (get_disk_info h s) = Raise e) /\
  (let r := main linux_battery_fault in
   outcome r = Raise (OtherError "sensors_battery") /\
   queried (trace r) =
     [ Q_cpu_percent; Q_cpu_freq; Q_cpu_count; Q_virtual_memory;
       Q_disk_partitions; Q_disk_usage "/mnt"; Q_sensors_battery ] /\
   last (printed (trace r)) (Note Rule) = Banner "Battery Information" /\
   existsb is_score_line (printed (trace r)) = false).
Proof.
  split; [| split].
  - intros h e s He. now rewrite (get_battery_info_raises h e s He).
  - intros h e s He. now rewrite (get_disk_info_raises h e s He).
  - vm_compute. split; [reflexivity |]. split; [reflexivity |].
    split; reflexivity.
Qed.

Lemma collector_fault_escapes_witness :
  outcome (get_battery_info linux_battery_fault 100) =
  Raise (OtherError "sensors_battery").
Proof.
  destruct collector_fault_escapes as [H _].
  apply (H linux_battery_fault (OtherError "sensors_battery") 100).
  reflexivity.
Defined.

(** ** The network listing *)

(** A loop whose body only prints. *)
Lemma for_each_prints {A : Type} (xs : list A) (body : A -> M unit)
    (lines : A -> list line) (s : Z) :
  (forall x s', body x s' = mkRun (Ok tt) s' (map Print (lines x))) ->
  for_each xs body s = mkRun (Ok tt) s (map Print (flat_map lines xs)).
Proof.
  intro Hbody. induction xs as [| x xs IH]; [reflexivity |].
  cbn [for_each flat_map].
  rewrite (bind_Ok (body x) _ s tt) by (now rewrite Hbody).
  rewrite Hbody. cbn [outcome health_score trace]. rewrite IH.
  cbn [outcome health_score trace]. now rewrite map_app.
Qed.

Lemma address_loop_run (addresses : list snicaddr) (s : Z) :
  address_loop addresses s =
  mkRun (Ok tt) s (map Print (flat_map address_lines addresses)).
Proof.
  unfold address_loop. apply for_each_prints. intros a s'.
  unfold address_lines.
  destruct (family a =? -1); [| destruct (family a =? AF_INET)]; reflexivity.
Qed.

Lemma interface_loop_run (net : list (string * list snicaddr)) (s : Z) :
  for_each net (fun entry =>
    print (Item "Interface" (VStr (fst entry)));;
    address_loop (snd entry)) s =
  mkRun (Ok tt) s (map Print (flat_map (interface_lines address_lines) net)).
Proof.
  apply for_each_prints. intros entry s'.
  rewrite (bind_Ok (print _) _ s' tt eq_refl).
  cbn [print outcome health_score trace]. rewrite address_loop_run.
  reflexivity.
Qed.

Lemma printed_map_Print (ls : list line) : printed (map Print ls) = ls.
Proof. induction ls as [| l ls IH]; cbn; [| rewrite IH]; reflexivity. Qed.

(** What [get_network_info] prints when the interfaces can be listed. *)
Lemma get_network_info_lines (h : host) (net : list (string * list snicaddr)) (s : Z) :
  net_if_addrs h = Ok net ->
  outcome (get_network_info h s) = Ok tt /\
  printed (trace (get_network_info h s)) = network_lines address_lines net.
Proof.
  intro Hnet. unfold get_network_info. rewrite Hnet.
  change (for_each net _) with
    (for_each net (fun entry =>
       print (Item "Interface" (VStr (fst entry)));;
       address_loop (snd entry))).
  unfold print_section.
  rewrite (bind_Ok (print _) _ s tt eq_refl).
  cbn [print outcome health_score trace]. unfold try_except.
  rewrite (bind_Ok (call _ _) _ s net eq_refl).
  cbn [call outcome health_score trace].
  rewrite interface_loop_run. cbn [outcome health_score trace app printed].
  now rewrite printed_map_Print.
Qed.






(** The hypothesis on the link-layer family is needed: the source
    compares the family with the constant -1, not with [psutil.AF_LINK].
    Were the method called where psutil's link-layer family is 17, the
    MAC address of [eth0] would be left out of the listing. *)
Remark link_layer_family_is_compared_with_minus_one :
  let h := linux_on_battery in
  let r := get_network_info h 100 in
  psutil_AF_LINK h = 17 /\
  net_if_addrs h =
    Ok [("eth0", [ {| family := 17; address := "aa:bb:cc:dd:ee:ff" |};
                   {| family := 2; address := "10.0.0.5" |} ])] /\
  printed (trace r) =
    [ Banner "Network Information"; Item "Interface" (VStr "eth0");
      Item "IP Address" (VStr "10.0.0.5") ] /\
  network_lines (expected_address_lines h)
    [("eth0", [ {| family := 17; address := "aa:bb:cc:dd:ee:ff" |};
                {| family := 2; address := "10.0.0.5" |} ])] =
    [ Banner "Network Information"; Item "Interface" (VStr "eth0");
      Item "MAC Address" (VStr "aa:bb:cc:dd:ee:ff");
      Item "IP Address" (VStr "10.0.0.5") ] /\
  health_score r = 100.
Proof.
  vm_compute. split; [reflexivity |]. split; [reflexivity |].
  split; [reflexivity |]. split; reflexivity.
Qed.

(** ** The memory check in detail *)

Lemma get_ram_info_run (h : host) (mem : svmem) (s : Z) :
  virtual_memory h = Ok mem ->
  outcome (get_ram_info h s) = Ok tt /\
  health_score (get_ram_info h s) =
    (if Py.gt (vm_percent mem) 85 then s - 10 else s) /\
  breaches (trace (get_ram_info h s)) =
    (if Py.gt (vm_percent mem) 85 then [HighRamUsage (vm_percent mem)] else []).
Proof.
  intro Hm. unfold get_ram_info. rewrite Hm. run_steps.
  destruct (Py.gt (vm_percent mem) 85); cbn; auto.
Qed.

(** X1.  When the memory query answers, [get_ram_info] returns and lowers
    the score, by 10, exactly when the usage is above 85; at 85 or below
    the score is left as it was. *)
Theorem ram_penalty_iff (h : host) (mem : svmem) (s : Z) :
  virtual_memory h = Ok mem ->
  let r := get_ram_info h s in
  outcome r = Ok tt /\
  (health_score r = s - 10 <-> (85 < vm_percent mem)%Q) /\
  (health_score r = s <-> (vm_percent mem <= 85)%Q) /\
  ((85 < vm_percent mem)%Q -> breaches (trace r) = [HighRamUsage (vm_percent mem)]).
Proof.
  intros Hm r. destruct (get_ram_info_run h mem s Hm) as (Ho & Hs & Hb).
  subst r. rewrite Hs, Hb. clear Hs Hb.
  pose proof (gt_spec (vm_percent mem) 85) as Hgt.
  split; [exact Ho |].
  destruct (Py.gt (vm_percent mem) 85).
  - assert (Hlt : (85 < vm_percent mem)%Q) by now apply Hgt.
    split; [split; auto |]. split; [| reflexivity].
    split; [lia |]. intro Hle. exfalso. exact (Qlt_not_le _ _ Hlt Hle).
  - assert (Hle : (vm_percent mem <= 85)%Q).
    { apply Qnot_lt_le. intro Hlt. apply Hgt in Hlt. discriminate. }
    split; [split; [lia |] |].
    + intro Hlt. exfalso. exact (Qlt_not_le _ _ Hlt Hle).
    + split; [split; auto |].
      intro Hlt. exfalso. exact (Qlt_not_le _ _ Hlt Hle).
Qed.

Lemma ram_penalty_iff_witness :
  health_score (get_ram_info linux_on_battery 100) = 100.
Proof.
  destruct (ram_penalty_iff linux_on_battery
              {| vm_total := 8 * GiB; vm_used := 8 * GiB / 2; vm_percent := 50 |}
              100 eq_refl) as (_ & _ & H & _).
  apply H. vm_compute. discriminate.
Defined.

(** ** The processor check in detail *)

(** Settles a body whose queries are settled, then its conditions. *)
Ltac settle_all :=
  run_steps;
  repeat match goal with
    | |- context [if ?c then _ else _] =>
        lazymatch type of c with bool => destruct c end
    end;
  cbn [breaches printed queried app].

Lemma get_cpu_info_run (h : host) (usage : Q) (f : scpufreq) (cores : option Z)
    (reading : option Q) (s : Z) :
  cpu_percent h = Ok usage ->
  cpu_freq h = Ok (Some f) ->
  cpu_count h = Ok cores ->
  coretemp_reading h = Ok reading ->
  outcome (get_cpu_info h s) = Ok tt /\
  health_score (get_cpu_info h s) =
    s - (if too_hot reading then 15 else 0)
      - (if Py.gt usage 85 then 10 else 0) /\
  breaches (trace (get_cpu_info h s)) =
    (match reading with
     | Some t => if Py.gt t 85 then [HighCpuTemperature t] else []
     | None => []
     end)
    ++ (if Py.gt usage 85 then [HighCpuUsage usage] else []).
Proof.
  intros Hu Hf Hc Ht. unfold get_cpu_info. rewrite Hu, Hf, Hc.
  unfold coretemp_reading in Ht.
  destruct (has_sensors_temperatures h).
  - destruct (sensors_temperatures h) as [temps | e]; [| discriminate].
    destruct (Py.lookup "coretemp" temps) as [[| t l] |] eqn:El;
      [discriminate | |]; inversion Ht; subst reading; cbn [too_hot];
      run_steps; rewrite El; run_steps.
    + destruct (Py.gt t 85); destruct (Py.gt usage 85);
        cbn; (split; [reflexivity | split; [lia | reflexivity]]).
    + destruct (Py.gt usage 85);
        cbn; (split; [reflexivity | split; [lia | reflexivity]]).
  - inversion Ht; subst reading; cbn [too_hot].
    run_steps. destruct (Py.gt usage 85);
      cbn; (split; [reflexivity | split; [lia | reflexivity]]).
Qed.

(** X2.  When the CPU queries answer, [get_cpu_info] returns with the
    score lowered by 15 if the first coretemp reading is above 85 and by
    10 if the usage is above 85, both when both hold: by 25 at most. *)
Theorem cpu_penalties (h : host) (usage : Q) (f : scpufreq) (cores : option Z)
    (reading : option Q) (s : Z) :
  cpu_percent h = Ok usage ->
  cpu_freq h = Ok (Some f) ->
  cpu_count h = Ok cores ->
  coretemp_reading h = Ok reading ->
  let r := get_cpu_info h s in
  outcome r = Ok tt /\
  health_score r =
    s - (if too_hot reading then 15 else 0)
      - (if Py.gt usage 85 then 10 else 0) /\
  s - 25 <= health_score r <= s /\
  (health_score r = s <-> too_hot reading = false /\ Py.gt usage 85 = false).
Proof.
  intros Hu Hf Hc Ht r.
  destruct (get_cpu_info_run h usage f cores reading s Hu Hf Hc Ht)
    as (Ho & Hs & _).
  subst r. rewrite Hs.
  split; [exact Ho |]. split; [reflexivity |].
  destruct (too_hot reading); destruct (Py.gt usage 85);
    (split; [lia |]); split; try lia; try (intros [H1 H2]; discriminate);
    auto.
Qed.

Lemma cpu_penalties_witness :
  health_score (get_cpu_info linux_hot 100) = 75.
Proof.
  destruct (cpu_penalties linux_hot (97 # 1)
              {| freq_current := 2400; freq_max := 2400 |} (Some 4) (Some (91 # 1))
              100 eq_refl eq_refl eq_refl eq_refl) as (_ & H & _).
  exact H.
Defined.

(** X3.  A fault on the way hides a usage breach: when [psutil.cpu_freq()]
    answers [None], or reading the temperature raises (the sensors query
    raises, or [coretemp] has no entry), [get_cpu_info] reports the
    failure, returns and leaves the score as it was, whatever the usage. *)
Theorem cpu_fault_hides_usage_breach (h : host) (usage : Q) (cores : option Z) (s : Z) :
  cpu_percent h = Ok usage ->
  cpu_count h = Ok cores ->
  cpu_freq h = Ok None \/
  ((exists f, cpu_freq h = Ok (Some f)) /\ exists e, coretemp_reading h = Raise e) ->
  let r := get_cpu_info h s in
  outcome r = Ok tt /\
  health_score r = s /\
  breaches (trace r) = [] /\
  exists e, last (printed (trace r)) (Note Rule) = Failure CpuInfoFailed e.
Proof.
  intros Hu Hc Hfault. unfold get_cpu_info. rewrite Hu, Hc.
  destruct Hfault as [Hf | [[f Hf] [e He]]]; rewrite Hf.
  - run_steps. cbn. repeat split. eexists. reflexivity.
  - unfold coretemp_reading in He.
    destruct (has_sensors_temperatures h); [| discriminate].
    destruct (sensors_temperatures h) as [temps | e'].
    + destruct (Py.lookup "coretemp" temps) as [[| t l] |] eqn:El;
        try discriminate.
      run_steps. rewrite El. run_steps. cbn.
      repeat split. eexists. reflexivity.
    + run_steps. cbn. repeat split. eexists. reflexivity.
Qed.

Lemma cpu_fault_hides_usage_breach_witness :
  health_score (get_cpu_info linux_sensor_fault 100) = 100.
Proof.
  destruct (cpu_fault_hides_usage_breach linux_sensor_fault (97 # 1) (Some 4) 100
              eq_refl eq_refl) as (_ & H & _).
  - right. split; [eexists; reflexivity | eexists; reflexivity].
  - exact H.
Defined.

(** ** Loops whose body always returns *)

Lemma for_each_run {A : Type} (xs : list A) (body : A -> M unit)
    (cost : A -> Z) (evs : A -> list event) (s : Z) :
  (forall x s', body x s' = mkRun (Ok tt) (s' - cost x) (evs x)) ->
  for_each xs body s =
  mkRun (Ok tt) (s - total_cost cost xs) (flat_map evs xs).
Proof.
  intro Hbody. revert s. induction xs as [| x xs IH]; intro s.
  - cbn. now rewrite Z.sub_0_r.
  - cbn [for_each flat_map total_cost fold_right].
    rewrite (bind_Ok (body x) _ s tt) by (now rewrite Hbody).
    rewrite Hbody. cbn [outcome health_score trace]. rewrite IH.
    cbn [outcome health_score trace]. f_equal. unfold total_cost. lia.
Qed.

Lemma total_cost_filter {A : Type} (p : A -> bool) (xs : list A) :
  total_cost (fun x => if p x then 10 else 0) xs =
  10 * Z.of_nat (List.length (filter p xs)).
Proof.
  induction xs as [| x xs IH]; [reflexivity |].
  cbn [total_cost fold_right filter]. fold (total_cost (fun x => if p x then 10 else 0) xs).
  rewrite IH. destruct (p x); cbn [List.length]; lia.
Qed.

(** ** The GPU check in detail *)

Lemma gpu_loop_body_run (gpu : GPU) (s : Z) :
  gpu_loop_body gpu s =
  mkRun (Ok tt) (s - (if gpu_breach gpu then 10 else 0)) (gpu_events gpu).
Proof.
  unfold gpu_loop_body, gpu_events, gpu_breach. run_steps.
  destruct (Py.gt (load100 gpu) 90 || Py.gt (temperature gpu) 85); cbn.
  - reflexivity.
  - now rewrite Z.sub_0_r.
Qed.

Lemma breaches_gpu_events (gpus : list GPU) :
  List.length (breaches (flat_map gpu_events gpus)) =
  List.length (filter gpu_breach gpus).
Proof.
  induction gpus as [| g gs IH]; [reflexivity |].
  cbn [flat_map filter]. rewrite breaches_app, length_app, IH.
  unfold gpu_events. destruct (gpu_breach g); reflexivity.
Qed.

Lemma queried_gpu_events (gpus : list GPU) :
  queried (flat_map gpu_events gpus) = [].
Proof.
  induction gpus as [| g gs IH]; [reflexivity |].
  cbn [flat_map]. rewrite queried_app, IH.
  unfold gpu_events. destruct (gpu_breach g); reflexivity.
Qed.

Lemma get_gpu_info_primary (h : host) (g : GPU) (gs : list GPU) (s : Z) :
  getGPUs h = Ok (g :: gs) ->
  get_gpu_info h s =
  mkRun (Ok tt)
    (s - 10 * Z.of_nat (List.length (filter gpu_breach (g :: gs))))
    (Print (Banner "Graphics Card (GPU) Information") :: Call Q_getGPUs
     :: flat_map gpu_events (g :: gs)).
Proof.
  intro Hg. unfold get_gpu_info. rewrite Hg.
  unfold print_section.
  rewrite (bind_Ok (print _) _ s tt eq_refl).
  cbn [print outcome health_score trace].
  assert (Hloop :
    (gpus <- call Q_getGPUs (Ok (g :: gs));;
     (if Py.truthy_list gpus
      then for_each gpus gpu_loop_body
      else print (Note NoNvidiaGpu);; _fallback_gpu_detection h)) s =
    mkRun (Ok tt)
      (s - 10 * Z.of_nat (List.length (filter gpu_breach (g :: gs))))
      (Call Q_getGPUs :: flat_map gpu_events (g :: gs))).
  { rewrite (bind_Ok (call _ _) _ s (g :: gs) eq_refl).
    cbn [call outcome health_score trace Py.truthy_list].
    rewrite (for_each_run (g :: gs) _ (fun x => if gpu_breach x then 10 else 0)
               gpu_events s gpu_loop_body_run).
    cbn [outcome health_score trace app]. now rewrite total_cost_filter. }
  unfold try_except. unfold gpu_loop_body in Hloop. rewrite Hloop.
  reflexivity.
Qed.

(** X4.  When GPUtil answers with at least one GPU, [get_gpu_info]
    returns with the score lowered by 10 for every GPU loaded above 90%
    or hotter than 85 degrees, one warning each, and does not fall back
    to WMI: its only query is the GPUtil one. *)
Theorem gpu_penalty_accumulates (h : host) (g : GPU) (gs : list GPU) (s : Z) :
  getGPUs h = Ok (g :: gs) ->
  let r := get_gpu_info h s in
  outcome r = Ok tt /\
  health_score r =
    s - 10 * Z.of_nat (List.length (filter gpu_breach (g :: gs))) /\
  List.length (breaches (trace r)) =
    List.length (filter gpu_breach (g :: gs)) /\
  queried (trace r) = [Q_getGPUs] /\
  (forall gpu, gpu_breach gpu = true <->
               (90 < load100 gpu)%Q \/ (85 < temperature gpu)%Q).
Proof.
  intros Hg r. subst r. rewrite (get_gpu_info_primary h g gs s Hg).
  cbn [outcome health_score trace breaches queried].
  split; [reflexivity |]. split; [reflexivity |].
  split; [apply breaches_gpu_events |].
  split; [now rewrite queried_gpu_events |].
  intro gpu. unfold gpu_breach. rewrite orb_true_iff, !gt_spec. reflexivity.
Qed.

Lemma gpu_penalty_accumulates_witness :
  health_score (get_gpu_info linux_two_gpus 100) = 90.
Proof.
  destruct (gpu_penalty_accumulates linux_two_gpus idle_gpu [busy_gpu] 100
              eq_refl) as (_ & H & _).
  exact H.
Defined.

Lemma fallback_returns (h : host) (s : Z) :
  outcome (_fallback_gpu_detection h s) = Ok tt /\
  health_score (_fallback_gpu_detection h s) = s.
Proof.
  split.
  - apply returns_unit. apply (guarded_returns h FallbackGpuDetection eq_refl).
  - apply (exec_untouched h FallbackGpuDetection eq_refl). discriminate.
Qed.

(** X5.  When GPUtil finds no GPU, or raises, [get_gpu_info] says so and
    then does all that [_fallback_gpu_detection] does; it returns and the
    score is left as it was. *)
Theorem gpu_falls_back (h : host) (s : Z) :
  getGPUs h = Ok [] \/ (exists e, getGPUs h = Raise e) ->
  let r := get_gpu_info h s in
  outcome r = Ok tt /\
  health_score r = s /\
  exists l,
    trace r =
      Print (Banner "Graphics Card (GPU) Information") :: Call Q_getGPUs
      :: Print l :: trace (_fallback_gpu_detection h s) /\
    (getGPUs h = Ok [] -> l = Note NoNvidiaGpu) /\
    (forall e, getGPUs h = Raise e -> l = Failure GputilFailed e).
Proof.
  intros Hg r. subst r. destruct (fallback_returns h s) as [Hfo Hfs].
  unfold get_gpu_info, print_section.
  rewrite (bind_Ok (print _) _ s tt eq_refl).
  cbn [print outcome health_score trace]. unfold try_except.
  destruct Hg as [Hg | [e Hg]]; rewrite Hg.
  - rewrite (bind_Ok (call _ _) _ s [] eq_refl).
    cbn [call outcome health_score trace Py.truthy_list].
    rewrite (bind_Ok (print _) _ s tt eq_refl).
    cbn [print outcome health_score trace]. rewrite Hfo, Hfs.
    cbn [outcome health_score trace app].
    split; [reflexivity |]. split; [reflexivity |].
    exists (Note NoNvidiaGpu).
    split; [reflexivity |]. split; [reflexivity | discriminate].
  - rewrite (bind_Raise (call _ _) _ s e eq_refl).
    cbn [call outcome health_score trace].
    rewrite (bind_Ok (print _) _ s tt eq_refl).
    cbn [print outcome health_score trace]. rewrite Hfo, Hfs.
    cbn [outcome health_score trace app].
    split; [reflexivity |]. split; [reflexivity |].
    exists (Failure GputilFailed e).
    split; [reflexivity |]. split; [discriminate |].
    intros e' He'. now inversion He'.
Qed.

Lemma gpu_falls_back_witness :
  health_score (get_gpu_info windows10_one_core 100) = 100.
Proof.
  destruct (gpu_falls_back windows10_one_core 100) as (_ & H & _).
  - left. reflexivity.
  - exact H.
Defined.

(** *** Sequences that only print *)

Lemma prints_print (l : line) : prints (print l) [l].
Proof. intro s. reflexivity. Qed.

Lemma prints_ret : prints (ret tt) [].
Proof. intro s. reflexivity. Qed.

Lemma prints_bind (m k : M unit) (ls ls' : list line) :
  prints m ls -> prints k ls' -> prints (m;; k) (ls ++ ls').
Proof.
  intros Hm Hk s. rewrite (bind_Ok m _ s tt) by (now rewrite Hm).
  rewrite Hm. cbn [outcome health_score trace]. rewrite Hk.
  cbn [outcome health_score trace]. now rewrite map_app.
Qed.

Lemma prints_when (c : bool) (body : M unit) (ls : list line) :
  prints body ls -> prints (when c body) (if c then ls else []).
Proof. intro Hb. destruct c; [exact Hb | apply prints_ret]. Qed.

Lemma prints_for_each {A : Type} (xs : list A) (body : A -> M unit)
    (lines : A -> list line) :
  (forall x, prints (body x) (lines x)) ->
  prints (for_each xs body) (flat_map lines xs).
Proof. intros Hb s. apply for_each_prints. intros x s'. apply Hb. Qed.

(** X6.  On Windows, when WMI answers, [_fallback_gpu_detection] lists
    every adapter with its driver version, then every display with its
    resolution, and says that nothing was identified exactly when both
    lists are empty. *)
Theorem fallback_lists_adapters_and_displays (h : host) (w : WMI)
    (gpu_list : list VideoController) (display_list : list DesktopMonitor) (s : Z) :
  platform_system h = "Windows" ->
  wmi_WMI h = Ok w ->
  Win32_VideoController w = Ok gpu_list ->
  Win32_DesktopMonitor w = Ok display_list ->
  let r := _fallback_gpu_detection h s in
  outcome r = Ok tt /\
  printed (trace r) = fallback_lines gpu_list display_list /\
  (In (Note NothingIdentifiedViaWmi) (printed (trace r)) <->
   gpu_list = [] /\ display_list = []).
Proof.
  intros Hsys Hw Hg Hd r. subst r.
  assert (Hrun : _fallback_gpu_detection h s =
                 mkRun (Ok tt) s
                   (Call Q_wmi_WMI :: Call Q_Win32_VideoController
                    :: Call Q_Win32_DesktopMonitor
                    :: map Print (fallback_lines gpu_list display_list))).
  { unfold _fallback_gpu_detection. rewrite Hsys.
    change ("Windows" =? "Windows")%string with true. cbv iota.
    rewrite Hw. unfold try_except.
    rewrite (bind_Ok (call _ _) _ s w eq_refl).
    cbn [call outcome health_score trace]. rewrite Hg.
    rewrite (bind_Ok (call _ _) _ s gpu_list eq_refl).
    cbn [call outcome health_score trace]. rewrite Hd.
    rewrite (bind_Ok (call _ _) _ s display_list eq_refl).
    cbn [call outcome health_score trace].
    match goal with
    | |- context [outcome (?K s)] =>
        assert (HK : prints K
                  ((if Py.truthy_list gpu_list
                    then [Note IdentifiedGraphicsCards]
                         ++ flat_map adapter_lines gpu_list
                    else [])
                   ++ (if Py.truthy_list display_list
                       then [Note ConnectedDisplays]
                            ++ flat_map display_lines display_list
                       else [])
                   ++ (if negb (Py.truthy_list gpu_list)
                          && negb (Py.truthy_list display_list)
                       then [Note NothingIdentifiedViaWmi] else [])))
    end.
    { apply prints_bind; [| apply prints_bind].
      - apply prints_when. apply prints_bind; [apply prints_print |].
        apply prints_for_each. intro gpu.
        apply (prints_bind _ _ [_] [_]); apply prints_print.
      - apply prints_when. apply prints_bind; [apply prints_print |].
        apply prints_for_each. intro monitor.
        apply (prints_bind _ _ [_] [_]); apply prints_print.
      - apply prints_when. apply prints_print. }
    unfold prints in HK. rewrite !(HK s).
    cbn [outcome health_score trace app]. unfold fallback_lines.
    destruct gpu_list; destruct display_list;
      cbn [Py.truthy_list negb andb app]; rewrite ?app_nil_r; reflexivity. }
  rewrite Hrun. cbn [outcome trace printed]. rewrite printed_map_Print.
  split; [reflexivity |]. split; [reflexivity |].
  unfold fallback_lines.
  assert (Hna : forall gs, ~ In (Note NothingIdentifiedViaWmi)
                             (flat_map adapter_lines gs)).
  { induction gs as [| g gs IH]; cbn; [tauto |].
    intros [H | [H | H]]; [discriminate | discriminate | auto]. }
  assert (Hnd : forall ds, ~ In (Note NothingIdentifiedViaWmi)
                             (flat_map display_lines ds)).
  { induction ds as [| d ds IH]; cbn; [tauto |].
    intros [H | [H | H]]; [discriminate | discriminate | auto]. }
  destruct gpu_list as [| g gs]; destruct display_list as [| d ds].
  - cbn. tauto.
  - split; [| intros [_ H]; discriminate].
    intro H. exfalso. cbn [app] in H. rewrite app_nil_r in H.
    destruct H as [H | H]; [discriminate | exact (Hnd _ H)].
  - split; [| intros [H _]; discriminate].
    intro H. exfalso. cbn [app] in H. rewrite app_nil_r in H.
    destruct H as [H | H]; [discriminate | exact (Hna _ H)].
  - split; [| intros [H _]; discriminate].
    intro H. exfalso. rewrite app_nil_r in H. apply in_app_or in H.
    destruct H as [[H | H] | [H | H]];
      [discriminate | exact (Hna _ H) | discriminate | exact (Hnd _ H)].
Qed.

Lemma fallback_lists_adapters_and_displays_witness :
  printed (trace (_fallback_gpu_detection windows10_one_core 100)) =
  [ Note IdentifiedGraphicsCards; Text "Basic Display Adapter";
    Item "Driver Version" (VStr "10.0") ].
Proof.
  destruct (fallback_lists_adapters_and_displays windows10_one_core
              (wmi_of (Ok true) (Ok [ {| SpecVersion := Some "2.0, 0, 1.38" |} ]))
              [ {| vc_Name := "Basic Display Adapter"; DriverVersion := "10.0" |} ]
              [] 100 eq_refl eq_refl eq_refl eq_refl) as (_ & H & _).
  exact H.
Defined.

(** ** Which queries a method makes *)

Section KeepsSequential.

Context (R : Z -> Z -> list event -> Prop) `{!Sequential R}.

Lemma seq_ret {A : Type} (a : A) : keeps R (ret a).
Proof. intro s; apply seq_nil. Qed.

Lemma seq_raise {A : Type} (e : exn) : keeps R (@raise A e).
Proof. intro s; apply seq_nil. Qed.

Lemma seq_get_score : keeps R get_score.
Proof. intro s; apply seq_nil. Qed.

Lemma seq_first {A : Type} (l : list A) : keeps R (first l).
Proof. destruct l; [apply seq_raise | apply seq_ret]. Qed.

Lemma seq_item {A : Type} (l : list A) (n : nat) : keeps R (item l n).
Proof. unfold item; destruct (nth_error l n); [apply seq_ret | apply seq_raise]. Qed.

Lemma seq_not_none {A : Type} (o : option A) : keeps R (not_none o).
Proof. destruct o; [apply seq_ret | apply seq_raise]. Qed.

Lemma seq_py_int (s : string) : keeps R (py_int s).
Proof. unfold py_int; destruct (Py.int s); [apply seq_ret | apply seq_raise]. Qed.

Lemma seq_bind {A B : Type} (m : M A) (f : A -> M B) :
  keeps R m -> (forall a, keeps R (f a)) -> keeps R (bind m f).
Proof.
  intros Hm Hf s. unfold bind. specialize (Hm s).
  destruct (outcome (m s)) as [a | e]; simpl; auto.
  eapply seq_app; [exact Hm | apply Hf].
Qed.

Lemma seq_try_except {A : Type} (m : M A) (handler : exn -> M A) :
  keeps R m -> (forall e, keeps R (handler e)) -> keeps R (try_except m handler).
Proof.
  intros Hm Hh s. unfold try_except. specialize (Hm s).
  destruct (outcome (m s)) as [a | e]; simpl; auto.
  eapply seq_app; [exact Hm | apply Hh].
Qed.

Lemma seq_when (c : bool) (body : M unit) :
  keeps R body -> keeps R (when c body).
Proof. destruct c; simpl; auto using seq_ret. Qed.

Lemma seq_for_each {A : Type} (xs : list A) (body : A -> M unit) :
  (forall x, keeps R (body x)) -> keeps R (for_each xs body).
Proof.
  intro Hb. induction xs as [| x xs IH]; simpl.
  - apply seq_ret.
  - apply seq_bind; auto.
Qed.

End KeepsSequential.

(** Walks a method body; [leaf] settles prints, penalties and queries. *)
Ltac walk_seq leaf :=
  repeat match goal with
    | |- Sequential _ => typeclasses eauto
    | |- keeps _ (print _) => leaf
    | |- keeps _ (penalize _) => leaf
    | |- keeps _ (call _ _) => leaf
    | |- keeps _ (print_section _) => unfold print_section
    | |- keeps _ (bind _ _) => apply seq_bind; intros
    | |- keeps _ (try_except _ _) => apply seq_try_except; intros
    | |- keeps _ (for_each _ _) => apply seq_for_each; intros
    | |- keeps _ (when _ _) => apply seq_when
    | |- keeps _ (ret _) => apply seq_ret
    | |- keeps _ (raise _) => apply seq_raise
    | |- keeps _ get_score => apply seq_get_score
    | |- keeps _ (first _) => apply seq_first
    | |- keeps _ (item _ _) => apply seq_item
    | |- keeps _ (not_none _) => apply seq_not_none
    | |- keeps _ (py_int _) => apply seq_py_int
    | |- keeps _ (let _ := _ in _) => cbv zeta
    | |- keeps _ (match ?x with _ => _ end) => destruct x
    end.

#[local] Instance queries_within_sequential (allowed : query -> bool) :
  Sequential (queries_within allowed).
Proof.
  split; unfold queries_within; intros; [reflexivity |].
  rewrite queried_app, forallb_app, H, H0. reflexivity.
Qed.

Lemma queries_within_print (allowed : query -> bool) (l : line) :
  keeps (queries_within allowed) (print l).
Proof. intro s. reflexivity. Qed.

Lemma queries_within_penalize (allowed : query -> bool) (n : Z) :
  keeps (queries_within allowed) (penalize n).
Proof. intro s. reflexivity. Qed.

Lemma queries_within_call {A : Type} (allowed : query -> bool) (q : query)
    (r : result A) :
  allowed q = true -> keeps (queries_within allowed) (call q r).
Proof. intros Hq s. unfold queries_within. cbn. now rewrite Hq. Qed.

Ltac queries_leaf :=
  first [ apply queries_within_print
        | apply queries_within_penalize
        | apply queries_within_call; reflexivity ].

(** X7.  Of the calls a run records, those of psutil, GPUtil and WMI
    and the PowerShell pipeline (the calls of [platform] and [datetime]
    are read from the host and not counted), each method makes only its
    own, however it ends: [get_system_info] and [show_health_report]
    make none of them, [get_last_windows_update] only the pipeline, the
    CPU, RAM, disk, battery and network collectors only their psutil
    calls, and WMI is reached only by the GPU fallback, the hardware
    listing and the upgrade check. *)
Theorem methods_make_their_own_queries (h : host) (m : method) (s : Z) (q : query) :
  In q (queried (trace (exec h m s))) -> own_queries m q = true.
Proof.
  intro Hin.
  assert (Hk : keeps (queries_within (own_queries m)) (exec h m)).
  { destruct m; open_methods; walk_seq queries_leaf. }
  specialize (Hk s). unfold queries_within in Hk.
  rewrite forallb_forall in Hk. now apply Hk.
Qed.

Lemma methods_make_their_own_queries_witness :
  own_queries GetRamInfo Q_virtual_memory = true.
Proof.
  apply (methods_make_their_own_queries linux_on_battery GetRamInfo 100).
  vm_compute. left. reflexivity.
Defined.

Lemma off_windows (h : host) :
  platform_system h <> "Windows" ->
  (platform_system h =? "Windows")%string = false.
Proof. intro H. now apply String.eqb_neq. Qed.

(** X8.  Off Windows nothing is asked of Windows: no method makes the
    hotfix query or any WMI query, whatever the other queries answer. *)
Theorem no_windows_query_off_windows (h : host) (m : method) (s : Z) (q : query) :
  platform_system h <> "Windows" ->
  In q (queried (trace (exec h m s))) -> windows_query q = false.
Proof.
  intros Hsys Hin. apply off_windows in Hsys.
  assert (Hk : keeps (queries_within (fun q => negb (windows_query q)))
                 (exec h m)).
  { destruct m; open_methods; rewrite ?Hsys; cbn [negb];
      walk_seq queries_leaf. }
  specialize (Hk s). unfold queries_within in Hk.
  rewrite forallb_forall in Hk. apply Hk in Hin.
  now apply negb_true_iff in Hin.
Qed.

Lemma no_windows_query_off_windows_witness :
  windows_query Q_getGPUs = false.
Proof.
  apply (no_windows_query_off_windows linux_on_battery GetGpuInfo 100).
  - vm_compute. discriminate.
  - vm_compute. left. reflexivity.
Defined.

(** ** The upgrade check: reading the version *)

Lemma split_not_nil (c : ascii) (s : string) : Py.split c s <> [].
Proof.
  unfold Py.split. destruct s as [| a s]; [discriminate |].
  fold (Py.split c s). destruct (Ascii.eqb a c); [discriminate |].
  destruct (Py.split c s); discriminate.
Qed.

Lemma item_py_int_fails (l : list string) (n : nat) (s : Z) (k : Z -> M unit) :
  match nth_error l n with Some part => Py.int part | None => None end = None ->
  exists e,
    (part <- item l n;; x <- py_int part;; k x) s = mkRun (Raise e) s [] /\
    (e = ValueError \/ e = IndexError).
Proof.
  unfold item, py_int. destruct (nth_error l n) as [part |]; intro Hz.
  - exists ValueError. run_head. rewrite Hz. run_head.
    split; [reflexivity | now left].
  - exists IndexError. run_head. split; [reflexivity | now right].
Qed.

Lemma py_int_fails (l : list string) (n : nat) (part : string) (s : Z)
    (k : Z -> M unit) :
  nth_error l n = Some part -> Py.int part = None ->
  (part <- item l n;; x <- py_int part;; k x) s = mkRun (Raise ValueError) s [].
Proof.
  intros Hn Hz. unfold item, py_int. rewrite Hn. run_head. rewrite Hz.
  run_head. reflexivity.
Qed.

Lemma check_requirements_returns (h : host) (target : string)
    (reqs : requirements) (s : Z) :
  outcome (check_requirements h target reqs s) = Ok tt.
Proof.
  destruct (check_requirements_trace h target reqs s)
    as (c1 & c2 & c3 & c4 & _ & _ & Heq).
  cbv zeta in Heq. now rewrite Heq.
Qed.

Lemma readable_returns (h : host) (s : Z) :
  platform_system h = "Windows" ->
  version_readable h ->
  outcome (check_upgrade_compatibility h s) = Ok tt.
Proof.
  intros Hsys (major & Hmajor & Hbuild).
  unfold check_upgrade_compatibility. rewrite Hsys.
  change (negb ("Windows" =? "Windows")%string) with false. cbv iota zeta.
  rewrite (item_py_int _ _ major s _ Hmajor).
  destruct (major =? 7); [apply check_requirements_returns |].
  destruct (major =? 8); [apply check_requirements_returns |].
  destruct (Z.eqb_spec major 10) as [E | _]; [| reflexivity].
  destruct (Hbuild E) as [build Hb].
  rewrite (item_py_int _ _ build s _ Hb).
  destruct (build >=? 22000); [reflexivity | apply check_requirements_returns].
Qed.

Lemma unreadable_raises (h : host) (s : Z) :
  platform_system h = "Windows" ->
  ~ version_readable h ->
  exists e,
    check_upgrade_compatibility h s = mkRun (Raise e) s [] /\
    (e = ValueError \/ e = IndexError).
Proof.
  intros Hsys Hno.
  unfold check_upgrade_compatibility. rewrite Hsys.
  change (negb ("Windows" =? "Windows")%string) with false. cbv iota zeta.
  destruct (current_version_major h) as [major |] eqn:Hmajor.
  - rewrite (item_py_int _ _ major s _ Hmajor).
    destruct (Z.eqb_spec major 10) as [-> | Hne].
    + change (10 =? 7) with false. change (10 =? 8) with false. cbv iota.
      destruct (build_number h) as [build |] eqn:Hb.
      * exfalso. apply Hno. exists 10. split; [exact Hmajor | eauto].
      * apply item_py_int_fails. exact Hb.
    + exfalso. apply Hno. exists major. split; [exact Hmajor | congruence].
  - apply item_py_int_fails. exact Hmajor.
Qed.

Lemma windows_upgrade_outcome_iff (h : host) (s : Z) :
  platform_system h = "Windows" ->
  (outcome (check_upgrade_compatibility h s) = Ok tt <-> version_readable h).
Proof.
  intro Hsys. split; [| apply (readable_returns h s Hsys)].
  intro Hok.
  destruct (current_version_major h) as [major |] eqn:Hmajor.
  - destruct (Z.eqb_spec major 10) as [-> | Hne].
    + destruct (build_number h) as [build |] eqn:Hb.
      * exists 10. split; [exact Hmajor | eauto].
      * exfalso.
        assert (Hno : ~ version_readable h).
        { intros (m & Hm & Hbm). rewrite Hmajor in Hm. inversion Hm; subst m.
          destruct (Hbm eq_refl) as [b Hb']. congruence. }
        destruct (unreadable_raises h s Hsys Hno) as (e & He & _).
        rewrite He in Hok. discriminate.
    + exists major. split; [exact Hmajor | congruence].
  - exfalso.
    assert (Hno : ~ version_readable h).
    { intros (m & Hm & _). congruence. }
    destruct (unreadable_raises h s Hsys Hno) as (e & He & _).
    rewrite He in Hok. discriminate.
Qed.

(** X9.  On Windows, [check_upgrade_compatibility] returns exactly when
    the version strings can be read: the release starts with a number
    and, for 10, the version has a third component that is a number.
    Otherwise it raises [ValueError] or [IndexError] before printing
    anything, not even its banner, and the score is left as it was. *)
Theorem upgrade_check_returns_iff (h : host) (s : Z) :
  platform_system h = "Windows" ->
  let r := check_upgrade_compatibility h s in
  (outcome r = Ok tt <-> version_readable h) /\
  (~ version_readable h ->
   exists e, r = mkRun (Raise e) s [] /\ (e = ValueError \/ e = IndexError)) /\
  (current_version_major h = None -> r = mkRun (Raise ValueError) s []).
Proof.
  intros Hsys r. subst r.
  split; [apply (windows_upgrade_outcome_iff h s Hsys) |].
  split; [apply (unreadable_raises h s Hsys) |].
  intro Hmajor. unfold check_upgrade_compatibility. rewrite Hsys.
  change (negb ("Windows" =? "Windows")%string) with false. cbv iota zeta.
  unfold current_version_major in Hmajor.
  pose proof (split_not_nil "." (platform_release h)) as Hnil.
  destruct (Py.split "." (platform_release h)) as [| part parts] eqn:Es;
    [congruence |].
  apply (py_int_fails (part :: parts) 0 part); [reflexivity | exact Hmajor].
Qed.

Lemma upgrade_check_returns_iff_witness :
  check_upgrade_compatibility windows_server 100 = mkRun (Raise ValueError) 100 [].
Proof.
  destruct (upgrade_check_returns_iff windows_server 100 eq_refl)
    as (_ & _ & H).
  apply H. vm_compute. reflexivity.
Defined.

(** X10.  On Windows, a major version other than 7, 8 and 10 has no
    upgrade path: the check prints its banner and the no-path line with
    the release as read, makes no query and checks no requirement. *)
Theorem no_upgrade_path (h : host) (major s : Z) :
  platform_system h = "Windows" ->
  current_version_major h = Some major ->
  major <> 7 -> major <> 8 -> major <> 10 ->
  check_upgrade_compatibility h s =
  mkRun (Ok tt) s
    [ Print (Banner "Windows Upgrade Compatibility");
      Print (NoUpgradePath (platform_release h)) ].
Proof.
  intros Hsys Hmajor H7 H8 H10.
  unfold check_upgrade_compatibility. rewrite Hsys.
  change (negb ("Windows" =? "Windows")%string) with false. cbv iota zeta.
  rewrite (item_py_int _ _ major s _ Hmajor).
  destruct (Z.eqb_spec major 7); [contradiction |].
  destruct (Z.eqb_spec major 8); [contradiction |].
  destruct (Z.eqb_spec major 10); [contradiction |]. reflexivity.
Qed.

Lemma no_upgrade_path_witness :
  check_upgrade_compatibility windows_release_11 100 =
  mkRun (Ok tt) 100
    [ Print (Banner "Windows Upgrade Compatibility");
      Print (NoUpgradePath "11") ].
Proof.
  apply (no_upgrade_path windows_release_11 11 100);
    [reflexivity | vm_compute; reflexivity | lia | lia | lia].
Defined.

(** ** When a run reaches the report *)

Lemma outcome_seq (m k : M unit) (s : Z) :
  outcome ((m;; k) s) = Ok tt <->
  outcome (m s) = Ok tt /\ outcome (k (health_score (m s))) = Ok tt.
Proof.
  unfold bind. destruct (outcome (m s)) as [[] | e]; cbn [outcome].
  - tauto.
  - split; [discriminate | intros [H _]; discriminate].
Qed.

Lemma get_disk_info_returns_iff (h : host) (s : Z) :
  outcome (get_disk_info h s) = Ok tt <->
  exists partitions, disk_partitions h = Ok partitions.
Proof.
  destruct (disk_partitions h) as [ps | e] eqn:Hp.
  - split; [eauto | intros _].
    unfold get_disk_info. rewrite Hp.
    destruct (disk_loop_run h ps s) as (Ho & _).
    change (fun partition => disk_loop_body h partition) with (disk_loop_body h).
    run_head. now rewrite Ho.
  - rewrite (get_disk_info_raises h e s Hp). cbn [outcome].
    split; [discriminate | intros [ps Hps]; discriminate].
Qed.

Lemma get_battery_info_returns_iff (h : host) (s : Z) :
  outcome (get_battery_info h s) = Ok tt <->
  exists battery, sensors_battery h = Ok battery.
Proof.
  destruct (sensors_battery h) as [[b |] | e] eqn:Hb.
  - split; [eauto | intros _]. now apply (get_battery_info_run h b s).
  - split; [eauto | intros _]. unfold get_battery_info. rewrite Hb. reflexivity.
  - rewrite (get_battery_info_raises h e s Hb). cbn [outcome].
    split; [discriminate | intros [b Hb']; discriminate].
Qed.

Lemma upgrade_outcome_iff (h : host) (s : Z) :
  outcome (check_upgrade_compatibility h s) = Ok tt <->
  (platform_system h = "Windows" -> version_readable h).
Proof.
  destruct (String.eqb_spec (platform_system h) "Windows") as [Hsys | Hsys].
  - rewrite (windows_upgrade_outcome_iff h s Hsys). tauto.
  - split; [intros _ H; contradiction | intros _].
    unfold check_upgrade_compatibility. rewrite (off_windows h Hsys). reflexivity.
Qed.

Lemma guarded_outcome (h : host) (m : method) (s : Z) :
  guarded m = true -> outcome (exec h m s) = Ok tt.
Proof. intro Hg. apply returns_unit. now apply guarded_returns. Qed.

(** X11.  A run reaches the health report and returns exactly when the
    partitions can be listed, the battery can be asked for and, on
    Windows, the version strings can be read; whatever else raises is
    caught on the way. *)
Theorem run_completes_iff (h : host) :
  outcome (main h) = Ok tt <-> run_can_complete h.
Proof.
  unfold main, run_can_complete. cbv zeta. cbn [outcome].
  unfold run_all_checks. rewrite !outcome_seq.
  rewrite get_disk_info_returns_iff, get_battery_info_returns_iff,
    upgrade_outcome_iff.
  split.
  - intros (_ & _ & _ & _ & Hd & Hb & _ & _ & _ & Hu & _). auto.
  - intros (Hd & Hb & Hu).
    split; [apply (guarded_outcome h GetSystemInfo); reflexivity |].
    split; [apply (guarded_outcome h GetLastWindowsUpdate); reflexivity |].
    split; [apply (guarded_outcome h GetCpuInfo); reflexivity |].
    split; [apply (guarded_outcome h GetRamInfo); reflexivity |].
    split; [exact Hd |]. split; [exact Hb |].
    split; [apply (guarded_outcome h GetGpuInfo); reflexivity |].
    split; [apply (guarded_outcome h GetNetworkInfo); reflexivity |].
    split; [apply (guarded_outcome h GetAdvancedHardwareInfo); reflexivity |].
    split; [exact Hu |].
    apply (guarded_outcome h ShowHealthReport). reflexivity.
Qed.

Lemma run_completes_iff_witness :
  outcome (main linux_on_battery) = Ok tt.
Proof.
  apply (run_completes_iff linux_on_battery).
  split; [eexists; reflexivity |]. split; [eexists; reflexivity |].
  intro H. vm_compute in H. discriminate.
Defined.

(** ** The requirement checks in detail *)

Lemma gib_lt (bytes required_gb : Z) :
  Py.lt (gib bytes) (inject_Z required_gb) = true <->
  bytes < required_gb * 1024 ^ 3.
Proof.
  rewrite lt_spec. unfold gib.
  change (1024 ^ 3) with 1073741824.
  unfold Qlt, Qdiv, Qmult, Qinv, inject_Z. cbn. lia.
Qed.

Lemma size_verdict_passed (required_gb bytes : Z) :
  size_verdict required_gb bytes = Passed <-> required_gb * 1024 ^ 3 <= bytes.
Proof.
  unfold size_verdict. pose proof (gib_lt bytes required_gb) as H.
  destruct (Py.lt (gib bytes) (inject_Z required_gb)).
  - split; [discriminate |]. intro Hle.
    assert (bytes < required_gb * 1024 ^ 3) by now apply H. lia.
  - split; [intros _ | reflexivity].
    destruct (Z_lt_le_dec bytes (required_gb * 1024 ^ 3)) as [Hlt | Hle];
      [apply H in Hlt; discriminate | exact Hle].
Qed.

Lemma cpu_verdict_passed (reqs : requirements) (cores : option Z) (f : scpufreq) :
  cpu_verdict reqs cores f = Passed <->
  exists n, cores = Some n /\ CPU_CORES reqs <= n /\
            (inject_Z (CPU_FREQ reqs) <= freq_current f)%Q.
Proof.
  unfold cpu_verdict. destruct cores as [n |].
  - pose proof (lt_spec (freq_current f) (inject_Z (CPU_FREQ reqs))) as Hlt.
    destruct (Z.ltb_spec n (CPU_CORES reqs)) as [Hn | Hn]; cbn [orb].
    + split; [discriminate | intros (n' & Hn' & Hc & _)].
      inversion Hn'; subst n'. lia.
    + destruct (Py.lt (freq_current f) (inject_Z (CPU_FREQ reqs))).
      * split; [discriminate | intros (n' & _ & _ & Hq)].
        assert (Hl : (freq_current f < inject_Z (CPU_FREQ reqs))%Q) by now apply Hlt.
        exfalso. exact (Qlt_not_le _ _ Hl Hq).
      * split; [intros _ | reflexivity].
        exists n. split; [reflexivity |]. split; [exact Hn |].
        apply Qnot_lt_le. intro Hl. apply Hlt in Hl. discriminate.
  - split; [discriminate | intros (n & Hn & _); discriminate].
Qed.

Lemma check_cpu_verdict (h : host) (reqs : requirements) (cores : option Z)
    (f : scpufreq) (c : bool) (s : Z) :
  cpu_count h = Ok cores -> cpu_freq h = Ok (Some f) ->
  results (trace (check_cpu h reqs c s)) =
  [Check Processor (cpu_verdict reqs cores f)].
Proof.
  intros Hc Hf. unfold check_cpu, cpu_verdict. rewrite Hc, Hf.
  destruct cores as [n |]; run_steps.
  - destruct ((n <? CPU_CORES reqs)
              || Py.lt (freq_current f) (inject_Z (CPU_FREQ reqs)));
      reflexivity.
  - reflexivity.
Qed.

Lemma check_ram_verdict (h : host) (reqs : requirements) (mem : svmem)
    (c : bool) (s : Z) :
  virtual_memory h = Ok mem ->
  results (trace (check_ram h reqs c s)) =
  [Check Ram (size_verdict (RAM_GB reqs) (vm_total mem))].
Proof.
  intro Hm. unfold check_ram, size_verdict. rewrite Hm. run_steps.
  destruct (Py.lt (gib (vm_total mem)) (inject_Z (RAM_GB reqs))); reflexivity.
Qed.

Lemma check_storage_verdict (h : host) (reqs : requirements) (du : sdiskusage)
    (c : bool) (s : Z) :
  disk_usage h "C:\" = Ok du ->
  results (trace (check_storage h reqs c s)) =
  [Check Storage (size_verdict (DISK_GB reqs) (du_total du))].
Proof.
  intro Hd. unfold check_storage, size_verdict. rewrite Hd. run_steps.
  destruct (Py.lt (gib (du_total du)) (inject_Z (DISK_GB reqs))); reflexivity.
Qed.

Lemma check_tpm_secure_boot_verdict (h : host) (c : bool) (s : Z)
    (w : WMI) (os : OperatingSystem) (l : list OperatingSystem) (sb : bool)
    (tpm : Tpm) (l' : list Tpm) :
  wmi_WMI h = Ok w ->
  Win32_OperatingSystem w = Ok (os :: l) ->
  SecureBoot os = Ok sb ->
  Win32_Tpm w = Ok (tpm :: l') ->
  results (trace (check_tpm_secure_boot h "Windows 11" c s)) =
  [ Check SecureBootEnabled (secure_boot_verdict sb);
    Check Tpm20 (tpm_verdict tpm) ].
Proof.
  intros H1 H2 H3 H4. unfold check_tpm_secure_boot.
  change ("Windows 11" =? "Windows 11")%string with true. cbv iota.
  rewrite H1. destruct w as [vc dm bb bios oss tpms].
  cbn in H2, H4. subst oss tpms. destruct os as [b]. cbn in H3. subst b.
  unfold tpm_verdict, secure_boot_verdict. destruct tpm as [[v |]].
  - cbn [SpecVersion].
    destruct (Py.truthy_str v) eqn:Et; destruct (Py.contains "2.0" v) eqn:Ec;
      destruct sb;
      cbv beta iota zeta delta
        [Win32_OperatingSystem Win32_Tpm SecureBoot SpecVersion];
      run_steps; rewrite ?Et, ?Ec; cbn; reflexivity.
  - cbn [SpecVersion]. destruct sb;
      cbv beta iota zeta delta
        [Win32_OperatingSystem Win32_Tpm SecureBoot SpecVersion];
      run_steps; cbn; reflexivity.
Qed.

Lemma check_requirements_results (h : host) (target : string)
    (reqs : requirements) (s : Z) :
  exists c1 c2 c3,
    results (trace (check_requirements h target reqs s)) =
      results (trace (check_cpu h reqs true s))
      ++ results (trace (check_ram h reqs c1 s))
      ++ results (trace (check_storage h reqs c2 s))
      ++ results (trace (check_tpm_secure_boot h target c3 s)) /\
    can_upgrade_lines (trace (check_requirements h target reqs s)) =
      [(target, all_passed (results (trace (check_requirements h target reqs s))))].
Proof.
  destruct (check_requirements_trace h target reqs s)
    as (c1 & c2 & c3 & c4 & Hc4 & Hu & Heq).
  cbv zeta in Hc4, Hu, Heq. exists c1, c2, c3.
  assert (Hrs : results (trace (check_requirements h target reqs s)) =
                results (trace (check_cpu h reqs true s)
                         ++ trace (check_ram h reqs c1 s)
                         ++ trace (check_storage h reqs c2 s)
                         ++ trace (check_tpm_secure_boot h target c3 s))).
  { rewrite Heq. cbn [trace]. rewrite results_app, (results_app _ [_; _; _]).
    cbn. now rewrite app_nil_r. }
  split.
  - rewrite Hrs, !results_app. reflexivity.
  - rewrite Hrs, <- Hc4, Heq. cbn [trace].
    rewrite can_upgrade_lines_app, (can_upgrade_lines_app _ [_; _; _]), Hu.
    reflexivity.
Qed.

Lemma tpm_verdict_passed (tpm : Tpm) :
  tpm_verdict tpm = Passed <->
  exists v, SpecVersion tpm = Some v /\ Py.contains "2.0" v = true.
Proof.
  unfold tpm_verdict. destruct (SpecVersion tpm) as [v |].
  - destruct (Py.contains "2.0" v) eqn:Ec.
    + assert (Ht : Py.truthy_str v = true).
      { destruct v; [vm_compute in Ec; discriminate | reflexivity]. }
      rewrite Ht. cbn [andb]. split; [eauto | reflexivity].
    + rewrite andb_false_r. split; [discriminate |].
      intros (v' & Hv & Hc). inversion Hv; subst v'. congruence.
  - split; [discriminate | intros (v & Hv & _); discriminate].
Qed.

Lemma all_passed_checks (checks : list (requirement * verdict)) :
  all_passed (map (fun c => Check (fst c) (snd c)) checks) = true <->
  forall c, In c checks -> snd c = Passed.
Proof.
  unfold all_passed. rewrite forallb_forall. split.
  - intros H [r v] Hin. specialize (H (Check r v)).
    cbn in *. assert (Hp : passed (Check r v) = true).
    { apply H. apply (in_map (fun c => Check (fst c) (snd c)) _ (r, v) Hin). }
    destruct v; [reflexivity | discriminate | discriminate].
  - intros H l Hin. apply in_map_iff in Hin. destruct Hin as ([r v] & <- & Hin).
    cbn. specialize (H (r, v) Hin). cbn in H. now rewrite H.
Qed.

Lemma check_requirements_wmi_free (h : host) (target : string)
    (reqs : requirements) (s : Z) (q : query) :
  target <> "Windows 11" ->
  In q (queried (trace (check_requirements h target reqs s))) ->
  windows_query q = false.
Proof.
  intros Hne Hin. apply String.eqb_neq in Hne.
  assert (Hk : keeps (queries_within (fun q => negb (windows_query q)))
                 (check_requirements h target reqs)).
  { unfold check_requirements, check_tpm_secure_boot, check_storage,
      check_ram, check_cpu. rewrite Hne. walk_seq queries_leaf. }
  specialize (Hk s). unfold queries_within in Hk.
  rewrite forallb_forall in Hk. apply Hk in Hin.
  now apply negb_true_iff in Hin.
Qed.

(** X12.  For the targets Windows 8.1 and Windows 10, when the three
    hardware queries answer, the verdict is "can be upgraded" exactly
    when the machine has the required cores and frequency, at least the
    required number of GiB of RAM in bytes and a system drive of at
    least the required number of GiB in bytes; TPM and Secure Boot are
    not looked at. *)
Theorem upgrade_verdict_without_tpm (h : host) (target : string)
    (reqs : requirements) (n : Z) (f : scpufreq) (mem : svmem)
    (du : sdiskusage) (s : Z) :
  platform_system h = "Windows" ->
  candidate h = Some (target, reqs) ->
  target <> "Windows 11" ->
  cpu_count h = Ok (Some n) ->
  cpu_freq h = Ok (Some f) ->
  virtual_memory h = Ok mem ->
  disk_usage h "C:\" = Ok du ->
  let r := check_upgrade_compatibility h s in
  results (trace r) =
    [ Check Processor (cpu_verdict reqs (Some n) f);
      Check Ram (size_verdict (RAM_GB reqs) (vm_total mem));
      Check Storage (size_verdict (DISK_GB reqs) (du_total du)) ] /\
  (can_upgrade_lines (trace r) = [(target, true)] <->
   CPU_CORES reqs <= n /\
   (inject_Z (CPU_FREQ reqs) <= freq_current f)%Q /\
   RAM_GB reqs * 1024 ^ 3 <= vm_total mem /\
   DISK_GB reqs * 1024 ^ 3 <= du_total du) /\
  ~ In Q_wmi_WMI (queried (trace r)).
Proof.
  intros Hsys Hcand Hne Hc Hf Hm Hd r. subst r.
  rewrite (candidate_selected h target reqs s Hsys Hcand).
  destruct (check_requirements_results h target reqs s)
    as (c1 & c2 & c3 & Hrs & Hu).
  destruct (check_tpm_secure_boot_results h target c3 s) as [Hnil _].
  cbv zeta in Hnil.
  rewrite (check_cpu_verdict h reqs (Some n) f true s Hc Hf),
    (check_ram_verdict h reqs mem c1 s Hm),
    (check_storage_verdict h reqs du c2 s Hd), (Hnil Hne) in Hrs.
  cbn [results printed filter app] in Hrs.
  split; [exact Hrs |]. split.
  - rewrite Hu, Hrs.
    pose proof (all_passed_checks
      [ (Processor, cpu_verdict reqs (Some n) f);
        (Ram, size_verdict (RAM_GB reqs) (vm_total mem));
        (Storage, size_verdict (DISK_GB reqs) (du_total du)) ]) as Hall.
    cbn [map fst snd] in Hall.
    pose proof (cpu_verdict_passed reqs (Some n) f) as Hcpu.
    pose proof (size_verdict_passed (RAM_GB reqs) (vm_total mem)) as Hram.
    pose proof (size_verdict_passed (DISK_GB reqs) (du_total du)) as Hdisk.
    split.
    + intro Heq. assert (Hp : all_passed
        [ Check Processor (cpu_verdict reqs (Some n) f);
          Check Ram (size_verdict (RAM_GB reqs) (vm_total mem));
          Check Storage (size_verdict (DISK_GB reqs) (du_total du)) ] = true)
        by (inversion Heq; reflexivity).
      pose proof (proj1 Hall Hp) as Hp'.
      assert (H1 := Hp' (Processor, _) (or_introl eq_refl)).
      assert (H2 := Hp' (Ram, _) (or_intror (or_introl eq_refl))).
      assert (H3 := Hp' (Storage, _) (or_intror (or_intror (or_introl eq_refl)))).
      cbn [snd] in H1, H2, H3.
      apply Hcpu in H1. destruct H1 as (n' & Hn' & Hcores & Hfreq).
      inversion Hn'; subst n'.
      split; [exact Hcores |]. split; [exact Hfreq |].
      split; [now apply Hram | now apply Hdisk].
    + intros (Hcores & Hfreq & Hr & Hdk).
      assert (Hp : all_passed
        [ Check Processor (cpu_verdict reqs (Some n) f);
          Check Ram (size_verdict (RAM_GB reqs) (vm_total mem));
          Check Storage (size_verdict (DISK_GB reqs) (du_total du)) ] = true).
      { apply (proj2 Hall). intros c [<- | [<- | [<- | []]]]; cbn [snd].
        - apply Hcpu. exists n. auto.
        - now apply Hram.
        - now apply Hdisk. }
      now rewrite Hp.
  - intro Hin.
    pose proof (check_requirements_wmi_free h target reqs s Q_wmi_WMI Hne Hin)
      as Hfree.
    discriminate Hfree.
Qed.

Lemma upgrade_verdict_without_tpm_witness :
  can_upgrade_lines (trace (check_upgrade_compatibility windows8 100)) =
  [("Windows 10", true)].
Proof.
  assert (Hne : "Windows 10" <> "Windows 11") by discriminate.
  destruct (upgrade_verdict_without_tpm windows8 "Windows 10" requirements_10 4
              {| freq_current := 2000 # 1; freq_max := 2000 # 1 |}
              {| vm_total := 4 * GiB; vm_used := 4 * GiB / 2; vm_percent := 50 |}
              (usage_of (120 * GiB) (60 * GiB) (50 # 1)) 100
              eq_refl eq_refl Hne eq_refl eq_refl eq_refl eq_refl)
    as (_ & H & _).
  apply H. vm_compute.
  split; [discriminate |]. split; [discriminate |].
  split; discriminate.
Defined.

(** X13.  For the target Windows 11, when every query answers, the
    verdict is "can be upgraded" exactly when the machine has 2 cores,
    1000 MHz, 4 GiB of RAM and a 64 GiB system drive, Secure Boot is
    enabled and the TPM specification version contains "2.0". *)
Theorem upgrade_verdict_windows_11 (h : host) (n : Z) (f : scpufreq)
    (mem : svmem) (du : sdiskusage) (w : WMI) (os : OperatingSystem)
    (l : list OperatingSystem) (sb : bool) (tpm : Tpm) (l' : list Tpm) (s : Z) :
  platform_system h = "Windows" ->
  candidate h = Some ("Windows 11", requirements_11) ->
  cpu_count h = Ok (Some n) ->
  cpu_freq h = Ok (Some f) ->
  virtual_memory h = Ok mem ->
  disk_usage h "C:\" = Ok du ->
  wmi_WMI h = Ok w ->
  Win32_OperatingSystem w = Ok (os :: l) ->
  SecureBoot os = Ok sb ->
  Win32_Tpm w = Ok (tpm :: l') ->
  let r := check_upgrade_compatibility h s in
  results (trace r) =
    [ Check Processor (cpu_verdict requirements_11 (Some n) f);
      Check Ram (size_verdict 4 (vm_total mem));
      Check Storage (size_verdict 64 (du_total du));
      Check SecureBootEnabled (secure_boot_verdict sb);
      Check Tpm20 (tpm_verdict tpm) ] /\
  (can_upgrade_lines (trace r) = [("Windows 11", true)] <->
   2 <= n /\
   (1000 <= freq_current f)%Q /\
   4 * 1024 ^ 3 <= vm_total mem /\
   64 * 1024 ^ 3 <= du_total du /\
   sb = true /\
   exists v, SpecVersion tpm = Some v /\ Py.contains "2.0" v = true).
Proof.
  intros Hsys Hcand Hc Hf Hm Hd Hw Hos Hsb Htpm r. subst r.
  rewrite (candidate_selected h _ _ s Hsys Hcand).
  destruct (check_requirements_results h "Windows 11" requirements_11 s)
    as (c1 & c2 & c3 & Hrs & Hu).
  rewrite (check_cpu_verdict h _ (Some n) f true s Hc Hf),
    (check_ram_verdict h _ mem c1 s Hm),
    (check_storage_verdict h _ du c2 s Hd),
    (check_tpm_secure_boot_verdict h c3 s w os l sb tpm l' Hw Hos Hsb Htpm)
    in Hrs.
  cbn [app RAM_GB DISK_GB requirements_11] in Hrs.
  split; [exact Hrs |].
  rewrite Hu, Hrs.
  pose proof (all_passed_checks
    [ (Processor, cpu_verdict requirements_11 (Some n) f);
      (Ram, size_verdict 4 (vm_total mem));
      (Storage, size_verdict 64 (du_total du));
      (SecureBootEnabled, secure_boot_verdict sb);
      (Tpm20, tpm_verdict tpm) ]) as Hall.
  cbn [map fst snd] in Hall.
  pose proof (cpu_verdict_passed requirements_11 (Some n) f) as Hcpu.
  cbn [CPU_CORES CPU_FREQ requirements_11] in Hcpu.
  pose proof (size_verdict_passed 4 (vm_total mem)) as Hram.
  pose proof (size_verdict_passed 64 (du_total du)) as Hdisk.
  pose proof (tpm_verdict_passed tpm) as Ht.
  split.
  - intro Heq.
    assert (Hp : all_passed
      [ Check Processor (cpu_verdict requirements_11 (Some n) f);
        Check Ram (size_verdict 4 (vm_total mem));
        Check Storage (size_verdict 64 (du_total du));
        Check SecureBootEnabled (secure_boot_verdict sb);
        Check Tpm20 (tpm_verdict tpm) ] = true)
      by (inversion Heq; reflexivity).
    pose proof (proj1 Hall Hp) as Hp'.
    assert (H1 := Hp' (Processor, _) (or_introl eq_refl)).
    assert (H2 := Hp' (Ram, _) (or_intror (or_introl eq_refl))).
    assert (H3 := Hp' (Storage, _) (or_intror (or_intror (or_introl eq_refl)))).
    assert (H4 := Hp' (SecureBootEnabled, _)
                    (or_intror (or_intror (or_intror (or_introl eq_refl))))).
    assert (H5 := Hp' (Tpm20, _)
                    (or_intror (or_intror (or_intror (or_intror (or_introl eq_refl)))))).
    cbn [snd] in H1, H2, H3, H4, H5.
    apply Hcpu in H1. destruct H1 as (n' & Hn' & Hcores & Hfreq).
    inversion Hn'; subst n'.
    split; [exact Hcores |]. split; [exact Hfreq |].
    split; [now apply Hram |]. split; [now apply Hdisk |].
    split; [destruct sb; [reflexivity | discriminate] | now apply Ht].
  - intros (Hcores & Hfreq & Hr & Hdk & -> & Hv).
    assert (Hp : all_passed
      [ Check Processor (cpu_verdict requirements_11 (Some n) f);
        Check Ram (size_verdict 4 (vm_total mem));
        Check Storage (size_verdict 64 (du_total du));
        Check SecureBootEnabled (secure_boot_verdict true);
        Check Tpm20 (tpm_verdict tpm) ] = true).
    { apply (proj2 Hall).
      intros c [<- | [<- | [<- | [<- | [<- | []]]]]]; cbn [snd].
      - apply Hcpu. exists n. auto.
      - now apply Hram.
      - now apply Hdisk.
      - reflexivity.
      - now apply Ht. }
    now rewrite Hp.
Qed.

Lemma upgrade_verdict_windows_11_witness :
  can_upgrade_lines (trace (check_upgrade_compatibility windows10_ready 100)) =
  [("Windows 11", true)].
Proof.
  destruct (upgrade_verdict_windows_11 windows10_ready 8
              {| freq_current := 3000 # 1; freq_max := 3000 # 1 |}
              {| vm_total := 16 * GiB; vm_used := 16 * GiB / 2; vm_percent := 50 |}
              (usage_of (500 * GiB) (100 * GiB) (20 # 1))
              (wmi_of (Ok true) (Ok [ {| SpecVersion := Some "2.0, 0, 1.38" |} ]))
              {| SecureBoot := Ok true |} [] true
              {| SpecVersion := Some "2.0, 0, 1.38" |} [] 100
              eq_refl eq_refl eq_refl eq_refl eq_refl eq_refl eq_refl eq_refl
              eq_refl eq_refl) as (_ & H).
  apply H. vm_compute.
  split; [discriminate |]. split; [discriminate |].
  split; [discriminate |]. split; [discriminate |].
  split; [reflexivity |]. eexists. split; reflexivity.
Defined.

(** ** The disk listing in detail *)

Lemma disk_loop_body_events (h : host) (p : sdiskpart) (s : Z) :
  disk_loop_body h p s =
  mkRun (Ok tt) (s - (if nearly_full h p then 10 else 0)) (disk_events h p).
Proof.
  unfold disk_loop_body, disk_events, nearly_full.
  destruct (disk_usage h (mountpoint p)) as [u | e]; run_steps.
  - destruct (Py.gt (du_percent u) 90); cbn; [reflexivity |].
    now rewrite Z.sub_0_r.
  - destruct e; cbn; now rewrite Z.sub_0_r.
Qed.

Lemma get_disk_info_run (h : host) (partitions : list sdiskpart) (s : Z) :
  disk_partitions h = Ok partitions ->
  get_disk_info h s =
  mkRun (Ok tt)
    (s - 10 * Z.of_nat (List.length (filter (nearly_full h) partitions)))
    (Print (Banner "Disk Information") :: Call Q_disk_partitions
     :: flat_map (disk_events h) partitions).
Proof.
  intro Hp. unfold get_disk_info, print_section. rewrite Hp.
  rewrite (bind_Ok (print _) _ s tt eq_refl).
  cbn [print outcome health_score trace].
  rewrite (bind_Ok (call _ _) _ s partitions eq_refl).
  cbn [call outcome health_score trace].
  change (fun partition => disk_loop_body h partition) with (disk_loop_body h).
  rewrite (for_each_run partitions _ (fun p => if nearly_full h p then 10 else 0)
             (disk_events h) s (disk_loop_body_events h)).
  cbn [outcome health_score trace app]. now rewrite total_cost_filter.
Qed.

Lemma get_disk_info_events (h : host) (partitions : list sdiskpart) (s : Z) :
  disk_partitions h = Ok partitions ->
  trace (get_disk_info h s) =
  Print (Banner "Disk Information") :: Call Q_disk_partitions
  :: flat_map (disk_events h) partitions.
Proof. intro Hp. now rewrite (get_disk_info_run h partitions s Hp). Qed.

Lemma queried_disk_events (h : host) (partitions : list sdiskpart) :
  queried (flat_map (disk_events h) partitions) =
  map (fun p => Q_disk_usage (mountpoint p)) partitions.
Proof.
  induction partitions as [| p ps IH]; [reflexivity |].
  cbn [flat_map map]. rewrite queried_app, IH. unfold disk_events.
  destruct (disk_usage h (mountpoint p)) as [u | e].
  - destruct (Py.gt (du_percent u) 90); reflexivity.
  - destruct e; reflexivity.
Qed.

Lemma printed_disk_events (h : host) (partitions : list sdiskpart)
    (p : sdiskpart) (l : line) :
  In p partitions -> In l (printed (disk_events h p)) ->
  In l (printed (flat_map (disk_events h) partitions)).
Proof.
  intros Hp Hl. induction partitions as [| p' ps IH]; [contradiction |].
  cbn [flat_map]. rewrite printed_app. apply in_or_app.
  destruct Hp as [-> | Hp]; [now left | right; auto].
Qed.

(** X14.  When the partitions can be listed, [get_disk_info] asks for the
    usage of every partition, in order, whatever the earlier ones
    answered: a partition that denies access gets its access-denied line,
    one that fails otherwise its failure line, a readable one its drive
    line, and the listing goes on. *)
Theorem every_partition_is_visited (h : host) (partitions : list sdiskpart) (s : Z) :
  disk_partitions h = Ok partitions ->
  let r := get_disk_info h s in
  queried (trace r) =
    Q_disk_partitions :: map (fun p => Q_disk_usage (mountpoint p)) partitions /\
  (forall p, In p partitions ->
     disk_usage h (mountpoint p) = Raise PermissionError ->
     In (Failure (DiskAccessDenied (device p)) PermissionError)
        (printed (trace r))) /\
  (forall p e, In p partitions ->
     disk_usage h (mountpoint p) = Raise e -> e <> PermissionError ->
     In (Failure (DiskInfoFailed (device p)) e) (printed (trace r))) /\
  (forall p u, In p partitions ->
     disk_usage h (mountpoint p) = Ok u ->
     In (Item "Drive" (VStr (device p))) (printed (trace r))).
Proof.
  intros Hp r. subst r. rewrite (get_disk_info_events h partitions s Hp).
  cbn [queried printed].
  split; [now rewrite queried_disk_events |].
  split; [| split].
  - intros p Hin He. right.
    apply (printed_disk_events h partitions p _ Hin).
    unfold disk_events. rewrite He. left. reflexivity.
  - intros p e Hin He Hne. right.
    apply (printed_disk_events h partitions p _ Hin).
    unfold disk_events. rewrite He.
    destruct e; try (left; reflexivity). congruence.
  - intros p u Hin Hu. right.
    apply (printed_disk_events h partitions p _ Hin).
    unfold disk_events. rewrite Hu. left. reflexivity.
Qed.

Lemma every_partition_is_visited_witness :
  queried (trace (get_disk_info windows_locked_drive 100)) =
  [Q_disk_partitions; Q_disk_usage "C:\"; Q_disk_usage "D:\"; Q_disk_usage "E:\"].
Proof.
  destruct (every_partition_is_visited windows_locked_drive
              [ drive_c; {| device := "D:\"; mountpoint := "D:\" |};
                {| device := "E:\"; mountpoint := "E:\" |} ] 100 eq_refl)
    as (H & _).
  exact H.
Defined.

(** ** The upgrade check when the processor is not known *)

Lemma check_cpu_unknown (h : host) (reqs : requirements) (c : bool) (s : Z) :
  (exists f, cpu_count h = Ok None /\ cpu_freq h = Ok (Some f)) \/
  (exists cores, cpu_count h = Ok cores /\ cpu_freq h = Ok None) ->
  results (trace (check_cpu h reqs c s)) = [Check Processor CouldNotCheck].
Proof.
  intros [(f & Hc & Hf) | (cores & Hc & Hf)]; unfold check_cpu;
    rewrite Hc, Hf; run_steps; reflexivity.
Qed.

(** X15.  When [psutil.cpu_count()] or [psutil.cpu_freq()] answers
    [None], the processor requirement cannot be checked and the verdict
    is "does not meet the requirements", whatever the rest of the
    machine. *)
Theorem unknown_processor_fails_upgrade (h : host) (target : string)
    (reqs : requirements) (s : Z) :
  platform_system h = "Windows" ->
  candidate h = Some (target, reqs) ->
  (exists f, cpu_count h = Ok None /\ cpu_freq h = Ok (Some f)) \/
  (exists cores, cpu_count h = Ok cores /\ cpu_freq h = Ok None) ->
  let r := check_upgrade_compatibility h s in
  outcome r = Ok tt /\
  In (Check Processor CouldNotCheck) (results (trace r)) /\
  can_upgrade_lines (trace r) = [(target, false)].
Proof.
  intros Hsys Hcand Hunknown r. subst r.
  rewrite (candidate_selected h target reqs s Hsys Hcand).
  destruct (check_requirements_results h target reqs s)
    as (c1 & c2 & c3 & Hrs & Hu).
  rewrite (check_cpu_unknown h reqs true s Hunknown) in Hrs.
  split; [apply check_requirements_returns |].
  rewrite Hu, Hrs. split; [left; reflexivity | reflexivity].
Qed.

Lemma unknown_processor_fails_upgrade_witness :
  can_upgrade_lines
    (trace (check_upgrade_compatibility windows10_unknown_cores 100)) =
  [("Windows 11", false)].
Proof.
  destruct (unknown_processor_fails_upgrade windows10_unknown_cores
              "Windows 11" requirements_11 100 eq_refl eq_refl)
    as (_ & _ & H).
  - left. eexists. split; reflexivity.
  - exact H.
Defined.

(** ** The hardware listing in detail *)

(** X16.  On Windows, [get_advanced_hardware_info] keeps what it printed
    when a later query fails: with a board listed and the BIOS query
    raising, or answering no BIOS, the two motherboard lines are followed
    by the failure line; with no board listed the BIOS is never asked
    for.  In each case the method returns. *)
Theorem hardware_listing_partial (h : host) (w : WMI) (s : Z) :
  platform_system h = "Windows" ->
  wmi_WMI h = Ok w ->
  let r := get_advanced_hardware_info h s in
  outcome r = Ok tt /\
  (Win32_BaseBoard w = Ok [] ->
   queried (trace r) = [Q_wmi_WMI; Q_Win32_BaseBoard] /\
   printed (trace r) =
     [ Banner "Advanced Hardware Information";
       Failure AdvancedHardwareFailed IndexError ]) /\
  (forall board boards e,
     Win32_BaseBoard w = Ok (board :: boards) ->
     Win32_BIOS w = Raise e \/ (Win32_BIOS w = Ok [] /\ e = IndexError) ->
     printed (trace r) =
       [ Banner "Advanced Hardware Information";
         Item "Motherboard Manufacturer" (VStr (bb_Manufacturer board));
         Item "Motherboard Model" (VStr (Product board));
         Failure AdvancedHardwareFailed e ]) /\
  (forall board boards bios bioses,
     Win32_BaseBoard w = Ok (board :: boards) ->
     Win32_BIOS w = Ok (bios :: bioses) ->
     printed (trace r) =
       [ Banner "Advanced Hardware Information";
         Item "Motherboard Manufacturer" (VStr (bb_Manufacturer board));
         Item "Motherboard Model" (VStr (Product board));
         Item "BIOS Manufacturer" (VStr (bios_Manufacturer bios));
         Item "BIOS Version" (VStr (SMBIOSBIOSVersion bios)) ]).
Proof.
  intros Hsys Hw r. subst r.
  split; [apply (guarded_outcome h GetAdvancedHardwareInfo s eq_refl) |].
  unfold get_advanced_hardware_info. rewrite Hsys.
  change (negb ("Windows" =? "Windows")%string) with false. cbv iota.
  rewrite Hw. destruct w as [vc dm bb bios_list oss tpms].
  cbn [Win32_BaseBoard Win32_BIOS].
  split; [| split].
  - intros ->. cbv beta iota zeta delta [Win32_BaseBoard Win32_BIOS].
    run_steps. split; reflexivity.
  - intros board boards e -> [-> | [-> ->]];
      cbv beta iota zeta delta [Win32_BaseBoard Win32_BIOS];
      run_steps; reflexivity.
  - intros board boards bios bioses -> ->.
    cbv beta iota zeta delta [Win32_BaseBoard Win32_BIOS].
    run_steps. reflexivity.
Qed.

Lemma hardware_listing_partial_witness :
  printed (trace (get_advanced_hardware_info windows_bios_fault 100)) =
  [ Banner "Advanced Hardware Information";
    Item "Motherboard Manufacturer" (VStr "ACME");
    Item "Motherboard Model" (VStr "B450");
    Failure AdvancedHardwareFailed (OtherError "x_wmi") ].
Proof.
  destruct (hardware_listing_partial windows_bios_fault
              {| Win32_VideoController := Ok [];
                 Win32_DesktopMonitor := Ok [];
                 Win32_BaseBoard :=
                   Ok [ {| bb_Manufacturer := "ACME"; Product := "B450" |} ];
                 Win32_BIOS := Raise (OtherError "x_wmi");
                 Win32_OperatingSystem := Ok [];
                 Win32_Tpm := Ok [] |} 100 eq_refl eq_refl)
    as (_ & _ & H & _).
  apply (H {| bb_Manufacturer := "ACME"; Product := "B450" |} []
           (OtherError "x_wmi") eq_refl).
  left. reflexivity.
Defined.

(** ** The network listing in detail *)

Lemma interface_names_app (ls ls' : list line) :
  interface_names (ls ++ ls') = interface_names ls ++ interface_names ls'.
Proof.
  induction ls as [| l ls IH]; [reflexivity |].
  cbn [app]. destruct l; cbn [interface_names]; try exact IH.
  destruct label as [| a0 label]; [exact IH |].
  repeat (match goal with
          | |- context [match ?x with _ => _ end] => destruct x; try exact IH
          end).
  cbn [app]. now rewrite IH.
Qed.

Lemma address_lines_no_interface (addrs : list snicaddr) :
  interface_names (flat_map address_lines addrs) = [].
Proof.
  induction addrs as [| a addrs IH]; [reflexivity |].
  cbn [flat_map]. rewrite interface_names_app, IH. unfold address_lines.
  destruct (family a =? -1); [reflexivity |].
  destruct (family a =? AF_INET); reflexivity.
Qed.

Lemma address_lines_length (addrs : list snicaddr) :
  List.length (flat_map address_lines addrs) =
  List.length (filter listed_family addrs).
Proof.
  induction addrs as [| a addrs IH]; [reflexivity |].
  cbn [flat_map filter]. rewrite length_app, IH.
  unfold address_lines, listed_family.
  destruct (family a =? -1); [reflexivity |].
  destruct (family a =? AF_INET); reflexivity.
Qed.

(** X17.  When the interfaces can be listed, [get_network_info] prints
    every interface name once, in the order of the listing, also for an
    interface without addresses; every IPv4 address is printed as an IP
    address; and an address of any family other than -1 and [AF_INET]
    (IPv6, say) gets no line at all. *)
Theorem network_listing (h : host) (net : list (string * list snicaddr)) (s : Z) :
  net_if_addrs h = Ok net ->
  let r := get_network_info h s in
  outcome r = Ok tt /\
  interface_names (printed (trace r)) = map fst net /\
  List.length (printed (trace r)) =
    (1 + List.length net
     + List.length (filter listed_family (flat_map snd net)))%nat /\
  (forall i addrs a, In (i, addrs) net -> In a addrs ->
     family a = AF_INET ->
     In (Item "IP Address" (VStr (address a))) (printed (trace r))).
Proof.
  intros Hnet r. subst r.
  destruct (get_network_info_lines h net s Hnet) as [Ho Hl].
  rewrite Hl. split; [exact Ho |]. unfold network_lines.
  split; [| split].
  - cbn [interface_names]. clear Hnet Ho Hl.
    induction net as [| [i addrs] net IH]; [reflexivity |].
    cbn [flat_map map fst]. rewrite interface_names_app.
    unfold interface_lines at 1. cbn [fst snd interface_names].
    rewrite address_lines_no_interface. cbn [app]. f_equal. exact IH.
  - assert (Hlen : List.length (flat_map (interface_lines address_lines) net) =
                   (List.length net
                    + List.length (filter listed_family (flat_map snd net)))%nat).
    { clear Hnet Ho Hl. induction net as [| [i addrs] net IH]; [reflexivity |].
      cbn [flat_map snd List.length].
      rewrite length_app, filter_app, length_app.
      unfold interface_lines at 1. cbn [fst snd List.length].
      rewrite address_lines_length, IH. lia. }
    cbn [List.length]. rewrite Hlen. lia.
  - intros i addrs a Hin Ha Hf. right.
    apply in_flat_map. exists (i, addrs). split; [exact Hin |].
    unfold interface_lines. cbn [fst snd]. right.
    apply in_flat_map. exists a. split; [exact Ha |].
    unfold address_lines. rewrite Hf. left. reflexivity.
Qed.

Lemma network_listing_witness :
  interface_names (printed (trace (get_network_info windows_dual_stack 100))) =
  ["Ethernet"; "Loopback"].
Proof.
  destruct (network_listing windows_dual_stack
              [ ("Ethernet", [ {| family := -1; address := "00-11-22-33-44-55" |};
                               {| family := 2; address := "192.168.1.10" |};
                               {| family := 23; address := "fe80::1" |} ]);
                ("Loopback", []) ] 100 eq_refl) as (_ & H & _).
  exact H.
Defined.

(** ** How far the score can fall *)

Lemma drops_seq {A B : Type} (a b : Z) (m : M A) (k : A -> M B) :
  0 <= b -> drops_at_most a m -> (forall x, drops_at_most b (k x)) ->
  drops_at_most (a + b) (bind m k).
Proof.
  intros Hb Hm Hk s. unfold bind. specialize (Hm s).
  destruct (outcome (m s)) as [x | e]; cbn [health_score].
  - specialize (Hk x (health_score (m s))). lia.
  - lia.
Qed.

Lemma drops_untouched (h : host) (m : method) :
  scoring m = false -> m <> RunAllChecks -> drops_at_most 0 (exec h m).
Proof.
  intros Hs Hm s. pose proof (exec_untouched h m Hs Hm s) as H.
  unfold untouched in H. lia.
Qed.

Lemma get_cpu_info_drop (h : host) : drops_at_most 25 (get_cpu_info h).
Proof.
  intro s. unfold get_cpu_info.
  destruct (cpu_percent h) as [u | e1]; [| run_steps; lia].
  destruct (cpu_count h) as [c | e3];
    destruct (cpu_freq h) as [[f |] | e2]; try (run_steps; lia).
  destruct (has_sensors_temperatures h).
  - destruct (sensors_temperatures h) as [temps | e4]; [| run_steps; lia].
    destruct (Py.lookup "coretemp" temps) as [[| t l] |] eqn:El;
      run_steps; rewrite El; run_steps;
      repeat match goal with
        | |- context [if ?c then _ else _] =>
            lazymatch type of c with bool => destruct c end
        end; cbn; lia.
  - run_steps. destruct (Py.gt u 85); cbn; lia.
Qed.

Lemma get_ram_info_drop (h : host) : drops_at_most 10 (get_ram_info h).
Proof.
  intro s. unfold get_ram_info.
  destruct (virtual_memory h) as [mem | e]; run_steps; [| lia].
  destruct (Py.gt (vm_percent mem) 85); cbn; lia.
Qed.

Lemma filter_length_le {A : Type} (p : A -> bool) (xs : list A) :
  (List.length (filter p xs) <= List.length xs)%nat.
Proof.
  induction xs as [| x xs IH]; [apply le_n |].
  cbn [filter]. destruct (p x); cbn [List.length]; lia.
Qed.

Lemma get_disk_info_drop (h : host) :
  drops_at_most (10 * partition_count h) (get_disk_info h).
Proof.
  intro s. unfold partition_count.
  destruct (disk_partitions h) as [ps | e] eqn:Hp.
  - rewrite (get_disk_info_run h ps s Hp). cbn [health_score].
    pose proof (filter_length_le (nearly_full h) ps). lia.
  - rewrite (get_disk_info_raises h e s Hp). cbn [health_score]. lia.
Qed.

Lemma get_battery_info_drop (h : host) : drops_at_most 10 (get_battery_info h).
Proof.
  intro s. destruct (sensors_battery h) as [[b |] | e] eqn:Hb.
  - destruct (get_battery_info_run h b s Hb) as [_ Hs]. rewrite Hs.
    destruct (Py.lt (percent b) 30 && negb (Py.truthy_opt (power_plugged b))); lia.
  - unfold get_battery_info. rewrite Hb. run_steps. lia.
  - rewrite (get_battery_info_raises h e s Hb). cbn [health_score]. lia.
Qed.

Lemma get_gpu_info_drop (h : host) :
  drops_at_most (10 * gpu_count h) (get_gpu_info h).
Proof.
  intro s. unfold gpu_count.
  destruct (getGPUs h) as [[| g gs] | e] eqn:Hg.
  - rewrite get_gpu_info_fallback_path; [cbn; lia |].
    intros (g & gs & H). congruence.
  - rewrite (get_gpu_info_primary h g gs s Hg). cbn [health_score].
    pose proof (filter_length_le gpu_breach (g :: gs)). lia.
  - rewrite get_gpu_info_fallback_path; [lia |].
    intros (g & gs & H). congruence.
Qed.

Lemma partition_count_nonneg (h : host) : 0 <= partition_count h.
Proof. unfold partition_count. destruct (disk_partitions h); lia. Qed.

Lemma gpu_count_nonneg (h : host) : 0 <= gpu_count h.
Proof. unfold gpu_count. destruct (getGPUs h); lia. Qed.

(** X18.  No method takes more off the score than its checks allow: the
    CPU check 25 at most, the RAM and battery checks 10, the disk check
    10 for each partition listed, the GPU check 10 for each GPU listed,
    every other method nothing; so a run never ends below
    55 - 10 x (partitions + GPUs), and a run can end exactly there. *)
Theorem score_drop_bounded :
  (forall (h : host) (m : method) (s : Z),
     s - worst_drop h m <= health_score (exec h m s)) /\
  (forall h : host,
     55 - 10 * (partition_count h + gpu_count h) <= health_score (main h)) /\
  (exists h : host,
     health_score (main h) = 55 - 10 * (partition_count h + gpu_count h)).
Proof.
  assert (Hall : forall h : host,
    (forall (m : method) (s : Z), s - worst_drop h m <= health_score (exec h m s)) /\
    55 - 10 * (partition_count h + gpu_count h) <= health_score (main h)).
  2: { split; [intros h; apply (Hall h) |].
       split; [intros h; apply (Hall h) |].
       exists linux_worst_case. vm_compute. reflexivity. }
  intro h.
  pose proof (partition_count_nonneg h) as Hnp.
  pose proof (gpu_count_nonneg h) as Hng.
  assert (Hrun : drops_at_most (45 + 10 * partition_count h + 10 * gpu_count h)
                   (run_all_checks h)).
  { unfold run_all_checks.
    replace (45 + 10 * partition_count h + 10 * gpu_count h)
      with (0 + (0 + (25 + (10 + (10 * partition_count h
              + (10 + (10 * gpu_count h + (0 + (0 + (0 + 0)))))))))) by lia.
    apply drops_seq; [lia | apply (drops_untouched h GetSystemInfo);
                            [reflexivity | discriminate] | intros _].
    apply drops_seq; [lia | apply (drops_untouched h GetLastWindowsUpdate);
                            [reflexivity | discriminate] | intros _].
    apply drops_seq; [lia | apply get_cpu_info_drop | intros _].
    apply drops_seq; [lia | apply get_ram_info_drop | intros _].
    apply drops_seq; [lia | apply get_disk_info_drop | intros _].
    apply drops_seq; [lia | apply get_battery_info_drop | intros _].
    apply drops_seq; [lia | apply get_gpu_info_drop | intros _].
    apply drops_seq; [lia | apply (drops_untouched h GetNetworkInfo);
                            [reflexivity | discriminate] | intros _].
    apply drops_seq; [lia | apply (drops_untouched h GetAdvancedHardwareInfo);
                            [reflexivity | discriminate] | intros _].
    apply drops_seq; [lia | apply (drops_untouched h CheckUpgradeCompatibility);
                            [reflexivity | discriminate] | intros _].
    apply (drops_untouched h ShowHealthReport); [reflexivity | discriminate]. }
  split.
  - intros m. change (drops_at_most (worst_drop h m) (exec h m)).
    destruct (scoring m) eqn:Es.
    + destruct m; try discriminate; cbn [worst_drop exec].
      * apply get_cpu_info_drop.
      * apply get_ram_info_drop.
      * apply get_disk_info_drop.
      * apply get_battery_info_drop.
      * apply get_gpu_info_drop.
    + assert (Hm : m = RunAllChecks \/ m <> RunAllChecks)
        by (destruct m; first [now left | right; discriminate]).
      destruct Hm as [-> | Hm]; [exact Hrun |].
      replace (worst_drop h m) with 0
        by (destruct m; first [reflexivity | discriminate | congruence]).
      now apply drops_untouched.
  - unfold main. cbv zeta. cbn [health_score].
    specialize (Hrun (health_score init)). cbn [init health_score] in Hrun.
    change (health_score init) with 100. lia.
Qed.

(** ** The score, from the readings *)

Lemma score_bind_returns {A B : Type} (m : M A) (k : A -> M B) (s : Z) (a : A) :
  outcome (m s) = Ok a ->
  health_score (bind m k s) = health_score (k a (health_score (m s))).
Proof. intro H. unfold bind. rewrite H. reflexivity. Qed.

Lemma score_bind_raises {A B : Type} (m : M A) (k : A -> M B) (s : Z) (e : exn) :
  outcome (m s) = Raise e ->
  health_score (bind m k s) = health_score (m s).
Proof. intro H. unfold bind. rewrite H. reflexivity. Qed.

Lemma get_cpu_info_score (h : host) (s : Z) :
  health_score (get_cpu_info h s) = s - cpu_cost h.
Proof.
  unfold cpu_cost, coretemp_reading, too_hot, get_cpu_info.
  destruct (cpu_percent h) as [u | e1]; [| run_steps; lia].
  destruct (cpu_count h) as [c | e3];
    destruct (cpu_freq h) as [[f |] | e2]; try (run_steps; lia).
  destruct (has_sensors_temperatures h).
  - destruct (sensors_temperatures h) as [temps | e4]; [| run_steps; lia].
    destruct (Py.lookup "coretemp" temps) as [[| t l] |] eqn:El;
      run_steps; rewrite El; run_steps;
      repeat match goal with
        | |- context [if ?c then _ else _] =>
            lazymatch type of c with bool => destruct c end
        end; cbn; lia.
  - run_steps. destruct (Py.gt u 85); cbn; lia.
Qed.

Lemma get_ram_info_score (h : host) (s : Z) :
  health_score (get_ram_info h s) = s - ram_cost h.
Proof.
  unfold ram_cost, get_ram_info.
  destruct (virtual_memory h) as [mem | e]; run_steps; [| lia].
  destruct (Py.gt (vm_percent mem) 85); cbn; lia.
Qed.

Lemma get_disk_info_score (h : host) (s : Z) :
  health_score (get_disk_info h s) = s - disk_cost h.
Proof.
  unfold disk_cost. destruct (disk_partitions h) as [ps | e] eqn:Hp.
  - now rewrite (get_disk_info_run h ps s Hp).
  - rewrite (get_disk_info_raises h e s Hp). cbn [health_score]. lia.
Qed.

Lemma get_battery_info_score (h : host) (s : Z) :
  health_score (get_battery_info h s) = s - battery_cost h.
Proof.
  unfold battery_cost. destruct (sensors_battery h) as [[b |] | e] eqn:Hb.
  - destruct (get_battery_info_run h b s Hb) as [_ Hs]. rewrite Hs.
    destruct (Py.lt (percent b) 30 && negb (Py.truthy_opt (power_plugged b))); lia.
  - unfold get_battery_info. rewrite Hb. run_steps. lia.
  - rewrite (get_battery_info_raises h e s Hb). cbn [health_score]. lia.
Qed.

Lemma get_gpu_info_score (h : host) (s : Z) :
  health_score (get_gpu_info h s) = s - gpu_cost h.
Proof.
  unfold gpu_cost. destruct (getGPUs h) as [[| g gs] | e] eqn:Hg.
  - rewrite get_gpu_info_fallback_path; [cbn; lia |].
    intros (g & gs & H). congruence.
  - now rewrite (get_gpu_info_primary h g gs s Hg).
  - rewrite get_gpu_info_fallback_path; [lia |].
    intros (g & gs & H). congruence.
Qed.

(** Goes past a method of the run that always returns and leaves the
    score alone. *)
Ltac pass_informational h m s :=
  let Ho := fresh "Ho" in
  let Hs := fresh "Hs" in
  pose proof (guarded_outcome h m s eq_refl) as Ho;
  pose proof (exec_untouched h m eq_refl ltac:(discriminate) s) as Hs;
  unfold untouched in Hs; cbn [exec] in Ho, Hs;
  rewrite (score_bind_returns _ _ s tt Ho), Hs; clear Ho Hs.

(** Goes past a scoring method of the run that always returns. *)
Ltac pass_guarded h m s :=
  let Ho := fresh "Ho" in
  pose proof (guarded_outcome h m s eq_refl) as Ho; cbn [exec] in Ho;
  rewrite (score_bind_returns _ _ s tt Ho); clear Ho.

Lemma run_all_checks_score (h : host) (s : Z) :
  health_score (run_all_checks h s) = s - run_cost h.
Proof.
  assert (Hend : keeps untouched
                   (check_upgrade_compatibility h;; show_health_report)).
  { apply keeps_bind; [typeclasses eauto | |].
    - apply (exec_untouched h CheckUpgradeCompatibility eq_refl). discriminate.
    - intros _. apply (exec_untouched h ShowHealthReport eq_refl). discriminate. }
  unfold untouched, keeps in Hend.
  unfold run_all_checks, run_cost.
  pass_informational h GetSystemInfo s.
  pass_informational h GetLastWindowsUpdate s.
  pass_guarded h GetCpuInfo s. rewrite get_cpu_info_score.
  pass_guarded h GetRamInfo (s - cpu_cost h). rewrite get_ram_info_score.
  set (s2 := s - cpu_cost h - ram_cost h).
  destruct (disk_partitions h) as [ps | e] eqn:Hp.
  2: { rewrite (score_bind_raises _ _ s2 e)
         by (now rewrite (get_disk_info_raises h e s2 Hp)).
       rewrite (get_disk_info_raises h e s2 Hp). cbn [health_score].
       subst s2. lia. }
  rewrite (score_bind_returns _ _ s2 tt)
    by (apply get_disk_info_returns_iff; eauto).
  rewrite get_disk_info_score.
  set (s3 := s2 - disk_cost h).
  destruct (sensors_battery h) as [b | e] eqn:Hb.
  2: { rewrite (score_bind_raises _ _ s3 e)
         by (now rewrite (get_battery_info_raises h e s3 Hb)).
       rewrite (get_battery_info_raises h e s3 Hb). cbn [health_score].
       subst s3 s2. lia. }
  rewrite (score_bind_returns _ _ s3 tt)
    by (apply get_battery_info_returns_iff; eauto).
  rewrite get_battery_info_score.
  set (s4 := s3 - battery_cost h).
  pass_guarded h GetGpuInfo s4. rewrite get_gpu_info_score.
  set (s5 := s4 - gpu_cost h).
  pass_informational h GetNetworkInfo s5.
  pass_informational h GetAdvancedHardwareInfo s5.
  rewrite (Hend s5). subst s5 s4 s3 s2. lia.
Qed.

(** C1.  For every run, the score rendered by [show_health_report] is the
    score the run ends with; it is at most 100 and equals 100 minus the
    sum of the penalties of the breaches reported during the run, 15 for
    a CPU temperature breach and 10 for each other breach; a breach is
    reported only for a reading beyond its threshold.  The penalties
    taken are those the readings of the host call for, no more and no
    less: the run ends at 100 minus the cost of the readings of the
    checks it got to, and a run that reaches the report ends at 100
    minus the cost of the CPU, memory, disk, battery and GPU readings;
    a machine with no reading beyond a threshold ends at 100. *)
Theorem final_score_accounts_for_breaches (h : host) :
  let r := main h in
  health_score r <= 100 /\
  health_score r = 100 - total_penalty (breaches (trace r)) /\
  (forall b, In b (breaches (trace r)) -> beyond_threshold b) /\
  (forall c x, In (ScoreLine c x) (printed (trace r)) -> x = health_score r) /\
  (outcome r = Ok tt ->
   exists c, In (ScoreLine c (health_score r)) (printed (trace r))) /\
  health_score r = 100 - run_cost h /\
  total_penalty (breaches (trace r)) = run_cost h /\
  (outcome r = Ok tt ->
   health_score r =
     100 - (cpu_cost h + ram_cost h + disk_cost h + battery_cost h + gpu_cost h) /\
   exists c,
     In (ScoreLine c
           (100 - (cpu_cost h + ram_cost h + disk_cost h + battery_cost h
                   + gpu_cost h)))
        (printed (trace r))) /\
  (cpu_cost h = 0 -> ram_cost h = 0 -> disk_cost h = 0 ->
   battery_cost h = 0 -> gpu_cost h = 0 ->
   health_score r = 100 /\ breaches (trace r) = []).
Proof.
  pose proof (exec_accounted h RunAllChecks 100) as Ha.
  pose proof (exec_justified h RunAllChecks 100) as Hj.
  pose proof (exec_not_raised h RunAllChecks 100) as Hn.
  pose proof (run_all_checks_score h 100) as Hc.
  destruct (renders_run_all_checks h 100) as [Hr1 Hr2].
  unfold accounted, not_raised, justified in *. cbn [exec] in *.
  assert (Hfull : outcome (run_all_checks h 100) = Ok tt ->
                  run_cost h =
                  cpu_cost h + ram_cost h + disk_cost h + battery_cost h
                  + gpu_cost h).
  { intro Hok. unfold run_all_checks in Hok. rewrite !outcome_seq in Hok.
    destruct Hok as (_ & _ & _ & _ & Hd & Hb & _).
    apply get_disk_info_returns_iff in Hd. destruct Hd as [ps Hps].
    apply get_battery_info_returns_iff in Hb. destruct Hb as [b Hb].
    unfold run_cost. rewrite Hps, Hb. lia. }
  unfold main, init. cbv zeta.
  cbn [outcome health_score trace app breaches printed].
  split; [exact Hn |]. split; [exact Ha |]. split; [exact Hj |].
  split; [| split; [| split; [| split; [| split]]]].
  - intros c x [H | [H | H]]; [discriminate H | discriminate H |].
    now apply Hr1 in H.
  - intro Hok. destruct (Hr2 Hok) as [c Hc']. exists c. right. right. exact Hc'.
  - exact Hc.
  - lia.
  - intro Hok. rewrite <- (Hfull Hok), <- Hc. split; [reflexivity |].
    destruct (Hr2 Hok) as [c Hc']. exists c. right. right. exact Hc'.
  - intros H1 H2 H3 H4 H5.
    assert (H0 : run_cost h = 0).
    { unfold run_cost. rewrite H1, H2, H3, H4, H5.
      destruct (disk_partitions h); [destruct (sensors_battery h) |]; lia. }
    split; [lia |].
    assert (Ht : total_penalty (breaches (trace (run_all_checks h 100))) = 0)
      by lia.
    destruct (breaches (trace (run_all_checks h 100))) as [| b bs];
      [reflexivity |].
    exfalso. cbn [total_penalty] in Ht.
    pose proof (total_penalty_nonneg bs). destruct b; cbn [penalty] in Ht; lia.
Qed.

Lemma final_score_accounts_for_breaches_witness :
  run_cost linux_on_battery = 120 /\
  health_score (main linux_on_battery) = 100 - 120 /\
  health_score (main linux_healthy) = 100.
Proof.
  split; [vm_compute; reflexivity |]. split.
  - destruct (final_score_accounts_for_breaches linux_on_battery)
      as (_ & _ & _ & _ & _ & H6 & _).
    rewrite H6. vm_compute. reflexivity.
  - destruct (final_score_accounts_for_breaches linux_healthy)
      as (_ & _ & _ & _ & _ & _ & _ & _ & H9).
    apply H9; vm_compute; reflexivity.
Defined.

(** ** The sections of a run *)

Lemma banners_app (t t' : list event) :
  banners (t ++ t') = banners t ++ banners t'.
Proof.
  induction t as [| [q | l] t IH]; simpl; auto.
  destruct l; simpl; rewrite ?IH; auto.
Qed.

#[local] Instance no_banner_sequential : Sequential no_banner.
Proof.
  split; unfold no_banner; intros; [reflexivity |].
  rewrite banners_app, H, H0. reflexivity.
Qed.

Lemma no_banner_print (l : line) :
  match l with Banner _ => False | _ => True end ->
  keeps no_banner (print l).
Proof. intros Hl s. unfold no_banner. destruct l; simpl; auto; contradiction. Qed.

Lemma no_banner_penalize (n : Z) : keeps no_banner (penalize n).
Proof. intro s. reflexivity. Qed.

Lemma no_banner_call {A : Type} (q : query) (r : result A) :
  keeps no_banner (call q r).
Proof. intro s. reflexivity. Qed.

Ltac banner_leaf :=
  first [ apply no_banner_print; exact I
        | apply no_banner_penalize
        | apply no_banner_call ].

Lemma banner_then (title : string) (rest : M unit) (s : Z) :
  keeps no_banner rest ->
  banners (trace ((print_section title;; rest) s)) = [title].
Proof.
  intro Hrest. unfold print_section.
  rewrite (bind_Ok (print _) _ s tt eq_refl).
  cbn [print outcome health_score trace app banners]. f_equal. apply Hrest.
Qed.

Ltac one_banner :=
  apply banner_then; walk_seq banner_leaf.

Lemma banners_fixed (h : host) (s : Z) :
  banners (trace (get_system_info h s)) = ["System Information"] /\
  banners (trace (get_cpu_info h s)) = ["Processor (CPU) Information"] /\
  banners (trace (get_ram_info h s)) = ["Memory (RAM) Information"] /\
  banners (trace (get_disk_info h s)) = ["Disk Information"] /\
  banners (trace (get_battery_info h s)) = ["Battery Information"] /\
  banners (trace (get_gpu_info h s)) = ["Graphics Card (GPU) Information"] /\
  banners (trace (get_network_info h s)) = ["Network Information"] /\
  banners (trace (get_advanced_hardware_info h s)) =
    ["Advanced Hardware Information"] /\
  banners (trace (show_health_report s)) = ["System Health Report"].
Proof.
  split; [unfold get_system_info; one_banner |].
  split; [unfold get_cpu_info; one_banner |].
  split; [unfold get_ram_info; one_banner |].
  split; [unfold get_disk_info, disk_loop_body; one_banner |].
  split; [unfold get_battery_info; one_banner |].
  split; [unfold get_gpu_info, _fallback_gpu_detection; one_banner |].
  split; [unfold get_network_info; one_banner |].
  split; [| unfold show_health_report; one_banner].
  unfold get_advanced_hardware_info.
  destruct (negb (platform_system h =? "Windows")%string); one_banner.
Qed.

Lemma banners_update (h : host) (s : Z) :
  banners (trace (get_last_windows_update h s)) =
  if (platform_system h =? "Windows")%string
  then ["Last Windows Update"] else [].
Proof.
  unfold get_last_windows_update.
  destruct (platform_system h =? "Windows")%string; cbn [negb];
    [one_banner | reflexivity].
Qed.

Lemma banners_check_requirements (h : host) (target : string)
    (reqs : requirements) (s : Z) :
  banners (trace (check_requirements h target reqs s)) =
  [("Upgrade Compatibility Check for " ++ target)%string].
Proof.
  unfold check_requirements, check_tpm_secure_boot, check_storage, check_ram,
    check_cpu.
  one_banner.
Qed.

Lemma banners_upgrade (h : host) (s : Z) :
  outcome (check_upgrade_compatibility h s) = Ok tt ->
  banners (trace (check_upgrade_compatibility h s)) = [upgrade_banner h].
Proof.
  intro Hok. unfold upgrade_banner.
  destruct (String.eqb_spec (platform_system h) "Windows") as [Hsys | Hsys].
  - apply (windows_upgrade_outcome_iff h s Hsys) in Hok.
    destruct Hok as (major & Hmajor & Hbuild).
    unfold candidate. rewrite Hmajor.
    unfold check_upgrade_compatibility. rewrite Hsys.
    change (negb ("Windows" =? "Windows")%string) with false. cbv iota zeta.
    rewrite (item_py_int _ _ major s _ Hmajor).
    destruct (major =? 7); [apply banners_check_requirements |].
    destruct (major =? 8); [apply banners_check_requirements |].
    destruct (Z.eqb_spec major 10) as [E | _]; [| reflexivity].
    destruct (Hbuild E) as [build Hb]. rewrite Hb.
    rewrite (item_py_int _ _ build s _ Hb).
    destruct (build >=? 22000);
      [reflexivity | apply banners_check_requirements].
  - unfold check_upgrade_compatibility. rewrite (off_windows h Hsys).
    reflexivity.
Qed.

Lemma banners_seq (m k : M unit) (s : Z) :
  outcome (m s) = Ok tt ->
  banners (trace ((m;; k) s)) =
  banners (trace (m s)) ++ banners (trace (k (health_score (m s)))).
Proof.
  intro Ho. rewrite (bind_Ok m _ s tt Ho). cbn [trace]. apply banners_app.
Qed.

(** X19.  A run that returns has gone through its sections once each and
    in a fixed order: system, last update (on Windows only), CPU, RAM,
    disk, battery, GPU, network, hardware, upgrade and health report; the
    upgrade section names its target when there is one. *)
Theorem run_sections_in_order (h : host) :
  outcome (main h) = Ok tt -> banners (trace (main h)) = sections h.
Proof.
  unfold main. cbv zeta. cbn [outcome trace init app banners].
  generalize 100 as s. intro s.
  unfold run_all_checks. rewrite !outcome_seq.
  intros (H1 & H2 & H3 & H4 & H5 & H6 & H7 & H8 & H9 & H10 & H11).
  rewrite (banners_seq _ _ _ H1), (banners_seq _ _ _ H2),
    (banners_seq _ _ _ H3), (banners_seq _ _ _ H4), (banners_seq _ _ _ H5),
    (banners_seq _ _ _ H6), (banners_seq _ _ _ H7), (banners_seq _ _ _ H8),
    (banners_seq _ _ _ H9), (banners_seq _ _ _ H10).
  rewrite (banners_upgrade _ _ H10), banners_update.
  repeat match goal with
    | |- context [banners (trace (?f h ?x))] =>
        let B := fresh "B" in
        pose proof (banners_fixed h x) as B;
        destruct B as (B1 & B2 & B3 & B4 & B5 & B6 & B7 & B8 & B9);
        rewrite ?B1, ?B2, ?B3, ?B4, ?B5, ?B6, ?B7, ?B8;
        clear B1 B2 B3 B4 B5 B6 B7 B8 B9
    end.
  match goal with
  | |- context [banners (trace (show_health_report ?x))] =>
      destruct (banners_fixed h x) as (_ & _ & _ & _ & _ & _ & _ & _ & B9);
      rewrite B9
  end.
  unfold sections.
  destruct (platform_system h =? "Windows")%string; reflexivity.
Qed.

Lemma run_sections_in_order_witness :
  banners (trace (main windows10_one_core)) =
  [ "System Information"; "Last Windows Update";
    "Processor (CPU) Information"; "Memory (RAM) Information";
    "Disk Information"; "Battery Information";
    "Graphics Card (GPU) Information"; "Network Information";
    "Advanced Hardware Information";
    "Upgrade Compatibility Check for Windows 11"; "System Health Report" ].
Proof.
  rewrite (run_sections_in_order windows10_one_core).
  - vm_compute. reflexivity.
  - vm_compute. reflexivity.
Defined.

(** ** Loading the module *)

Lemma import_all_ok (ok : string -> bool) (libs : list string) :
  snd (import_all ok libs) = None <-> forallb ok libs = true.
Proof.
  induction libs as [| lib libs IH]; [cbn; tauto |].
  cbn [import_all forallb]. destruct (ok lib); cbn [andb].
  - destruct (import_all ok libs) as [evs failed]. exact IH.
  - cbn. split; discriminate.
Qed.

Lemma import_all_no_pip (ok : string -> bool) (libs : list string) :
  ran_pip (fst (import_all ok libs)) = false.
Proof.
  induction libs as [| lib libs IH]; [reflexivity |].
  cbn [import_all]. destruct (ok lib); [| reflexivity].
  destruct (import_all ok libs) as [evs failed]. exact IH.
Qed.

Lemma ran_pip_app (evs evs' : list setup_event) :
  ran_pip (evs ++ evs') = ran_pip evs || ran_pip evs'.
Proof. apply existsb_app. Qed.

Lemma install_loop_quiet (env : pyenv) (libs : list string) :
  forallb (importable env) libs = true ->
  exists evs,
    install_loop env libs = (evs, Returned false, []) /\ ran_pip evs = false.
Proof.
  induction libs as [| lib libs IH]; intro Hall.
  - exists []. split; reflexivity.
  - cbn [forallb] in Hall. apply andb_true_iff in Hall. destruct Hall as [Hl Hr].
    destruct (IH Hr) as (evs & Heq & Hq).
    exists (ImportModule lib :: evs).
    cbn [install_loop]. unfold install_and_import. rewrite Hl, Heq.
    split; [reflexivity | exact Hq].
Qed.

(** X20.  The self-installer never installs anything.  The libraries it
    looks after are imported at the top of the file first, so loading
    either stops there with an uncaught import error or finds every
    library in place: pip is never run and [sys.exit] is never called,
    whatever pip would do; the checks start exactly when every import at
    the top succeeds. *)
Theorem installer_never_runs_pip (env : pyenv) :
  let evs := fst (load_module env) in
  let ending := snd (load_module env) in
  ran_pip evs = false /\
  (forall code, ending <> SysExit code) /\
  (ending = Proceeds <-> forallb (importable env) top_imports = true).
Proof.
  unfold load_module.
  pose proof (import_all_ok (importable env) top_imports) as Hok.
  pose proof (import_all_no_pip (importable env) top_imports) as Hq.
  destruct (import_all (importable env) top_imports) as [evs [lib |]].
  - cbn [fst snd] in *. split; [exact Hq |]. split; [discriminate |].
    split; [discriminate |]. intro H. apply Hok in H. discriminate.
  - cbn [fst snd] in Hok, Hq.
    assert (Hall : forallb (importable env) top_imports = true)
      by now apply Hok.
    assert (Hreq : forallb (importable env) REQUIRED_LIBRARIES = true).
    { rewrite forallb_forall in Hall. apply forallb_forall. intros lib Hin.
      apply Hall. cbn in Hin. cbn.
      decompose [or] Hin; subst; tauto. }
    destruct (install_loop_quiet env REQUIRED_LIBRARIES Hreq)
      as (evs' & Heq & Hq').
    rewrite Heq.
    assert (Hlate : forallb
              (fun lib => importable env lib
                          || (existsb (String.eqb lib) [] &&
                              importable_once_installed env lib))
              late_imports = true).
    { rewrite forallb_forall in Hall. apply forallb_forall. intros lib Hin.
      apply orb_true_iff. left. apply Hall. cbn in Hin. cbn.
      decompose [or] Hin; subst; tauto. }
    pose proof (import_all_ok
                  (fun lib => importable env lib
                              || (existsb (String.eqb lib) [] &&
                                  importable_once_installed env lib))
                  late_imports) as Hok'.
    pose proof (import_all_no_pip
                  (fun lib => importable env lib
                              || (existsb (String.eqb lib) [] &&
                                  importable_once_installed env lib))
                  late_imports) as Hq''.
    destruct (import_all _ late_imports) as [evs'' [lib |]].
    + cbn [snd] in Hok'. apply Hok' in Hlate. discriminate.
    + cbn [fst snd] in *. rewrite !ran_pip_app, Hq, Hq', Hq''.
      split; [reflexivity |]. split; [discriminate |]. tauto.
Qed.

Lemma installer_never_runs_pip_witness :
  snd (load_module complete_env) = Proceeds.
Proof.
  destruct (installer_never_runs_pip complete_env) as (_ & _ & H).
  apply H. reflexivity.
Defined.

(** ** The last update in detail *)

Lemma lstrip_blank (l : list ascii) :
  forallb Py.is_space l = true -> Py.lstrip l = [].
Proof.
  induction l as [| a l IH]; [reflexivity |].
  cbn [forallb Py.lstrip]. intro H. apply andb_true_iff in H.
  destruct H as [Ha Hl]. rewrite Ha. auto.
Qed.

Lemma strip_blank (out : string) :
  forallb Py.is_space (list_ascii_of_string out) = true ->
  Py.strip out = "".
Proof.
  intro H. unfold Py.strip, Py.strip_chars.
  rewrite (lstrip_blank _ H). reflexivity.
Qed.

(** X21.  On Windows, [get_last_windows_update] returns with its banner
    and one more line, and leaves the score alone: the output of the
    hotfix query without its surrounding white space, or, when the output
    is blank, the no-update-information line; when the query raises, a
    failure line, which for a failed process carries its output without
    the surrounding white space. *)
Theorem last_update_report (h : host) (s : Z) :
  platform_system h = "Windows" ->
  let r := get_last_windows_update h s in
  outcome r = Ok tt /\
  health_score r = s /\
  (forall out, get_hotfix h = Ok out ->
     forallb Py.is_space (list_ascii_of_string out) = true ->
     printed (trace r) = [Banner "Last Windows Update"; Note NoUpdateInformation]) /\
  (forall out, get_hotfix h = Ok out -> Py.strip out <> "" ->
     printed (trace r) = [Banner "Last Windows Update"; Text (Py.strip out)]) /\
  (forall output, get_hotfix h = Raise (CalledProcessError output) ->
     printed (trace r) =
       [ Banner "Last Windows Update";
         Failure (UpdateInfoFailed (Py.strip output)) (CalledProcessError output) ]) /\
  (forall e, get_hotfix h = Raise e ->
     (forall output, e <> CalledProcessError output) ->
     printed (trace r) =
       [Banner "Last Windows Update"; Failure UpdateInfoUnexpected e]).
Proof.
  intros Hsys r. subst r.
  split; [apply (guarded_outcome h GetLastWindowsUpdate s eq_refl) |].
  split; [apply (exec_untouched h GetLastWindowsUpdate eq_refl); discriminate |].
  unfold get_last_windows_update. rewrite Hsys.
  change (negb ("Windows" =? "Windows")%string) with false. cbv iota.
  split; [| split; [| split]].
  - intros out -> Hblank. run_steps. rewrite (strip_blank out Hblank).
    reflexivity.
  - intros out -> Hne. run_steps.
    destruct (Py.strip out) as [| a rest]; [congruence | reflexivity].
  - intros output ->. run_steps. reflexivity.
  - intros e -> Hne. run_steps. destruct e; try reflexivity.
    exfalso. exact (Hne output eq_refl).
Qed.

Lemma last_update_report_witness :
  printed (trace (get_last_windows_update
                    (windows_hotfix (Ok "  ")) 100)) =
  [Banner "Last Windows Update"; Note NoUpdateInformation].
Proof.
  destruct (last_update_report (windows_hotfix (Ok "  ")) 100 eq_refl)
    as (_ & _ & H & _).
  apply (H "  "); reflexivity.
Defined.

(** ** The report in detail *)

(** X22.  The colour of the score line always goes with the message
    under it: green with good condition, yellow with needs attention, red
    with poor condition; the report prints one of each, shows the score
    it was given and leaves it as it was. *)
Theorem report_colour_matches_message (s : Z) :
  let r := show_health_report s in
  outcome r = Ok tt /\
  health_score r = s /\
  exists t,
    messages (trace r) = [t] /\
    report_colours (trace r) = [colour_of t] /\
    printed (trace r) =
      [Banner "System Health Report"; ScoreLine (colour_of t) s; MessageLine t].
Proof.
  unfold show_health_report. run_steps.
  split; [reflexivity |]. split; [reflexivity |].
  destruct (s >=? 80); [exists GoodCondition; repeat split |].
  destruct (s >=? 50); [exists NeedsAttention | exists PoorCondition];
    repeat split.
Qed.
